(** * Soft-wrapping index of a text document

    A shallow embedding of [textual/_wrap.py] (the line breaker) and of
    [textual/document/_wrapped_document.py] (the wrapped-line index), with
    the Python list operations they rely on written out: indexing with
    negative indexes and [IndexError], slices, slice assignment, [range],
    [bisect_right]. *)

From Stdlib Require Import String Ascii Bool ZArith List Lia.
Import ListNotations.
Open Scope Z_scope.

(** ** Python values and list operations *)

Module Py.

(** The exceptions the modelled code can raise. *)
Inductive exn : Type :=
| IndexError
| ValueError
| ZeroDivisionError.

(** A computation that returns a value or raises. *)
Definition M (A : Type) : Type := (exn + A)%type.

Definition ret {A : Type} (a : A) : M A := inr a.

Definition raise {A : Type} (e : exn) : M A := inl e.

Definition bind {A B : Type} (m : M A) (f : A -> M B) : M B :=
  match m with
  | inl e => inl e
  | inr a => f a
  end.

(** A [for] loop whose body may raise: the state is threaded through the
    iterations, and an exception ends the loop. *)
Fixpoint for_each {A S : Type} (xs : list A) (body : S -> A -> M S) (s : S) : M S :=
  match xs with
  | [] => ret s
  | x :: xs' => bind (body s x) (for_each xs' body)
  end.

(** [len(l)] *)
Definition len {A : Type} (l : list A) : Z := Z.of_nat (length l).

(** [l[i]]: a negative index counts from the end; out of range raises. *)
Definition getitem {A : Type} (l : list A) (i : Z) : M A :=
  let j := if i <? 0 then i + len l else i in
  if j <? 0 then raise IndexError
  else match nth_error l (Z.to_nat j) with
       | Some a => ret a
       | None => raise IndexError
       end.

(** [l[i] = v] *)
Definition setitem {A : Type} (l : list A) (i : Z) (v : A) : M (list A) :=
  let j := if i <? 0 then i + len l else i in
  if (j <? 0) || (len l <=? j) then raise IndexError
  else ret (firstn (Z.to_nat j) l ++ v :: skipn (S (Z.to_nat j)) l).

(** How a slice bound is read against a list of length [n]: a negative bound
    counts from the end, and the result is clipped to [0..n]. *)
Definition slice_index (n i : Z) : Z :=
  if i <? 0 then Z.max 0 (i + n) else Z.min i n.

(** [l[i:j]] *)
Definition slice {A : Type} (l : list A) (i j : Z) : list A :=
  let a := slice_index (len l) i in
  let b := slice_index (len l) j in
  firstn (Z.to_nat (b - a)) (skipn (Z.to_nat a) l).

(** [l[:j]] *)
Definition slice_to {A : Type} (l : list A) (j : Z) : list A := slice l 0 j.

(** [l[i:j] = new] *)
Definition setslice {A : Type} (l : list A) (i j : Z) (new : list A) : list A :=
  let a := slice_index (len l) i in
  let b := Z.max a (slice_index (len l) j) in
  firstn (Z.to_nat a) l ++ new ++ skipn (Z.to_nat b) l.

(** [range(a, b)] *)
Definition range (a b : Z) : list Z :=
  map (fun k => a + Z.of_nat k) (seq 0 (Z.to_nat (b - a))).

(** [enumerate(xs, start)] *)
Definition enumerate {A : Type} (xs : list A) (start : Z) : list (Z * A) :=
  combine (range start (start + len xs)) xs.

(** [sum(xs)] over integers *)
Definition sum (xs : list Z) : Z := fold_left Z.add xs 0.

(** [bisect.bisect_right(a, x)]: the library's binary search, [lo = 0],
    [hi = len(a)]; the loop halves [hi - lo], so [length a] rounds are enough
    and the fuel is never the reason it stops. *)
Fixpoint bisect_right_loop (fuel : nat) (a : list Z) (x lo hi : Z) : Z :=
  match fuel with
  | O => lo
  | S fuel' =>
      if lo <? hi then
        let mid := (lo + hi) / 2 in
        match nth_error a (Z.to_nat mid) with
        | Some v =>
            if x <? v then bisect_right_loop fuel' a x lo mid
            else bisect_right_loop fuel' a x (mid + 1) hi
        | None => lo
        end
      else lo
  end.

Definition bisect_right (a : list Z) (x : Z) : Z :=
  bisect_right_loop (S (length a)) a x 0 (len a).

End Py.

Notation "x <- m ;; k" := (Py.bind m (fun x => k))
  (at level 61, m at next level, right associativity).
Notation "' pat <- m ;; k" := (Py.bind m (fun x => match x with pat => k end))
  (at level 61, pat pattern, m at next level, right associativity).

(** A Python [str]: a sequence of Unicode code points. *)
Definition char : Type := N.
Definition str : Type := list char.

(** The code points of an ASCII literal. *)
Definition str_of (s : string) : str := map N_of_ascii (list_ascii_of_string s).

(** ** Cell widths ([textual/_cells.py], which the sources do not include) *)

Module Cells.

Section CellWidths.

(** The display width of a character, which [cell_len] takes from a table of
    [rich] that is not among the sources: by the spec 0 for combining marks,
    1 for normal and 2 for wide or fullwidth characters.  The table is a
    parameter of all that measures text. *)
Variable get_character_cell_size : char -> Z.

(** Modelled from the spec: [cell_len(text)], the sum of the per-character
    display widths. *)
Definition cell_len (text : str) : Z :=
  Py.sum (map get_character_cell_size text).

End CellWidths.

End Cells.

(** ** Tab stops ([textual/expand_tabs.py], which the sources do not include) *)

Module Tabs.

Definition tab : char := 9%N.

Definition space : char := 32%N.

Section TabStops.

Variable get_character_cell_size : char -> Z.

(** Modelled from the spec: [get_tab_widths(text, tab_size)] splits the text
    at its tab characters and gives each tab the distance to the next tab
    stop, [tab_size - (column_so_far % tab_size)]; with a tab size of 0 the
    remainder raises [ZeroDivisionError] at the first tab.  [part] collects
    the section being read (in reverse), [cell_position] is the column
    reached.  The text after the last tab is a section of width 0, left out
    when it is empty. *)
Fixpoint get_tab_widths_from (text part : str) (tab_size cell_position : Z)
  : Py.M (list (str * Z)) :=
  match text with
  | [] =>
      Py.ret match part with
             | [] => []
             | _ => [(rev part, 0)]
             end
  | c :: rest =>
      if N.eqb c tab then
        let position :=
          cell_position + Cells.cell_len get_character_cell_size (rev part) in
        if tab_size =? 0 then Py.raise Py.ZeroDivisionError
        else
          let expansion_width := tab_size - position mod tab_size in
          tab_widths <-
            get_tab_widths_from rest [] tab_size (position + expansion_width) ;;
          Py.ret ((rev part, expansion_width) :: tab_widths)
      else get_tab_widths_from rest (c :: part) tab_size cell_position
  end.

Definition get_tab_widths (text : str) (tab_size : Z) : Py.M (list (str * Z)) :=
  get_tab_widths_from text [] tab_size 0.

(** Modelled from the spec: [expand_tabs_inline(text, tab_width)] renders each
    tab as that many spaces, by the same stop rule. *)
Definition expand_tabs_inline (text : str) (tab_width : Z) : Py.M str :=
  tab_widths <- get_tab_widths text tab_width ;;
  Py.ret (flat_map (fun section : str * Z =>
                      fst section ++ repeat space (Z.to_nat (snd section)))
                   tab_widths).

(** Modelled from the spec: [cell_width_to_column_index(text, target, tab_width)]
    is the largest column index whose cumulative cell width, tabs expanded,
    does not exceed [target].  The columns are tried from [column] upwards
    and the last one that qualifies is kept. *)
Fixpoint largest_column (text : str) (target tab_width : Z) (todo : nat)
  (column best : Z) : Py.M Z :=
  expanded <- expand_tabs_inline (Py.slice_to text column) tab_width ;;
  let width := Cells.cell_len get_character_cell_size expanded in
  let best' := if width <=? target then column else best in
  match todo with
  | O => Py.ret best'
  | S todo' => largest_column text target tab_width todo' (column + 1) best'
  end.

Definition cell_width_to_column_index (text : str) (target tab_width : Z) : Py.M Z :=
  largest_column text target tab_width (length text) 0 0.

End TabStops.

End Tabs.

(** ** The parts of [rich] the code calls *)

Module Rich.

Section ChopCells.

(** The table of character widths, as in [Cells]. *)
Variable get_character_cell_size : char -> Z.

(** [rich.cells.chop_cells(text, width)]: the characters are laid out in
    lines, a character that does not fit in the current line opening a new
    one.  [line] is the current line in reverse and [total_width] its width. *)
Fixpoint chop_cells_from (text line : str) (width total_width : Z) : list str :=
  match text with
  | [] => [rev line]
  | character :: rest =>
      let cell_width := get_character_cell_size character in
      if width <? total_width + cell_width
      then rev line :: chop_cells_from rest [character] width cell_width
      else chop_cells_from rest (character :: line) width (total_width + cell_width)
  end.

Definition chop_cells (text : str) (width : Z) : list str :=
  chop_cells_from text [] width 0.

End ChopCells.

(** [rich.control.strip_control_codes(text)], which [Text(text)] applies to
    its argument: bell, backspace, vertical tab, form feed and carriage
    return are removed. *)
Definition strip_control_codes (text : str) : str :=
  filter (fun c : char =>
            negb (N.eqb c 7 || N.eqb c 8 || N.eqb c 11 || N.eqb c 12 || N.eqb c 13)%N)
         text.

(** [divide(offsets)] of a [Text], as plain strings: the text is cut at the
    offsets, each piece being the slice between two consecutive entries of
    [[0, *offsets, len(text)]]; without offsets it is the text itself. *)
Definition divide (text : str) (offsets : list Z) : list str :=
  match offsets with
  | [] => [text]
  | _ =>
      let divide_offsets := 0 :: offsets ++ [Py.len text] in
      map (fun range : Z * Z => Py.slice text (fst range) (snd range))
          (combine divide_offsets (tl divide_offsets))
  end.

End Rich.

(** ** [textual/geometry.py], which the sources do not include *)

Module Geometry.

(** Modelled from the spec: [clamp(value, minimum, maximum)] brings a value
    into the bounds.  Bounds given in the wrong order are swapped; the
    properties below use it with [minimum <= maximum] only, where the order
    plays no part. *)
Definition clamp (value minimum maximum : Z) : Z :=
  let '(minimum, maximum) :=
    if maximum <? minimum then (maximum, minimum) else (minimum, maximum) in
  if value <? minimum then minimum
  else if maximum <? value then maximum
  else value.

End Geometry.

(** ** The line breaker ([textual/_wrap.py]) *)

Module Wrap.

(** [\s] of a [str] pattern: the Unicode white space of Python's [re]. *)
Definition is_space (c : char) : bool :=
  let in_range (lo hi : N) := (N.leb lo c && N.leb c hi)%bool in
  in_range 9%N 13%N || in_range 28%N 32%N || N.eqb c 133%N || N.eqb c 160%N
  || N.eqb c 5760%N || in_range 8192%N 8202%N || in_range 8232%N 8233%N
  || N.eqb c 8239%N || N.eqb c 8287%N || N.eqb c 12288%N.

Definition is_word (c : char) : bool := negb (is_space c).

(** The longest prefix whose characters all satisfy [p], and the rest: what
    a greedy [\s*] or [\S*] consumes. *)
Fixpoint span (p : char -> bool) (text : str) : str * str :=
  match text with
  | [] => ([], [])
  | c :: rest =>
      if p c then let '(taken, others) := span p rest in (c :: taken, others)
      else ([], text)
  end.

(** One [re_chunk.match(text, end)] of the pattern [\s*\S+\s*] on the text
    from [end] on: the three greedy runs, or no match when no word follows
    the white space (giving white space back to [\s*] cannot help [\S+]). *)
Definition re_chunk_match (rest : str) : option (str * str) :=
  let '(before, rest1) := span is_space rest in
  let '(word, rest2) := span is_word rest1 in
  match word with
  | [] => None
  | _ =>
      let '(after, rest3) := span is_space rest2 in
      Some (before ++ word ++ after, rest3)
  end.

(** [chunks(text)]: the [while] loop, [rest] being the text from [end] on.
    Every match consumes a character, so [length text] rounds and one more
    to see the loop end are enough. *)
Fixpoint chunks_from (fuel : nat) (rest : str) (end_ : Z) : list (Z * Z * str) :=
  match fuel with
  | O => []
  | S fuel' =>
      match re_chunk_match rest with
      | None => []
      | Some (chunk, rest') =>
          let start := end_ in
          let end' := start + Py.len chunk in
          (start, end', chunk) :: chunks_from fuel' rest' end'
      end
  end.

Definition chunks (text : str) : list (Z * Z * str) :=
  chunks_from (S (length text)) text 0.

(** Modelled from the spec: [loop_last(values)], of [textual/_loop.py], which
    is not among the sources, gives each value with the flag that it is the
    last one, the running offset being reset at the final fragment only. *)
Fixpoint loop_last {A : Type} (values : list A) : list (bool * A) :=
  match values with
  | [] => []
  | [value] => [(true, value)]
  | value :: rest => (false, value) :: loop_last rest
  end.

(** The two variables the loop of [divide_line] updates. *)
Record breaker : Type := mk_breaker {
  break_positions : list Z;
  cell_offset : Z
}.

Section DivideLine.

(** What [divide_line] imports and the sources do not include;
    [get_tab_widths] may raise. *)
Variable cell_len : str -> Z.
Variable get_tab_widths : str -> Z -> Py.M (list (str * Z)).
Variable chop_cells : str -> Z -> list str.

(** Lines 67-71: one entry per character of each tab section, holding the
    tab width met before that section. *)
Fixpoint cumulative_widths_from (tab_widths : list (str * Z)) (cumulative_width : Z)
  : list Z :=
  match tab_widths with
  | [] => []
  | (tab_section, tab_width) :: rest =>
      repeat cumulative_width (length tab_section)
        ++ cumulative_widths_from rest (cumulative_width + tab_width)
  end.

(** Lines 96-102: the loop over the pieces of a folded word.  The state is
    [start] with the breaker's two variables. *)
Definition fold_step (s : Z * breaker) (item : bool * str) : Z * breaker :=
  let '(start, b) := s in
  let '(last, line) := item in
  let positions :=
    if start =? 0 then break_positions b else break_positions b ++ [start] in
  if last then (start, mk_breaker positions (cell_len line))
  else (start + Py.len line, mk_breaker positions (cell_offset b)).

Definition fold_word (chunk : str) (width start : Z) (b : breaker) : breaker :=
  snd (fold_left fold_step (loop_last (chop_cells chunk width)) (start, b)).

(** Lines 82-112: where the chunk goes once its width is known. *)
Definition place_chunk (width : Z) (fold : bool) (start : Z) (chunk : str)
  (chunk_width : Z) (b : breaker) : breaker :=
  let remaining_space := width - cell_offset b in
  let chunk_fits := chunk_width <=? remaining_space in
  if chunk_fits then
    mk_breaker (break_positions b) (cell_offset b + chunk_width)
  else if width <? chunk_width then
    if fold then fold_word chunk width start b
    else
      mk_breaker
        (if start =? 0 then break_positions b else break_positions b ++ [start])
        chunk_width
  else if negb (cell_offset b =? 0) && negb (start =? 0) then
    mk_breaker (break_positions b ++ [start]) chunk_width
  else b.

(** Lines 76-81, then the placement: the body of the loop over the chunks.
    The two look-ups in [cumulative_widths] can raise.  (The [print] of line
    77 writes to the standard output and is not part of the result.) *)
Definition divide_chunk (cumulative_widths : list Z) (width : Z) (fold : bool)
  (b : breaker) (item : Z * Z * str) : Py.M breaker :=
  let '(start, end_, chunk) := item in
  let chunk_width := cell_len chunk in
  tab_width_before_start <- Py.getitem cumulative_widths start ;;
  tab_width_before_end <- Py.getitem cumulative_widths end_ ;;
  let chunk_tab_width := tab_width_before_end - tab_width_before_start in
  let chunk_width := chunk_width + chunk_tab_width in
  Py.ret (place_chunk width fold start chunk chunk_width b).

(** The loop of lines 73-112 over some chunks. *)
Definition divide_chunks (cumulative_widths : list Z) (width : Z) (fold : bool)
  (items : list (Z * Z * str)) (b : breaker) : Py.M breaker :=
  Py.for_each items (divide_chunk cumulative_widths width fold) b.

Definition divide_line (text : str) (width tab_size : Z) (fold : bool)
  : Py.M (list Z) :=
  tab_widths <- get_tab_widths text tab_size ;;
  let cumulative_widths := cumulative_widths_from tab_widths 0 in
  b <- divide_chunks cumulative_widths width fold (chunks text) (mk_breaker [] 0) ;;
  Py.ret (break_positions b).

End DivideLine.

(** The breaker with the modelled imports in place, for a table of
    character widths. *)
Definition divide_line' (get_character_cell_size : char -> Z)
  : str -> Z -> Z -> bool -> Py.M (list Z) :=
  divide_line (Cells.cell_len get_character_cell_size)
    (Tabs.get_tab_widths get_character_cell_size)
    (Rich.chop_cells get_character_cell_size).

End Wrap.

(** ** The breaker of [rich] ([rich/_wrap.py])

    The wrapped document imports its breaker from [rich], not from the module
    above.  The results about the wrapped document hold for any breaker; this
    one is used where a concrete document is wrapped. *)

Module RichWrap.

(** [word.rstrip()] *)
Definition rstrip (word : str) : str :=
  rev (snd (Wrap.span Wrap.is_space (rev word))).

Section Breaker.

(** The table of character widths, as in [Cells]. *)
Variable get_character_cell_size : char -> Z.

Local Abbreviation cell_len := (Cells.cell_len get_character_cell_size).
Local Abbreviation chop_cells := (Rich.chop_cells get_character_cell_size).

(** The body of the loop of [rich._wrap.divide_line] over the words, which
    are the chunks of the module above. *)
Definition place_word (width : Z) (fold : bool) (b : Wrap.breaker)
  (item : Z * Z * str) : Wrap.breaker :=
  let '(start, _, word) := item in
  let word_length := cell_len (rstrip word) in
  let remaining_space := width - Wrap.cell_offset b in
  if word_length <=? remaining_space then
    Wrap.mk_breaker (Wrap.break_positions b) (Wrap.cell_offset b + cell_len word)
  else if width <? word_length then
    if fold then Wrap.fold_word cell_len chop_cells word width start b
    else
      Wrap.mk_breaker
        (if start =? 0 then Wrap.break_positions b
         else Wrap.break_positions b ++ [start])
        (cell_len word)
  else if negb (Wrap.cell_offset b =? 0) && negb (start =? 0) then
    Wrap.mk_breaker (Wrap.break_positions b ++ [start]) (cell_len word)
  else b.

(** [rich._wrap.divide_line(text, width)], with [fold] at its default. *)
Definition divide_line (text : str) (width : Z) : list Z :=
  Wrap.break_positions
    (fold_left (place_word width true) (Wrap.chunks text) (Wrap.mk_breaker [] 0)).

End Breaker.

End RichWrap.

(** ** The document ([textual/document/_document.py], not among the sources) *)

Module Document.

(** Modelled from the spec: the document is its ordered lines, with a line
    count and a look-up of a line by its index.  The wrapped document keeps
    a reference to the live document; here every operation takes the
    document as it is at the time of the call. *)
Definition t : Type := list str.

Definition lines (document : t) : list str := document.

Definition line_count (document : t) : Z := Py.len document.

Definition get_line (document : t) (index : Z) : Py.M str := Py.getitem document index.

End Document.

(** A location is [(line_index, column_index)], an offset is [(x, y)]. *)
Definition Location : Type := (Z * Z)%type.
Definition Offset : Type := (Z * Z)%type.

(** ** The wrapped document ([textual/document/_wrapped_document.py]) *)

Module WrappedDocument.

(** The attributes of the object, apart from the document. *)
Record t : Type := mk {
  _wrap_offsets : list (list Z);
  _offset_to_line_info : list (Z * Z);
  _line_index_to_offsets : list (list Z);
  _width : Z
}.

Section Wrapping.

(** [rich._wrap.divide_line(line, width)], the breaker this file imports. *)
Variable divide_line : str -> Z -> list Z.

(** [divide_line(line, width) if width else []] *)
Definition wrap_offsets_of (width : Z) (line : str) : list Z :=
  if width =? 0 then [] else divide_line line width.

(** Lines 83-86: the loop over the sections of one line in [wrap].  The state
    is [(offset_to_line_info, line_index_to_offsets, current_offset)]. *)
Definition wrap_section (line_index : Z)
  (s : list (Z * Z) * list (list Z) * Z) (section_y_offset : Z)
  : Py.M (list (Z * Z) * list (list Z) * Z) :=
  let '(offset_to_line_info, line_index_to_offsets, current_offset) := s in
  let offset_to_line_info := offset_to_line_info ++ [(line_index, section_y_offset)] in
  y_offsets <- Py.getitem line_index_to_offsets line_index ;;
  line_index_to_offsets <-
    Py.setitem line_index_to_offsets line_index (y_offsets ++ [current_offset]) ;;
  Py.ret (offset_to_line_info, line_index_to_offsets, current_offset + 1).

(** Lines 79-86: the body of the loop over the lines in [wrap].  The state is
    [(new_wrap_offsets, offset_to_line_info, line_index_to_offsets, current_offset)]. *)
Definition wrap_line (width : Z)
  (s : list (list Z) * list (Z * Z) * list (list Z) * Z) (item : Z * str)
  : Py.M (list (list Z) * list (Z * Z) * list (list Z) * Z) :=
  let '(new_wrap_offsets, offset_to_line_info, line_index_to_offsets, current_offset) := s in
  let '(line_index, line) := item in
  let wrap_offsets := wrap_offsets_of width line in
  let new_wrap_offsets := new_wrap_offsets ++ [wrap_offsets] in
  let line_index_to_offsets := line_index_to_offsets ++ [[]] in
  '(offset_to_line_info, line_index_to_offsets, current_offset) <-
    Py.for_each (Py.range 0 (Py.len wrap_offsets + 1)) (wrap_section line_index)
      (offset_to_line_info, line_index_to_offsets, current_offset) ;;
  Py.ret (new_wrap_offsets, offset_to_line_info, line_index_to_offsets, current_offset).

(** [wrap(width)]: all three indexes are rebuilt, whatever they held. *)
Definition wrap (document : Document.t) (width : Z) : Py.M t :=
  '(new_wrap_offsets, offset_to_line_info, line_index_to_offsets, _) <-
    Py.for_each (Py.enumerate (Document.lines document) 0) (wrap_line width)
      ([], [], [], 0) ;;
  Py.ret (mk new_wrap_offsets offset_to_line_info line_index_to_offsets width).

(** [height] *)
Definition height (self : t) : Z :=
  Py.sum (map (fun offsets => Py.len offsets + 1) (_wrap_offsets self)).

(** Lines 176-179: the loop over the sections of one line in [wrap_range].
    The state is [(y_offsets_for_line, new_offset_to_line_info, current_y_offset)]. *)
Definition wrap_range_section (line_index : Z)
  (s : list Z * list (Z * Z) * Z) (section_offset : Z) : list Z * list (Z * Z) * Z :=
  let '(y_offsets_for_line, new_offset_to_line_info, current_y_offset) := s in
  (y_offsets_for_line ++ [current_y_offset],
   new_offset_to_line_info ++ [(line_index, section_offset)],
   current_y_offset + 1).

(** Lines 170-182: the body of the loop over the new lines.  The state is
    [(new_wrap_offsets, new_line_index_to_offsets, new_offset_to_line_info,
    current_y_offset)]. *)
Definition wrap_range_line (width : Z)
  (s : list (list Z) * list (list Z) * list (Z * Z) * Z) (item : Z * str)
  : list (list Z) * list (list Z) * list (Z * Z) * Z :=
  let '(new_wrap_offsets, new_line_index_to_offsets, new_offset_to_line_info,
        current_y_offset) := s in
  let '(line_index, line) := item in
  let wrap_offsets := wrap_offsets_of width line in
  let new_wrap_offsets := new_wrap_offsets ++ [wrap_offsets] in
  let '(y_offsets_for_line, new_offset_to_line_info, current_y_offset) :=
    fold_left (wrap_range_section line_index) (Py.range 0 (Py.len wrap_offsets + 1))
      ([], new_offset_to_line_info, current_y_offset) in
  (new_wrap_offsets, new_line_index_to_offsets ++ [y_offsets_for_line],
   new_offset_to_line_info, current_y_offset).

(** Lines 205-208: one row below the edit gets its line index shifted. *)
Definition shift_line_info (line_shift : Z) (offset_to_line_info : list (Z * Z))
  (y_offset : Z) : Py.M (list (Z * Z)) :=
  '(old_line_index, section_offset) <- Py.getitem offset_to_line_info y_offset ;;
  let new_line_index := old_line_index + line_shift in
  let new_line_info := (new_line_index, section_offset) in
  Py.setitem offset_to_line_info y_offset new_line_info.

(** Lines 215-217: one line below the edit gets its rows shifted. *)
Definition shift_offsets (offset_shift : Z) (line_index_to_offsets : list (list Z))
  (line_index : Z) : Py.M (list (list Z)) :=
  old_offsets <- Py.getitem line_index_to_offsets line_index ;;
  let new_offsets := map (fun offset => offset + offset_shift) old_offsets in
  Py.setitem line_index_to_offsets line_index new_offsets.

(** [wrap_range(start, old_end, new_end)], [document] being the document
    after the edit. *)
Definition wrap_range (document : Document.t) (self : t)
  (start old_end new_end : Location) : Py.M t :=
  let '(start_line_index, _) := start in
  let '(old_end_line_index, _) := old_end in
  let '(new_end_line_index, _) := new_end in
  let old_max_index := Py.len (_line_index_to_offsets self) - 1 in
  let new_max_index := Document.line_count document - 1 in
  let start_line_index :=
    Geometry.clamp start_line_index 0 (Z.min old_max_index new_max_index) in
  let old_end_line_index := Geometry.clamp old_end_line_index 0 old_max_index in
  let new_end_line_index := Geometry.clamp new_end_line_index 0 new_max_index in
  let top_line_index := Z.min start_line_index old_end_line_index in
  let old_bottom_line_index := Z.max start_line_index old_end_line_index in
  let new_bottom_line_index := Z.max start_line_index new_end_line_index in
  top_offsets <- Py.getitem (_line_index_to_offsets self) top_line_index ;;
  top_y_offset <- Py.getitem top_offsets 0 ;;
  old_bottom_offsets <- Py.getitem (_line_index_to_offsets self) old_bottom_line_index ;;
  old_bottom_y_offset <- Py.getitem old_bottom_offsets (-1) ;;
  let new_lines :=
    Py.slice (Document.lines document) top_line_index (new_bottom_line_index + 1) in
  let width := _width self in
  let current_y_offset := top_y_offset in
  let '(new_wrap_offsets, new_line_index_to_offsets, new_offset_to_line_info, _) :=
    fold_left (wrap_range_line width) (Py.enumerate new_lines top_line_index)
      ([], [], [], current_y_offset) in
  let offset_to_line_info :=
    Py.setslice (_offset_to_line_info self) top_y_offset (old_bottom_y_offset + 1)
      new_offset_to_line_info in
  let line_index_to_offsets :=
    Py.setslice (_line_index_to_offsets self) top_line_index (old_bottom_line_index + 1)
      new_line_index_to_offsets in
  let old_height := old_bottom_y_offset - top_y_offset + 1 in
  let new_height := Py.len new_offset_to_line_info in
  let offset_shift := new_height - old_height in
  let line_shift := new_bottom_line_index - old_bottom_line_index in
  offset_to_line_info <-
    (if line_shift =? 0 then Py.ret offset_to_line_info
     else Py.for_each
            (Py.range (top_y_offset + new_height) (Py.len offset_to_line_info))
            (shift_line_info line_shift) offset_to_line_info) ;;
  line_index_to_offsets <-
    (if offset_shift =? 0 then Py.ret line_index_to_offsets
     else Py.for_each
            (Py.range (top_line_index + Py.len new_lines) (Py.len line_index_to_offsets))
            (shift_offsets offset_shift) line_index_to_offsets) ;;
  let wrap_offsets :=
    Py.setslice (_wrap_offsets self) top_line_index (old_bottom_line_index + 1)
      new_wrap_offsets in
  Py.ret (mk wrap_offsets offset_to_line_info line_index_to_offsets width).

(** [__init__(document, width)]: the three indexes start empty and [wrap]
    fills them at once; [width] is 0 when it is not given. *)
Definition init (document : Document.t) (width : Z) : Py.M t :=
  wrap document width.

End Wrapping.

(** [get_sections(line_index)] *)
Definition get_sections (document : Document.t) (self : t) (line_index : Z)
  : Py.M (list str) :=
  line_offsets <- Py.getitem (_wrap_offsets self) line_index ;;
  line <- Document.get_line document line_index ;;
  Py.ret (Rich.divide (Rich.strip_control_codes line) line_offsets).

(** [get_offsets(line_index)] *)
Definition get_offsets (self : t) (line_index : Z) : Py.M (list Z) :=
  let wrap_offsets := _wrap_offsets self in
  let out_of_bounds := (line_index <? 0) || (Py.len wrap_offsets <=? line_index) in
  if out_of_bounds then Py.raise Py.ValueError
  else Py.getitem wrap_offsets line_index.

Section Mapping.

(** The table of character widths, as in [Cells]. *)
Variable get_character_cell_size : char -> Z.

(** [get_target_document_column(line_index, x_offset, y_offset, tab_width)] *)
Definition get_target_document_column (document : Document.t) (self : t)
  (line_index x_offset y_offset tab_width : Z) : Py.M Z :=
  sections <- get_sections document self line_index ;;
  target_section <- Py.getitem sections y_offset ;;
  let target_section_start := Py.sum (map Py.len (Py.slice_to sections y_offset)) in
  column_index <-
    Tabs.cell_width_to_column_index get_character_cell_size target_section x_offset
      tab_width ;;
  let target_column_index := target_section_start + column_index in
  let target_column_index :=
    if negb (y_offset =? Py.len sections - 1) && negb (y_offset =? -1)
    then Z.min target_column_index
               (target_section_start + Py.len target_section - 1)
    else target_column_index in
  Py.ret target_column_index.

(** [offset_to_location(offset, tab_width)].  The entries of
    [_offset_to_line_info] are pairs, never [None], so the branch of line 265
    is not taken and is left out. *)
Definition offset_to_location (document : Document.t) (self : t)
  (offset : Offset) (tab_width : Z) : Py.M Location :=
  let '(x, y) := offset in
  let x := Z.max 0 x in
  let y := Z.max 0 y in
  if _width self =? 0 then
    let line_index := Z.min y (Py.len (_wrap_offsets self) - 1) in
    line <- Document.get_line document line_index ;;
    let column_index := Z.min x (Py.len line) in
    Py.ret (line_index, column_index)
  else
    offset_data <-
      match Py.getitem (_offset_to_line_info self) y with
      | inl Py.IndexError => Py.getitem (_offset_to_line_info self) (-1)
      | result => result
      end ;;
    let '(line_index, section_y) := offset_data in
    column <- get_target_document_column document self line_index x section_y tab_width ;;
    Py.ret (line_index, column).

(** [location_to_offset(location, tab_width)] *)
Definition location_to_offset (document : Document.t) (self : t)
  (location : Location) (tab_width : Z) : Py.M Offset :=
  let '(line_index, column_index) := location in
  let line_index := Geometry.clamp line_index 0 (Py.len (_line_index_to_offsets self)) in
  wrap_offsets <- get_offsets self line_index ;;
  let section_start_columns := 0 :: wrap_offsets in
  let section_index := Py.bisect_right wrap_offsets column_index in
  y_offsets <- Py.getitem (_line_index_to_offsets self) line_index ;;
  section_start <- Py.getitem section_start_columns section_index ;;
  let section_column_index := column_index - section_start in
  sections <- get_sections document self line_index ;;
  section <- Py.getitem sections section_index ;;
  expanded <-
    Tabs.expand_tabs_inline get_character_cell_size
      (Py.slice_to section section_column_index) tab_width ;;
  let x_offset := Cells.cell_len get_character_cell_size expanded in
  y_offset <- Py.getitem y_offsets section_index ;;
  Py.ret (x_offset, y_offset).

End Mapping.

(** [lines]: for every line of the document, its sections. *)
Definition lines (document : Document.t) (self : t) : Py.M (list (list str)) :=
  Py.for_each (Py.enumerate (Document.lines document) 0)
    (fun (wrapped_lines : list (list str)) (item : Z * str) =>
       let '(line_index, line) := item in
       line_offsets <- Py.getitem (_wrap_offsets self) line_index ;;
       let divided := Rich.divide (Rich.strip_control_codes line) line_offsets in
       Py.ret (wrapped_lines ++ [divided]))
    [].

End WrappedDocument.

(** * The vocabulary of the properties *)

(** ** What a full rebuild computes *)

(** The rows of some lines, given the wrap offsets of each: [(line, section)]
    for every section, the lines numbered from [line_index]. *)
Fixpoint line_info_from (line_index : Z) (offsets : list (list Z)) : list (Z * Z) :=
  match offsets with
  | [] => []
  | wrap_offsets :: rest =>
      map (pair line_index) (Py.range 0 (Py.len wrap_offsets + 1))
        ++ line_info_from (line_index + 1) rest
  end.

(** The row numbers of each line, the first row being [y]. *)
Fixpoint y_offsets_from (y : Z) (offsets : list (list Z)) : list (list Z) :=
  match offsets with
  | [] => []
  | wrap_offsets :: rest =>
      Py.range y (y + Py.len wrap_offsets + 1)
        :: y_offsets_from (y + Py.len wrap_offsets + 1) rest
  end.

(** The number of rows of some lines. *)
Definition row_count (offsets : list (list Z)) : Z :=
  Py.sum (map (fun wrap_offsets => Py.len wrap_offsets + 1) offsets).

(** The three indexes, given the wrap offsets of every line. *)
Definition index_from (offsets : list (list Z)) (width : Z) : WrappedDocument.t :=
  WrappedDocument.mk offsets (line_info_from 0 offsets) (y_offsets_from 0 offsets) width.

Section Rebuild.

Variable divide_line : str -> Z -> list Z.

Definition offsets_of (width : Z) (lines : list str) : list (list Z) :=
  map (WrappedDocument.wrap_offsets_of divide_line width) lines.

(** The three indexes of a document wrapped at [width]. *)
Definition index_of (width : Z) (document : Document.t) : WrappedDocument.t :=
  let offsets := offsets_of width (Document.lines document) in
  WrappedDocument.mk offsets (line_info_from 0 offsets) (y_offsets_from 0 offsets) width.

End Rebuild.

(** ** Edits *)

(** The three locations given to [wrap_range] describe the edit that replaced
    the lines [old] by the lines [new] below the lines [before]: the windows
    the code derives from them, [top .. old_bottom] and [top .. new_bottom],
    are the replaced and the replacing lines. *)
Definition describes_edit (start old_end new_end : Location)
  (before old new : list str) : Prop :=
  old <> [] /\ new <> [] /\
  Z.min (fst start) (fst old_end) = Py.len before /\
  Z.max (fst start) (fst old_end) = Py.len before + Py.len old - 1 /\
  Z.max (fst start) (fst new_end) = Py.len before + Py.len new - 1.

Section Edits.

Variable divide_line : str -> Z -> list Z.

(** The index [wrap] builds for a document, and the index after edits whose
    locations give the windows of the replaced and of the replacing lines
    ([describes_edit]), for calls of [wrap_range] that returned: the
    document after each edit, with the locations given for it.  Such an
    index is the one [wrap] builds for the document
    ([edited_from_index]). *)
Inductive edited_from (width : Z) : Document.t -> WrappedDocument.t -> Prop :=
| edited_wrap document self :
    WrappedDocument.wrap divide_line document width = inr self ->
    edited_from width document self
| edited_wrap_range before old new after start old_end new_end self self' :
    edited_from width (before ++ old ++ after) self ->
    describes_edit start old_end new_end before old new ->
    WrappedDocument.wrap_range divide_line (before ++ new ++ after) self
      start old_end new_end = inr self' ->
    edited_from width (before ++ new ++ after) self'.

End Edits.

(** ** The window of a call of [wrap_range] *)

(** Lines 142-153: the line indexes of the three locations, clamped, and the
    window they give, [(top, old_bottom, new_bottom)]. *)
Definition edit_window (document : Document.t) (self : WrappedDocument.t)
  (start old_end new_end : Location) : Z * Z * Z :=
  let old_max_index := Py.len (WrappedDocument._line_index_to_offsets self) - 1 in
  let new_max_index := Document.line_count document - 1 in
  let start_line_index :=
    Geometry.clamp (fst start) 0 (Z.min old_max_index new_max_index) in
  let old_end_line_index := Geometry.clamp (fst old_end) 0 old_max_index in
  let new_end_line_index := Geometry.clamp (fst new_end) 0 new_max_index in
  (Z.min start_line_index old_end_line_index,
   Z.max start_line_index old_end_line_index,
   Z.max start_line_index new_end_line_index).

Definition top_line_index (document : Document.t) (self : WrappedDocument.t)
  (start old_end new_end : Location) : Z :=
  fst (fst (edit_window document self start old_end new_end)).

Definition old_bottom_line_index (document : Document.t) (self : WrappedDocument.t)
  (start old_end new_end : Location) : Z :=
  snd (fst (edit_window document self start old_end new_end)).

Definition new_bottom_line_index (document : Document.t) (self : WrappedDocument.t)
  (start old_end new_end : Location) : Z :=
  snd (edit_window document self start old_end new_end).

(** Line 159: the lines of the document in the window. *)
Definition new_lines (document : Document.t) (self : WrappedDocument.t)
  (start old_end new_end : Location) : list str :=
  Py.slice (Document.lines document)
    (top_line_index document self start old_end new_end)
    (new_bottom_line_index document self start old_end new_end + 1).

(** Line 199 *)
Definition line_shift (document : Document.t) (self : WrappedDocument.t)
  (start old_end new_end : Location) : Z :=
  new_bottom_line_index document self start old_end new_end
  - old_bottom_line_index document self start old_end new_end.

Section Shifts.

Variable divide_line : str -> Z -> list Z.

(** Lines 155-198: [offset_shift], the rows the loop over the new lines has
    made less the rows between the first row of [top] and the last row of
    [old_bottom]. *)
Definition offset_shift (document : Document.t) (self : WrappedDocument.t)
  (start old_end new_end : Location) : Py.M Z :=
  let top := top_line_index document self start old_end new_end in
  let old_bottom := old_bottom_line_index document self start old_end new_end in
  top_offsets <- Py.getitem (WrappedDocument._line_index_to_offsets self) top ;;
  top_y_offset <- Py.getitem top_offsets 0 ;;
  old_bottom_offsets <-
    Py.getitem (WrappedDocument._line_index_to_offsets self) old_bottom ;;
  old_bottom_y_offset <- Py.getitem old_bottom_offsets (-1) ;;
  let '(_, _, new_offset_to_line_info, _) :=
    fold_left (WrappedDocument.wrap_range_line divide_line (WrappedDocument._width self))
      (Py.enumerate (new_lines document self start old_end new_end) top)
      ([], [], [], top_y_offset) in
  let old_height := old_bottom_y_offset - top_y_offset + 1 in
  let new_height := Py.len new_offset_to_line_info in
  Py.ret (new_height - old_height).

(** The states of the index: [wrap] builds one for a document with a line,
    and every call of [wrap_range] that returns, whatever its three
    locations and whatever the document then is, as long as it has a line,
    gives another. *)
Inductive reachable (width : Z) : WrappedDocument.t -> Prop :=
| reachable_wrap document self :
    0 < Document.line_count document ->
    WrappedDocument.wrap divide_line document width = inr self ->
    reachable width self
| reachable_wrap_range document self start old_end new_end self' :
    reachable width self ->
    0 < Document.line_count document ->
    WrappedDocument.wrap_range divide_line document self start old_end new_end
    = inr self' ->
    reachable width self'.

End Shifts.

(** ** The invariants of the index *)

(** The row-to-line map and the line-to-rows map are inverses: row [y] is
    section [section] of line [line_index] exactly when the rows of that
    line hold [y] at position [section]. *)
Definition inverse_maps (self : WrappedDocument.t) : Prop :=
  forall y line_index section, 0 <= y -> 0 <= line_index -> 0 <= section ->
  Py.getitem (WrappedDocument._offset_to_line_info self) y = inr (line_index, section)
  <-> exists y_offsets,
        Py.getitem (WrappedDocument._line_index_to_offsets self) line_index
        = inr y_offsets
        /\ Py.getitem y_offsets section = inr y.

(** The three indexes cover the lines of the document and no other. *)
Definition same_line_count (document : Document.t) (self : WrappedDocument.t) : Prop :=
  Py.len (WrappedDocument._wrap_offsets self) = Document.line_count document
  /\ Py.len (WrappedDocument._line_index_to_offsets self) = Document.line_count document
  /\ Forall (fun info : Z * Z => 0 <= fst info < Document.line_count document)
       (WrappedDocument._offset_to_line_info self).

(** The number of rows is the sum over the lines of the number of wrap
    offsets plus one, which is what [height] returns. *)
Definition rows_add_up (self : WrappedDocument.t) : Prop :=
  Py.len (WrappedDocument._offset_to_line_info self)
  = Py.sum (map (fun offsets => Py.len offsets + 1) (WrappedDocument._wrap_offsets self))
  /\ WrappedDocument.height self = Py.len (WrappedDocument._offset_to_line_info self).

Definition consistent (document : Document.t) (self : WrappedDocument.t) : Prop :=
  inverse_maps self /\ same_line_count document self /\ rows_add_up self.

(** ** Wrap offsets and sections *)

(** A list of integers in strictly increasing order. *)
Definition increasing (a : list Z) : Prop :=
  forall i j vi vj, (i < j)%nat ->
  nth_error a i = Some vi -> nth_error a j = Some vj -> vi < vj.

(** An index splits a list at [x]: the entries before it are at most [x],
    the entries from it on are greater. *)
Definition splits_at (a : list Z) (x r : Z) : Prop :=
  0 <= r <= Py.len a
  /\ forall i v, nth_error a i = Some v -> (Z.of_nat i < r <-> v <= x).

(** Wrap offsets as the data model wants them: strictly increasing, above
    [lo] (0 for a whole line). *)
Fixpoint increasing_from (lo : Z) (a : list Z) : Prop :=
  match a with
  | [] => True
  | v :: a' => lo < v /\ increasing_from v a'
  end.

(** Strictly increasing, each within [(0, len(line)]]. *)
Definition sane_offsets (line : str) (offsets : list Z) : Prop :=
  increasing_from 0 offsets /\ Forall (fun v => v <= Py.len line) offsets.

(** The bounds of the sections, from a first bound on: each is at most the
    next, and the last is at most [hi]. *)
Fixpoint ascending (lo : Z) (bounds : list Z) (hi : Z) : Prop :=
  match bounds with
  | [] => lo <= hi
  | b :: bounds' => lo <= b /\ ascending b bounds' hi
  end.

(** The pieces between consecutive bounds. *)
Definition pieces (line : str) (b0 : Z) (bounds : list Z) : list str :=
  map (fun range : Z * Z => Py.slice line (fst range) (snd range))
      (combine (b0 :: bounds) bounds).

(** ** Tab stops when the tab size is not 0

    With a tab size other than 0 nothing in [Tabs] raises; these are the
    values returned then, by the same rules. *)

Module Stops.

Section Returned.

Variable get_character_cell_size : char -> Z.

Fixpoint get_tab_widths_from (text part : str) (tab_size cell_position : Z)
  : list (str * Z) :=
  match text with
  | [] =>
      match part with
      | [] => []
      | _ => [(rev part, 0)]
      end
  | c :: rest =>
      if N.eqb c Tabs.tab then
        let position :=
          cell_position + Cells.cell_len get_character_cell_size (rev part) in
        let expansion_width := tab_size - position mod tab_size in
        (rev part, expansion_width)
          :: get_tab_widths_from rest [] tab_size (position + expansion_width)
      else get_tab_widths_from rest (c :: part) tab_size cell_position
  end.

Definition get_tab_widths (text : str) (tab_size : Z) : list (str * Z) :=
  get_tab_widths_from text [] tab_size 0.

Definition expand_tabs_inline (text : str) (tab_width : Z) : str :=
  flat_map (fun section : str * Z =>
              fst section ++ repeat Tabs.space (Z.to_nat (snd section)))
           (get_tab_widths text tab_width).

Fixpoint largest_column (text : str) (target tab_width : Z) (todo : nat)
  (column best : Z) : Z :=
  let width :=
    Cells.cell_len get_character_cell_size
      (expand_tabs_inline (Py.slice_to text column) tab_width) in
  let best' := if width <=? target then column else best in
  match todo with
  | O => best'
  | S todo' => largest_column text target tab_width todo' (column + 1) best'
  end.

Definition cell_width_to_column_index (text : str) (target tab_width : Z) : Z :=
  largest_column text target tab_width (length text) 0 0.

End Returned.

End Stops.

(** ** Carets *)

(** The section a column falls in, and the column within that section. *)
Definition caret_section (line : str) (offsets : list Z) (column : Z) : str * Z :=
  let section_index := Z.to_nat (Py.bisect_right offsets column) in
  (nth section_index (Rich.divide line offsets) [],
   column - nth section_index (0 :: offsets) 0).

Module Measure.

Section Carets.

Variable get_character_cell_size : char -> Z.

(** The cell width of some text with its tabs expanded, the text being read
    from a state of [get_tab_widths]. *)
Definition expanded_width (text part : str) (tab_size cell_position : Z) : Z :=
  Cells.cell_len get_character_cell_size
    (flat_map (fun section : str * Z =>
                 fst section ++ repeat Tabs.space (Z.to_nat (snd section)))
       (Stops.get_tab_widths_from get_character_cell_size text part tab_size
          cell_position)).

(** The cell width of the first [column] characters of a section, its tabs
    expanded: the [x] of the caret at that column. *)
Definition column_x (text : str) (tab_width column : Z) : Z :=
  Cells.cell_len get_character_cell_size
    (Stops.expand_tabs_inline get_character_cell_size (Py.slice_to text column)
       tab_width).

(** The character at the column, when there is one in the section, adds at
    least a cell to the expanded width of the section. *)
Definition takes_a_cell (line : str) (offsets : list Z) (column tab_width : Z) : Prop :=
  let '(section, c) := caret_section line offsets column in
  c < Py.len section -> column_x section tab_width c < column_x section tab_width (c + 1).

(** A piece of a folded word fits the width, or is one character that is
    wider than the width. *)
Definition piece_fits (width : Z) (piece : str) : Prop :=
  Cells.cell_len get_character_cell_size piece <= width
  \/ exists c, piece = [c] /\ width < get_character_cell_size c.

End Carets.

End Measure.

(** ** Lines and pieces *)

(** A text has a word when one of its characters is not white space. *)
Definition has_word (text : str) : bool := existsb Wrap.is_word text.

(** The number of characters in the sections [get_tab_widths] returns. *)
Definition sections_length (tab_widths : list (str * Z)) : Z :=
  Py.sum (map (fun section : str * Z => Py.len (fst section)) tab_widths).

(** A text has a tab. *)
Definition has_tab (text : str) : bool := existsb (N.eqb Tabs.tab) text.

(** ** Two documents used as examples *)

Module Example.

(** The widths of the characters the examples are written with.  [rich]
    looks a code point up in a table of ranges and gives one cell to a code
    point outside them; of its ranges the two that matter here are written
    out, the control characters and the combining diacritical marks, which
    take no cell.  The examples hold printable ASCII and U+0301 only. *)
Definition cell_size (c : char) : Z :=
  let in_range (lo hi : N) := (N.leb lo c && N.leb c hi)%bool in
  if in_range 0%N 31%N || in_range 127%N 159%N || in_range 768%N 879%N then 0
  else 1.

(** The breaker of [rich] with these widths. *)
Definition divide_line : str -> Z -> list Z := RichWrap.divide_line cell_size.

Definition before : list str := [str_of "abc"].
Definition old : list str := [str_of "I must not fear."].
Definition new : list str :=
  [str_of "I must not fear."; str_of "Fear is the mind-killer."].
Definition after : list str := [str_of "xyz"].

(** A line break and a sentence are typed at the end of line 1. *)
Definition start : Location := (1, 16).
Definition old_end : Location := (1, 16).
Definition new_end : Location := (2, 24).

(** The index of the document before the edit, wrapped at width 10. *)
Definition wrapped : WrappedDocument.t :=
  WrappedDocument.mk [[]; [11]; []] [(0, 0); (1, 0); (1, 1); (2, 0)]
    [[0]; [1; 2]; [3]] 10.

(** The index after the edit: one line and four rows more. *)
Definition rewrapped : WrappedDocument.t :=
  WrappedDocument.mk [[]; [11]; [8; 12; 22]; []]
    [(0, 0); (1, 0); (1, 1); (2, 0); (2, 1); (2, 2); (2, 3); (3, 0)]
    [[0]; [1; 2]; [3; 4; 5; 6]; [7]] 10.

(** The document after the edit, with a word of line 1 typed over: no line
    and no row more or less. *)
Definition retyped : list str :=
  [str_of "abc"; str_of "I must not peer."; str_of "Fear is the mind-killer.";
   str_of "xyz"].

(** The document after the edit, with the text from (1, 5) to (2, 10)
    deleted, which joins lines 1 and 2. *)
Definition deleted : list str :=
  [str_of "abc"; str_of "I muse mind-killer."; str_of "xyz"].

(** The index of that document, as [wrap] builds it. *)
Definition rebuilt : WrappedDocument.t :=
  WrappedDocument.mk [[]; [7; 17]; []]
    [(0, 0); (1, 0); (1, 1); (1, 2); (2, 0)]
    [[0]; [1; 2; 3]; [4]] 10.

(** The index [wrap_range] leaves when the deletion is passed from its
    lower end, [start = (2, 10)], [old_end = new_end = (1, 5)]. *)
Definition stale : WrappedDocument.t :=
  WrappedDocument.mk [[]; [7; 17]; []; []]
    [(0, 0); (1, 0); (1, 1); (1, 2); (2, 0); (3, 0)]
    [[0]; [1; 2; 3]; [4]; [5]] 10.

End Example.

Module Fear.

Definition text : str := str_of "I must not fear.".

End Fear.

(** ** Chunks and breaks *)

(** Chunks that follow one another from [start] on: each starts where the
    one before ends, ends its own length further, and holds a word. *)
Fixpoint tiles (start : Z) (items : list (Z * Z * str)) : Prop :=
  match items with
  | [] => True
  | (chunk_start, chunk_end, chunk) :: rest =>
      chunk_start = start
      /\ chunk_end = chunk_start + Py.len chunk
      /\ has_word chunk = true
      /\ tiles chunk_end rest
  end.

(** Break positions in order, none below [lo]. *)
Fixpoint nondecreasing_from (lo : Z) (positions : list Z) : Prop :=
  match positions with
  | [] => True
  | p :: rest => lo <= p /\ nondecreasing_from p rest
  end.

(** * Properties *)

(** ** The Python list operations *)

Section PyFacts.

Context {A : Type}.
Implicit Types l new : list A.

Lemma len_nonneg l : 0 <= Py.len l.
Proof. unfold Py.len. lia. Qed.

Lemma len_app l1 l2 : Py.len (l1 ++ l2) = Py.len l1 + Py.len l2.
Proof. unfold Py.len. rewrite length_app. lia. Qed.

Lemma len_cons (x : A) l : Py.len (x :: l) = 1 + Py.len l.
Proof. unfold Py.len. cbn [length]. lia. Qed.

Lemma len_nil : Py.len (@nil A) = 0.
Proof. reflexivity. Qed.

Lemma to_nat_len l : Z.to_nat (Py.len l) = length l.
Proof. unfold Py.len. lia. Qed.

(** An index in range reads the element at that position. *)
Lemma getitem_app_cons l1 (x : A) l2 :
  Py.getitem (l1 ++ x :: l2) (Py.len l1) = inr x.
Proof.
  unfold Py.getitem.
  pose proof (len_nonneg l1).
  destruct (Py.len l1 <? 0) eqn:E; [lia|]. rewrite E.
  rewrite to_nat_len, nth_error_app2, Nat.sub_diag by lia. reflexivity.
Qed.

Lemma getitem_head (x : A) l : Py.getitem (x :: l) 0 = inr x.
Proof. reflexivity. Qed.

(** Index [-1] reads the last element. *)
Lemma getitem_last l (x : A) : Py.getitem (l ++ [x]) (-1) = inr x.
Proof.
  unfold Py.getitem. cbn [Z.ltb Z.compare].
  rewrite len_app, len_cons, len_nil.
  pose proof (len_nonneg l).
  destruct (-1 + (Py.len l + (1 + 0)) <? 0) eqn:E; [lia|].
  replace (Z.to_nat (-1 + (Py.len l + (1 + 0)))) with (length l)
    by (unfold Py.len; lia).
  rewrite nth_error_app2, Nat.sub_diag by lia. reflexivity.
Qed.

Lemma setitem_app_cons l1 (x v : A) l2 :
  Py.setitem (l1 ++ x :: l2) (Py.len l1) v = inr (l1 ++ v :: l2).
Proof.
  unfold Py.setitem.
  pose proof (len_nonneg l1). pose proof (len_nonneg l2).
  destruct (Py.len l1 <? 0) eqn:E; [lia|]. rewrite E.
  rewrite len_app, len_cons.
  destruct (Py.len l1 + (1 + Py.len l2) <=? Py.len l1) eqn:E2; [lia|].
  cbn [orb]. rewrite to_nat_len.
  rewrite firstn_app, Nat.sub_diag, firstn_all, firstn_O, app_nil_r.
  replace (S (length l1)) with (length l1 + 1)%nat by lia.
  rewrite skipn_app, skipn_all2 by lia.
  replace (length l1 + 1 - length l1)%nat with 1%nat by lia.
  reflexivity.
Qed.

(** Cutting out the middle of three parts, and replacing it. *)
Lemma slice_middle l1 l2 l3 :
  Py.slice (l1 ++ l2 ++ l3) (Py.len l1) (Py.len l1 + Py.len l2) = l2.
Proof.
  unfold Py.slice, Py.slice_index.
  pose proof (len_nonneg l1). pose proof (len_nonneg l2). pose proof (len_nonneg l3).
  rewrite !len_app.
  destruct (Py.len l1 <? 0) eqn:E1; [lia|].
  destruct (Py.len l1 + Py.len l2 <? 0) eqn:E2; [lia|].
  rewrite !Z.min_l by lia.
  replace (Py.len l1 + Py.len l2 - Py.len l1) with (Py.len l2) by lia.
  rewrite !to_nat_len.
  rewrite skipn_app, skipn_all, Nat.sub_diag. cbn [skipn app].
  rewrite firstn_app, Nat.sub_diag, firstn_all, firstn_O, app_nil_r. reflexivity.
Qed.

Lemma setslice_middle l1 l2 l3 new :
  Py.setslice (l1 ++ l2 ++ l3) (Py.len l1) (Py.len l1 + Py.len l2) new
  = l1 ++ new ++ l3.
Proof.
  unfold Py.setslice, Py.slice_index.
  pose proof (len_nonneg l1). pose proof (len_nonneg l2). pose proof (len_nonneg l3).
  rewrite !len_app.
  destruct (Py.len l1 <? 0) eqn:E1; [lia|].
  destruct (Py.len l1 + Py.len l2 <? 0) eqn:E2; [lia|].
  rewrite !Z.min_l by lia. rewrite Z.max_r by lia.
  rewrite to_nat_len.
  rewrite firstn_app, Nat.sub_diag, firstn_all, firstn_O, app_nil_r.
  replace (Z.to_nat (Py.len l1 + Py.len l2)) with (length l1 + length l2)%nat
    by (unfold Py.len; lia).
  rewrite (app_assoc l1 l2 l3), skipn_app, length_app, Nat.sub_diag.
  rewrite skipn_all2 by (rewrite length_app; lia). reflexivity.
Qed.

End PyFacts.

(** [range] *)

Lemma range_nil a b : b <= a -> Py.range a b = [].
Proof. intros H. unfold Py.range. replace (Z.to_nat (b - a)) with 0%nat by lia. reflexivity. Qed.

Lemma range_cons a b : a < b -> Py.range a b = a :: Py.range (a + 1) b.
Proof.
  intros H. unfold Py.range.
  replace (Z.to_nat (b - a)) with (S (Z.to_nat (b - (a + 1)))) by lia.
  cbn [seq map]. f_equal; [lia|].
  rewrite <- seq_shift, map_map. apply map_ext. intros k. lia.
Qed.

Lemma len_range a b : a <= b -> Py.len (Py.range a b) = b - a.
Proof. intros H. unfold Py.len, Py.range. rewrite length_map, length_seq. lia. Qed.

Lemma range_app a b c : a <= b -> b <= c -> Py.range a c = Py.range a b ++ Py.range b c.
Proof.
  intros Hab Hbc. unfold Py.range.
  replace (Z.to_nat (c - a)) with (Z.to_nat (b - a) + Z.to_nat (c - b))%nat by lia.
  rewrite seq_app, map_app. f_equal.
  cbn [Nat.add]. generalize (Z.to_nat (c - b)) as n. intros n.
  replace (seq (Z.to_nat (b - a)) n)
    with (map (fun k => (Z.to_nat (b - a) + k)%nat) (seq 0 n)).
  - rewrite map_map. apply map_ext. intros k. lia.
  - clear. generalize (Z.to_nat (b - a)) as m. intros m.
    revert m. induction n as [|n IH]; intros m; [reflexivity|].
    cbn [seq map]. f_equal; [lia|].
    rewrite <- seq_shift, map_map, <- (IH (S m)).
    apply map_ext. intros k. lia.
Qed.

Lemma enumerate_nil {A : Type} start : Py.enumerate (@nil A) start = [].
Proof. unfold Py.enumerate. rewrite len_nil, range_nil by lia. reflexivity. Qed.

Lemma enumerate_cons {A : Type} (x : A) xs start :
  Py.enumerate (x :: xs) start = (start, x) :: Py.enumerate xs (start + 1).
Proof.
  unfold Py.enumerate. pose proof (len_nonneg xs).
  rewrite len_cons, range_cons by lia. cbn [combine]. do 3 f_equal. lia.
Qed.

Lemma sum_from (xs : list Z) (a : Z) : fold_left Z.add xs a = a + Py.sum xs.
Proof.
  unfold Py.sum. revert a. induction xs as [|x xs IH]; intros a; cbn [fold_left].
  - lia.
  - rewrite IH, (IH (0 + x)). lia.
Qed.

Lemma sum_cons (x : Z) xs : Py.sum (x :: xs) = x + Py.sum xs.
Proof. unfold Py.sum. cbn [fold_left]. rewrite sum_from. unfold Py.sum. lia. Qed.

Lemma sum_app (xs ys : list Z) : Py.sum (xs ++ ys) = Py.sum xs + Py.sum ys.
Proof.
  induction xs as [|x xs IH]; cbn [app].
  - reflexivity.
  - rewrite !sum_cons, IH. lia.
Qed.

(** A loop that rewrites every entry from [a] on, one [l[i] = f(l[i])] at a
    time, maps [f] over that tail. *)
Lemma for_each_update_tail {A : Type} (f : A -> A) (l1 l2 : list A) :
  Py.for_each (Py.range (Py.len l1) (Py.len (l1 ++ l2)))
    (fun l i => x <- Py.getitem l i ;; Py.setitem l i (f x)) (l1 ++ l2)
  = inr (l1 ++ map f l2).
Proof.
  revert l1. induction l2 as [|x l2 IH]; intros l1.
  - rewrite app_nil_r, range_nil by lia. cbn. rewrite app_nil_r. reflexivity.
  - pose proof (len_nonneg l2).
    rewrite range_cons by (rewrite len_app, len_cons; lia).
    cbn [Py.for_each].
    rewrite getitem_app_cons. cbn [Py.bind]. rewrite setitem_app_cons. cbn [Py.bind].
    specialize (IH (l1 ++ [f x])).
    rewrite len_app, len_cons, len_nil in IH.
    rewrite <- !app_assoc in IH. cbn [app] in IH.
    replace (Py.len l1 + 1) with (Py.len l1 + (1 + 0)) by lia.
    replace (Py.len (l1 ++ x :: l2)) with (Py.len (l1 ++ f x :: l2))
      by (rewrite !len_app, !len_cons; reflexivity).
    rewrite IH. reflexivity.
Qed.

(** ** What a full rebuild computes *)

Lemma row_count_nonneg offsets : 0 <= row_count offsets.
Proof.
  unfold row_count. induction offsets as [|o rest IH]; cbn [map].
  - cbv. discriminate.
  - rewrite sum_cons. pose proof (len_nonneg o). lia.
Qed.

Lemma row_count_cons o rest : row_count (o :: rest) = Py.len o + 1 + row_count rest.
Proof. unfold row_count. cbn [map]. now rewrite sum_cons. Qed.

Lemma row_count_app xs ys : row_count (xs ++ ys) = row_count xs + row_count ys.
Proof. unfold row_count. now rewrite map_app, sum_app. Qed.

Lemma line_info_from_app li xs ys :
  line_info_from li (xs ++ ys)
  = line_info_from li xs ++ line_info_from (li + Py.len xs) ys.
Proof.
  revert li. induction xs as [|x xs IH]; intros li; cbn [app line_info_from].
  - rewrite len_nil. f_equal. lia.
  - rewrite IH, len_cons, <- app_assoc. do 3 f_equal. lia.
Qed.

Lemma y_offsets_from_app y xs ys :
  y_offsets_from y (xs ++ ys)
  = y_offsets_from y xs ++ y_offsets_from (y + row_count xs) ys.
Proof.
  revert y. induction xs as [|x xs IH]; intros y; cbn [app y_offsets_from].
  - f_equal. unfold row_count. cbn. lia.
  - rewrite IH, row_count_cons. do 3 f_equal. lia.
Qed.

Lemma len_line_info_from li xs : Py.len (line_info_from li xs) = row_count xs.
Proof.
  revert li. induction xs as [|x xs IH]; intros li; cbn [line_info_from].
  - reflexivity.
  - pose proof (len_nonneg x).
    rewrite len_app, IH, row_count_cons. unfold Py.len at 1.
    rewrite length_map. fold (Py.len (Py.range 0 (Py.len x + 1))).
    rewrite len_range by lia. lia.
Qed.

Lemma len_y_offsets_from y xs : Py.len (y_offsets_from y xs) = Py.len xs.
Proof.
  revert y. induction xs as [|x xs IH]; intros y; cbn [y_offsets_from].
  - reflexivity.
  - now rewrite !len_cons, IH.
Qed.

(** Renumbering the lines, or the rows, of a block of the index. *)
Lemma line_info_from_shift d li xs :
  line_info_from (li + d) xs
  = map (fun info : Z * Z => (fst info + d, snd info)) (line_info_from li xs).
Proof.
  revert li. induction xs as [|x xs IH]; intros li; cbn [line_info_from].
  - reflexivity.
  - rewrite map_app, map_map. cbn [fst snd]. f_equal.
    replace (li + d + 1) with (li + 1 + d) by lia. apply IH.
Qed.

Lemma range_shift d a b : Py.range (a + d) (b + d) = map (fun y => y + d) (Py.range a b).
Proof.
  unfold Py.range. rewrite map_map.
  replace (b + d - (a + d)) with (b - a) by lia.
  apply map_ext. intros k. lia.
Qed.

Lemma y_offsets_from_shift d y xs :
  y_offsets_from (y + d) xs = map (map (fun y => y + d)) (y_offsets_from y xs).
Proof.
  revert y. induction xs as [|x xs IH]; intros y; cbn [y_offsets_from map].
  - reflexivity.
  - f_equal.
    + rewrite <- range_shift. f_equal. lia.
    + replace (y + d + Py.len x + 1) with (y + Py.len x + 1 + d) by lia. apply IH.
Qed.

(** ** [wrap] builds the indexes in closed form *)

Section WrapFacts.

Variable divide_line : str -> Z -> list Z.

Local Abbreviation wrap := (WrappedDocument.wrap divide_line).
Local Abbreviation wrap_range := (WrappedDocument.wrap_range divide_line).
Local Abbreviation offsets := (offsets_of divide_line).
Local Abbreviation index := (index_of divide_line).

(** The loop over the sections of a line, in [wrap]: the line's entry, the
    last of [line_index_to_offsets], receives the rows one by one. *)
Lemma wrap_sections line_index sections :
  forall offset_to_line_info line_index_to_offsets y_offsets current_offset,
  Py.len line_index_to_offsets = line_index ->
  Py.for_each sections (WrappedDocument.wrap_section line_index)
    (offset_to_line_info, line_index_to_offsets ++ [y_offsets], current_offset)
  = inr (offset_to_line_info ++ map (pair line_index) sections,
         line_index_to_offsets
           ++ [y_offsets ++ Py.range current_offset (current_offset + Py.len sections)],
         current_offset + Py.len sections).
Proof.
  induction sections as [|section_y sections IH];
    intros o2l l2o ys cur Hlen; cbn [Py.for_each map].
  - rewrite len_nil, range_nil, !app_nil_r, Z.add_0_r by lia. reflexivity.
  - unfold WrappedDocument.wrap_section at 1.
    rewrite <- Hlen, getitem_app_cons. cbn [Py.bind].
    rewrite setitem_app_cons. cbn [Py.bind Py.ret].
    rewrite Hlen, IH by exact Hlen.
    pose proof (len_nonneg sections).
    rewrite len_cons, (range_cons cur) by lia.
    rewrite <- !app_assoc. cbn [app].
    replace (cur + (1 + Py.len sections)) with (cur + 1 + Py.len sections) by lia.
    reflexivity.
Qed.

(** The loop over the lines, in [wrap]. *)
Lemma wrap_lines width lines :
  forall line_index new_wrap_offsets offset_to_line_info line_index_to_offsets
         current_offset,
  Py.len line_index_to_offsets = line_index ->
  Py.for_each (Py.enumerate lines line_index) (WrappedDocument.wrap_line divide_line width)
    (new_wrap_offsets, offset_to_line_info, line_index_to_offsets, current_offset)
  = inr (new_wrap_offsets ++ offsets width lines,
         offset_to_line_info ++ line_info_from line_index (offsets width lines),
         line_index_to_offsets ++ y_offsets_from current_offset (offsets width lines),
         current_offset + row_count (offsets width lines)).
Proof.
  induction lines as [|line lines IH]; intros li wo o2l l2o cur Hlen.
  - rewrite enumerate_nil. cbn. rewrite !app_nil_r, Z.add_0_r. reflexivity.
  - rewrite enumerate_cons. cbn [Py.for_each].
    unfold WrappedDocument.wrap_line at 1.
    rewrite (wrap_sections li _ o2l l2o [] cur Hlen). cbn [Py.bind Py.ret].
    pose proof (len_nonneg (WrappedDocument.wrap_offsets_of divide_line width line)).
    rewrite len_range by lia.
    rewrite IH by (rewrite len_app, len_cons, len_nil; lia).
    unfold offsets_of. cbn [map line_info_from y_offsets_from].
    rewrite row_count_cons, <- !app_assoc. cbn [app].
    rewrite Z.sub_0_r, !Z.add_assoc. reflexivity.
Qed.

Lemma wrap_eq document width : wrap document width = inr (index width document).
Proof.
  unfold WrappedDocument.wrap, Document.lines.
  rewrite (wrap_lines width document 0 [] [] [] 0) by reflexivity.
  reflexivity.
Qed.

(** ** [wrap_range] after an edit *)

(** The loop over the sections of a line, in [wrap_range]. *)
Lemma wrap_range_sections line_index sections :
  forall y_offsets_for_line new_offset_to_line_info current_y_offset,
  fold_left (WrappedDocument.wrap_range_section line_index) sections
    (y_offsets_for_line, new_offset_to_line_info, current_y_offset)
  = (y_offsets_for_line
       ++ Py.range current_y_offset (current_y_offset + Py.len sections),
     new_offset_to_line_info ++ map (pair line_index) sections,
     current_y_offset + Py.len sections).
Proof.
  induction sections as [|section_offset sections IH]; intros ys o2l cur;
    cbn [fold_left map].
  - rewrite len_nil, range_nil, !app_nil_r, Z.add_0_r by lia. reflexivity.
  - unfold WrappedDocument.wrap_range_section at 2. rewrite IH.
    pose proof (len_nonneg sections).
    rewrite len_cons, (range_cons cur) by lia.
    rewrite <- !app_assoc. cbn [app].
    replace (cur + (1 + Py.len sections)) with (cur + 1 + Py.len sections) by lia.
    reflexivity.
Qed.

(** The loop over the new lines, in [wrap_range]. *)
Lemma wrap_range_lines width lines :
  forall line_index new_wrap_offsets new_line_index_to_offsets
         new_offset_to_line_info current_y_offset,
  fold_left (WrappedDocument.wrap_range_line divide_line width)
    (Py.enumerate lines line_index)
    (new_wrap_offsets, new_line_index_to_offsets, new_offset_to_line_info,
     current_y_offset)
  = (new_wrap_offsets ++ offsets width lines,
     new_line_index_to_offsets ++ y_offsets_from current_y_offset (offsets width lines),
     new_offset_to_line_info ++ line_info_from line_index (offsets width lines),
     current_y_offset + row_count (offsets width lines)).
Proof.
  induction lines as [|line lines IH]; intros li wo l2o o2l cur.
  - rewrite enumerate_nil. cbn. rewrite !app_nil_r, Z.add_0_r. reflexivity.
  - rewrite enumerate_cons. cbn [fold_left].
    unfold WrappedDocument.wrap_range_line at 2.
    rewrite wrap_range_sections.
    pose proof (len_nonneg (WrappedDocument.wrap_offsets_of divide_line width line)).
    rewrite len_range by lia. rewrite IH.
    unfold offsets_of. cbn [map line_info_from y_offsets_from app].
    rewrite row_count_cons, <- !app_assoc. cbn [app].
    rewrite Z.sub_0_r, !Z.add_assoc. reflexivity.
Qed.

Lemma clamp_inside value minimum maximum :
  minimum <= value -> value <= maximum -> Geometry.clamp value minimum maximum = value.
Proof.
  intros H1 H2. unfold Geometry.clamp.
  destruct (maximum <? minimum) eqn:E; [lia|].
  destruct (value <? minimum) eqn:E1; [lia|].
  destruct (maximum <? value) eqn:E2; [lia|]. reflexivity.
Qed.

Lemma clamp_bounds value minimum maximum :
  minimum <= maximum ->
  minimum <= Geometry.clamp value minimum maximum <= maximum.
Proof.
  intros H. unfold Geometry.clamp.
  destruct (maximum <? minimum) eqn:E; [lia|].
  destruct (value <? minimum) eqn:E1; [lia|].
  destruct (maximum <? value) eqn:E2; lia.
Qed.

Lemma len_offsets width lines : Py.len (offsets width lines) = Py.len lines.
Proof. unfold offsets_of, Py.len. now rewrite length_map. Qed.

Lemma offsets_app width xs ys :
  offsets width (xs ++ ys) = offsets width xs ++ offsets width ys.
Proof. unfold offsets_of. apply map_app. Qed.

Lemma for_each_ext {A S : Type} (body body' : S -> A -> Py.M S) xs s :
  (forall s x, body s x = body' s x) ->
  Py.for_each xs body s = Py.for_each xs body' s.
Proof.
  intros H. revert s. induction xs as [|x xs IH]; intros s; cbn [Py.for_each].
  - reflexivity.
  - rewrite H. destruct (body' s x); cbn [Py.bind]; [reflexivity | apply IH].
Qed.

(** The first row of the first line of a block of the index. *)
Lemma y_offsets_first y block :
  block <> [] ->
  exists row rest,
    y_offsets_from y block = row :: rest /\ Py.getitem row 0 = inr y.
Proof.
  intros H. destruct block as [|o block]; [congruence|].
  cbn [y_offsets_from]. eexists _, _. split; [reflexivity|].
  pose proof (len_nonneg o). rewrite range_cons by lia. reflexivity.
Qed.

(** The last row of the last line of a block of the index. *)
Lemma y_offsets_last y block :
  block <> [] ->
  exists init row,
    y_offsets_from y block = init ++ [row]
    /\ Py.getitem row (-1) = inr (y + row_count block - 1).
Proof.
  intros H. destruct (exists_last H) as (init & o & ->).
  rewrite y_offsets_from_app. cbn [y_offsets_from].
  eexists _, _. split; [reflexivity|].
  pose proof (len_nonneg o).
  rewrite (range_app _ (y + row_count init + Py.len o)) by lia.
  rewrite (range_cons (y + row_count init + Py.len o)) by lia.
  rewrite (range_nil (y + row_count init + Py.len o + 1)) by lia.
  rewrite getitem_last, row_count_app, row_count_cons.
  f_equal. unfold row_count at 3. cbn. lia.
Qed.

Lemma getitem_block_first {A : Type} (l1 rest l3 : list A) (x : A) i :
  i = Py.len l1 -> Py.getitem (l1 ++ (x :: rest) ++ l3) i = inr x.
Proof. intros ->. cbn [app]. apply getitem_app_cons. Qed.

Lemma getitem_block_last {A : Type} (l1 init l3 : list A) (x : A) i :
  i = Py.len l1 + Py.len (init ++ [x]) - 1 ->
  Py.getitem (l1 ++ (init ++ [x]) ++ l3) i = inr x.
Proof.
  intros ->. rewrite <- !app_assoc, (app_assoc l1 init). cbn [app].
  rewrite (len_app init), len_cons, len_nil.
  replace (Py.len l1 + (Py.len init + (1 + 0)) - 1) with (Py.len (l1 ++ init))
    by (rewrite len_app; lia).
  apply getitem_app_cons.
Qed.

Lemma setslice_block {A : Type} (l1 l2 l3 new : list A) i j :
  i = Py.len l1 -> j = Py.len l1 + Py.len l2 ->
  Py.setslice (l1 ++ l2 ++ l3) i j new = l1 ++ new ++ l3.
Proof. intros -> ->. apply setslice_middle. Qed.

(** The loop of lines 202-208 adds [line_shift] to the line index of every
    row from [len l1] on. *)
Lemma shift_line_info_tail line_shift (l1 l2 : list (Z * Z)) a b :
  a = Py.len l1 -> b = Py.len (l1 ++ l2) ->
  Py.for_each (Py.range a b) (WrappedDocument.shift_line_info line_shift) (l1 ++ l2)
  = inr (l1 ++ map (fun info : Z * Z => (fst info + line_shift, snd info)) l2).
Proof.
  intros -> ->. rewrite <- for_each_update_tail.
  apply for_each_ext. intros l y. unfold WrappedDocument.shift_line_info.
  destruct (Py.getitem l y) as [e|[li s]]; reflexivity.
Qed.

(** The loop of lines 212-217 adds [offset_shift] to every row number of
    every line from [len l1] on. *)
Lemma shift_offsets_tail offset_shift (l1 l2 : list (list Z)) a b :
  a = Py.len l1 -> b = Py.len (l1 ++ l2) ->
  Py.for_each (Py.range a b) (WrappedDocument.shift_offsets offset_shift) (l1 ++ l2)
  = inr (l1 ++ map (map (fun y => y + offset_shift)) l2).
Proof.
  intros -> ->. rewrite <- for_each_update_tail. reflexivity.
Qed.

Lemma wrap_range_eq width before old new after start old_end new_end :
  describes_edit start old_end new_end before old new ->
  wrap_range (before ++ new ++ after) (index width (before ++ old ++ after))
    start old_end new_end
  = inr (index width (before ++ new ++ after)).
Proof.
  intros (Hold & Hnew & Htop & Hob & Hnb).
  destruct start as [sl sc], old_end as [oel oec], new_end as [nel nec].
  cbn [fst] in *.
  pose proof (len_nonneg before) as Hb. pose proof (len_nonneg after) as Ha.
  assert (0 < Py.len old) as Ho
    by (destruct old; [congruence | rewrite len_cons; pose proof (len_nonneg old); lia]).
  assert (0 < Py.len new) as Hn
    by (destruct new; [congruence | rewrite len_cons; pose proof (len_nonneg new); lia]).
  unfold WrappedDocument.wrap_range.
  unfold index_of, Document.lines, Document.line_count.
  cbn [WrappedDocument._line_index_to_offsets WrappedDocument._offset_to_line_info
       WrappedDocument._wrap_offsets WrappedDocument._width].
  rewrite len_y_offsets_from, len_offsets, !len_app.
  rewrite (clamp_inside sl) by lia.
  rewrite (clamp_inside oel) by lia.
  replace (Z.max sl (Geometry.clamp nel 0
                       (Py.len before + (Py.len new + Py.len after) - 1)))
    with (Py.len before + Py.len new - 1)
    by (pose proof (clamp_bounds nel 0 (Py.len before + (Py.len new + Py.len after) - 1));
        destruct (Z_le_gt_dec 0 nel);
        [rewrite clamp_inside by lia; lia
        | unfold Geometry.clamp;
          destruct (Py.len before + (Py.len new + Py.len after) - 1 <? 0) eqn:E1; [lia|];
          destruct (nel <? 0) eqn:E2; lia]).
  rewrite Htop, Hob.
  replace (Py.len before + Py.len new - 1 + 1) with (Py.len before + Py.len new) by lia.
  replace (Py.len before + Py.len old - 1 + 1) with (Py.len before + Py.len old) by lia.
  rewrite slice_middle.
  rewrite !offsets_app, !y_offsets_from_app, !line_info_from_app.
  set (Ob := offsets width before). set (Oo := offsets width old).
  set (On := offsets width new). set (Oa := offsets width after).
  assert (Py.len Ob = Py.len before) as HOb by apply len_offsets.
  assert (Py.len Oo = Py.len old) as HOo by apply len_offsets.
  assert (Py.len On = Py.len new) as HOn by apply len_offsets.
  assert (Oo <> []) as HOo0 by (intros E; rewrite E in HOo; cbn in HOo; lia).
  rewrite !Z.add_0_l, !HOb, HOo, HOn.
  set (rb := row_count Ob).
  destruct (y_offsets_first rb Oo HOo0) as (row1 & rest1 & E1 & G1).
  destruct (y_offsets_last rb Oo HOo0) as (init2 & row2 & E2 & G2).
  rewrite E1 at 1.
  rewrite getitem_block_first by (rewrite len_y_offsets_from; lia).
  cbn [Py.bind]. rewrite G1. cbn [Py.bind].
  rewrite E2 at 1.
  rewrite getitem_block_last
    by (rewrite <- E2, !len_y_offsets_from; lia).
  cbn [Py.bind]. rewrite G2. cbn [Py.bind].
  rewrite wrap_range_lines. cbn [app]. fold On.
  rewrite !(setslice_block (line_info_from 0 Ob) (line_info_from (Py.len before) Oo))
    by (rewrite !len_line_info_from; subst rb; lia).
  rewrite !(setslice_block (y_offsets_from 0 Ob) (y_offsets_from rb Oo))
    by (rewrite !len_y_offsets_from; lia).
  rewrite (setslice_block Ob Oo) by lia.
  rewrite len_line_info_from.
  assert ((if Py.len before + Py.len new - 1 - (Py.len before + Py.len old - 1) =? 0
           then Py.ret (line_info_from 0 Ob ++ line_info_from (Py.len before) On
                          ++ line_info_from (Py.len before + Py.len old) Oa)
           else Py.for_each
                  (Py.range (rb + row_count On)
                     (Py.len (line_info_from 0 Ob ++ line_info_from (Py.len before) On
                                ++ line_info_from (Py.len before + Py.len old) Oa)))
                  (WrappedDocument.shift_line_info
                     (Py.len before + Py.len new - 1 - (Py.len before + Py.len old - 1)))
                  (line_info_from 0 Ob ++ line_info_from (Py.len before) On
                     ++ line_info_from (Py.len before + Py.len old) Oa))
          = inr (line_info_from 0 Ob ++ line_info_from (Py.len before) On
                   ++ line_info_from (Py.len before + Py.len new) Oa)) as ->.
  { destruct (Z.eqb_spec (Py.len before + Py.len new - 1
                          - (Py.len before + Py.len old - 1)) 0) as [E|E].
    - replace (Py.len before + Py.len old) with (Py.len before + Py.len new) by lia.
      reflexivity.
    - rewrite !app_assoc.
      rewrite shift_line_info_tail
        by (rewrite ?len_app, ?len_line_info_from; subst rb; lia).
      rewrite <- line_info_from_shift.
      replace (Py.len before + Py.len old
               + (Py.len before + Py.len new - 1 - (Py.len before + Py.len old - 1)))
        with (Py.len before + Py.len new) by lia.
      now rewrite <- app_assoc. }
  cbn [Py.bind].
  assert ((if row_count On - (rb + row_count Oo - 1 - rb + 1) =? 0
           then Py.ret (y_offsets_from 0 Ob ++ y_offsets_from rb On
                          ++ y_offsets_from (rb + row_count Oo) Oa)
           else Py.for_each
                  (Py.range (Py.len before + Py.len new)
                     (Py.len (y_offsets_from 0 Ob ++ y_offsets_from rb On
                                ++ y_offsets_from (rb + row_count Oo) Oa)))
                  (WrappedDocument.shift_offsets
                     (row_count On - (rb + row_count Oo - 1 - rb + 1)))
                  (y_offsets_from 0 Ob ++ y_offsets_from rb On
                     ++ y_offsets_from (rb + row_count Oo) Oa))
          = inr (y_offsets_from 0 Ob ++ y_offsets_from rb On
                   ++ y_offsets_from (rb + row_count On) Oa)) as ->.
  { destruct (Z.eqb_spec (row_count On - (rb + row_count Oo - 1 - rb + 1)) 0) as [E|E].
    - replace (rb + row_count Oo) with (rb + row_count On) by lia.
      reflexivity.
    - rewrite !app_assoc.
      rewrite shift_offsets_tail
        by (rewrite ?len_app, ?len_y_offsets_from; lia).
      rewrite <- y_offsets_from_shift.
      replace (rb + row_count Oo + (row_count On - (rb + row_count Oo - 1 - rb + 1)))
        with (rb + row_count On) by lia.
      now rewrite <- app_assoc. }
  reflexivity.
Qed.

Lemma edited_from_index width document self :
  edited_from divide_line width document self -> self = index width document.
Proof.
  induction 1 as [document self Hw | before old new after start old_end new_end
                                     self self' _ IH Hd Hr].
  - rewrite wrap_eq in Hw. congruence.
  - subst self. rewrite (wrap_range_eq _ _ _ _ _ _ _ _ Hd) in Hr. congruence.
Qed.

(** Reading with an index that is not negative. *)
Lemma getitem_nonneg {A : Type} (l : list A) i :
  0 <= i ->
  Py.getitem l i = match nth_error l (Z.to_nat i) with
                   | Some a => inr a
                   | None => inl Py.IndexError
                   end.
Proof.
  intros H. unfold Py.getitem.
  destruct (i <? 0) eqn:E; [lia|]. rewrite E. reflexivity.
Qed.

Lemma getitem_app_l {A : Type} (l1 l2 : list A) i :
  0 <= i < Py.len l1 -> Py.getitem (l1 ++ l2) i = Py.getitem l1 i.
Proof.
  intros H. rewrite !getitem_nonneg by lia.
  rewrite nth_error_app1 by (unfold Py.len in H; lia). reflexivity.
Qed.

Lemma getitem_app_r {A : Type} (l1 l2 : list A) i :
  Py.len l1 <= i -> Py.getitem (l1 ++ l2) i = Py.getitem l2 (i - Py.len l1).
Proof.
  intros H. pose proof (len_nonneg l1). rewrite !getitem_nonneg by lia.
  rewrite nth_error_app2 by (unfold Py.len in H; lia).
  replace (Z.to_nat (i - Py.len l1)) with (Z.to_nat i - length l1)%nat
    by (unfold Py.len; lia).
  reflexivity.
Qed.

Lemma getitem_cons_r {A : Type} (x : A) l i :
  0 < i -> Py.getitem (x :: l) i = Py.getitem l (i - 1).
Proof.
  intros H. change (x :: l) with ([x] ++ l).
  rewrite getitem_app_r by (cbn; lia). reflexivity.
Qed.

Lemma getitem_map {A B : Type} (f : A -> B) l i :
  0 <= i -> Py.getitem (map f l) i = (x <- Py.getitem l i ;; Py.ret (f x)).
Proof.
  intros H. rewrite !getitem_nonneg by lia. rewrite nth_error_map.
  destruct (nth_error l (Z.to_nat i)); reflexivity.
Qed.

Lemma getitem_range a b i :
  0 <= i ->
  Py.getitem (Py.range a b) i = if a + i <? b then inr (a + i) else inl Py.IndexError.
Proof.
  intros H. rewrite getitem_nonneg by lia. unfold Py.range.
  rewrite nth_error_map.
  destruct (Z.ltb_spec (a + i) b) as [L|L].
  - rewrite (nth_error_nth' _ 0%nat) by (rewrite length_seq; lia).
    rewrite seq_nth by lia. cbn [option_map]. f_equal. lia.
  - replace (nth_error (seq 0 (Z.to_nat (b - a))) (Z.to_nat i)) with (@None nat);
      [reflexivity|].
    symmetry. apply nth_error_None. rewrite length_seq. lia.
Qed.

Lemma getitem_In {A : Type} (l : list A) i x :
  0 <= i -> Py.getitem l i = inr x -> In x l.
Proof.
  intros H. rewrite getitem_nonneg by lia.
  destruct (nth_error l (Z.to_nat i)) eqn:E; [|discriminate].
  intros [= ->]. eapply nth_error_In, E.
Qed.

Lemma getitem_inr_bound {A : Type} (l : list A) i x :
  0 <= i -> Py.getitem l i = inr x -> i < Py.len l.
Proof.
  intros H. rewrite getitem_nonneg by lia.
  destruct (nth_error l (Z.to_nat i)) eqn:E; [|discriminate].
  intros _. assert (Z.to_nat i < length l)%nat by (apply nth_error_Some; congruence).
  unfold Py.len. lia.
Qed.

(** The lines and the rows a block of the index mentions. *)
Lemma line_info_from_bounds li0 offs li s :
  In (li, s) (line_info_from li0 offs) -> li0 <= li < li0 + Py.len offs.
Proof.
  revert li0. induction offs as [|o offs IH]; intros li0; cbn [line_info_from].
  - intros [].
  - pose proof (len_nonneg offs). rewrite len_cons, in_app_iff, in_map_iff.
    intros [(x & [= <- <-] & _) | H1]; [lia|]. apply IH in H1. lia.
Qed.

Lemma y_offsets_from_bounds y0 offs row y :
  In row (y_offsets_from y0 offs) -> In y row -> y0 <= y < y0 + row_count offs.
Proof.
  revert y0. induction offs as [|o offs IH]; intros y0; cbn [y_offsets_from].
  - intros [].
  - pose proof (row_count_nonneg offs). pose proof (len_nonneg o).
    rewrite row_count_cons.
    intros [<- | H1] Hy.
    + unfold Py.range in Hy. apply in_map_iff in Hy as (k & <- & Hk).
      apply in_seq in Hk. lia.
    + specialize (IH _ H1 Hy). lia.
Qed.

(** In a block of the index, row [y] is section [s] of line [li] exactly
    when the rows of line [li] hold [y] at position [s]. *)
Lemma index_block_inverse offs :
  forall li0 y0 y li s, 0 <= y -> li0 <= li -> 0 <= s ->
  Py.getitem (line_info_from li0 offs) y = inr (li, s)
  <-> exists row,
        Py.getitem (y_offsets_from y0 offs) (li - li0) = inr row
        /\ Py.getitem row s = inr (y0 + y).
Proof.
  induction offs as [|o offs IH]; intros li0 y0 y li s Hy Hli Hs;
    cbn [line_info_from y_offsets_from].
  - rewrite !getitem_nonneg by lia.
    destruct (Z.to_nat y), (Z.to_nat (li - li0)); cbn;
      (split; [discriminate | now intros (row & [=] & _)]).
  - pose proof (len_nonneg o) as Ho.
    assert (Py.len (map (pair li0) (Py.range 0 (Py.len o + 1))) = Py.len o + 1) as Hlen.
    { unfold Py.len at 1. rewrite length_map.
      fold (Py.len (Py.range 0 (Py.len o + 1))). rewrite len_range; lia. }
    destruct (Z_lt_ge_dec y (Py.len o + 1)) as [Hin | Hout].
    + (* the row belongs to the first line of the block *)
      rewrite getitem_app_l by lia.
      rewrite getitem_map, getitem_range by lia.
      destruct (Z.ltb_spec (0 + y) (Py.len o + 1)) as [_|]; [|lia].
      cbn [Py.bind Py.ret]. split.
      * intros [= <- <-]. eexists. rewrite Z.sub_diag. split; [reflexivity|].
        rewrite getitem_range by lia.
        destruct (Z.ltb_spec (y0 + y) (y0 + Py.len o + 1)); [reflexivity | lia].
      * intros (row & Hrow & Hget).
        destruct (Z.eq_dec li li0) as [->|Hne].
        -- rewrite Z.sub_diag in Hrow. cbn in Hrow. injection Hrow as <-.
           rewrite getitem_range in Hget by lia.
           destruct (y0 + s <? y0 + Py.len o + 1); [|discriminate].
           injection Hget as Hget. assert (s = y) as -> by lia. reflexivity.
        -- rewrite getitem_cons_r in Hrow by lia.
           apply getitem_In in Hrow; [|lia]. apply getitem_In in Hget; [|lia].
           pose proof (y_offsets_from_bounds _ _ _ _ Hrow Hget). lia.
    + (* the row belongs to a later line *)
      rewrite getitem_app_r by lia. rewrite Hlen.
      destruct (Z.eq_dec li li0) as [->|Hne].
      * split.
        -- intros H. apply getitem_In in H; [|lia].
           apply line_info_from_bounds in H. lia.
        -- intros (row & Hrow & Hget).
           rewrite Z.sub_diag in Hrow. cbn in Hrow. injection Hrow as <-.
           rewrite getitem_range in Hget by lia.
           destruct (Z.ltb_spec (y0 + s) (y0 + Py.len o + 1)); [|discriminate].
           injection Hget as Hget.
           exfalso. 
           assert (s < Py.len o + 1) by lia. lia.
      * rewrite getitem_cons_r by lia.
        rewrite (IH (li0 + 1) (y0 + Py.len o + 1) (y - (Py.len o + 1)) li s) by lia.
        replace (li - (li0 + 1)) with (li - li0 - 1) by lia.
        replace (y0 + Py.len o + 1 + (y - (Py.len o + 1))) with (y0 + y) by lia.
        reflexivity.
Qed.

(** ** The invariants of the index *)

Lemma index_consistent width document : consistent document (index width document).
Proof.
  unfold consistent, inverse_maps, same_line_count, rows_add_up, index_of,
    WrappedDocument.height, Document.line_count, Document.lines.
  cbn [WrappedDocument._line_index_to_offsets WrappedDocument._offset_to_line_info
       WrappedDocument._wrap_offsets].
  split; [|split; [split; [|split] | split]].
  - intros y li s Hy Hli Hs.
    rewrite (index_block_inverse _ 0 0 y li s) by lia.
    now rewrite Z.sub_0_r, Z.add_0_l.
  - apply len_offsets.
  - rewrite len_y_offsets_from. apply len_offsets.
  - apply Forall_forall. intros [li s] Hin.
    apply line_info_from_bounds in Hin. rewrite len_offsets in Hin. cbn [fst]. lia.
  - apply len_line_info_from.
  - now rewrite len_line_info_from.
Qed.


(** ** What [wrap_range] does, whatever the locations *)

Lemma index_of_index_from width document :
  index width document = index_from (offsets width document) width.
Proof. reflexivity. Qed.

(** The window of a call lies in the index and in the document. *)
Lemma edit_window_bounds width offs document start old_end new_end :
  offs <> [] -> 0 < Document.line_count document ->
  let self := index_from offs width in
  let top := top_line_index document self start old_end new_end in
  let old_bottom := old_bottom_line_index document self start old_end new_end in
  let new_bottom := new_bottom_line_index document self start old_end new_end in
  0 <= top <= old_bottom /\ old_bottom < Py.len offs
  /\ top <= new_bottom /\ new_bottom < Document.line_count document.
Proof.
  intros Hoffs Hdoc self top old_bottom new_bottom.
  subst top old_bottom new_bottom.
  unfold top_line_index, old_bottom_line_index, new_bottom_line_index, edit_window.
  cbn [fst snd]. subst self. unfold index_from.
  cbn [WrappedDocument._line_index_to_offsets].
  rewrite len_y_offsets_from.
  assert (0 < Py.len offs) as Hlen
    by (destruct offs; [congruence | rewrite len_cons; pose proof (len_nonneg offs); lia]).
  pose proof (clamp_bounds (fst start) 0
                (Z.min (Py.len offs - 1) (Document.line_count document - 1)) ltac:(lia)).
  pose proof (clamp_bounds (fst old_end) 0 (Py.len offs - 1) ltac:(lia)).
  pose proof (clamp_bounds (fst new_end) 0 (Document.line_count document - 1) ltac:(lia)).
  lia.
Qed.

Lemma len_slice_inside {A : Type} (l : list A) i j :
  0 <= i <= j -> j <= Py.len l -> Py.len (Py.slice l i j) = j - i.
Proof.
  intros Hi Hj. unfold Py.slice, Py.slice_index.
  destruct (i <? 0) eqn:E1; [lia|]. destruct (j <? 0) eqn:E2; [lia|].
  rewrite !Z.min_l by lia.
  unfold Py.len in *. rewrite length_firstn, length_skipn. lia.
Qed.

(** A list cut at two positions. *)
Lemma cut_in_three {A : Type} (l : list A) i j :
  0 <= i <= j -> j <= Py.len l ->
  exists l1 l2 l3,
    l = l1 ++ l2 ++ l3 /\ Py.len l1 = i /\ Py.len l2 = j - i
    /\ l1 = firstn (Z.to_nat i) l /\ l3 = skipn (Z.to_nat j) l.
Proof.
  intros Hi Hj.
  exists (firstn (Z.to_nat i) l),
         (firstn (Z.to_nat (j - i)) (skipn (Z.to_nat i) l)),
         (skipn (Z.to_nat j) l).
  unfold Py.len in *.
  split; [|split; [|split; [|split]]].
  - rewrite <- (firstn_skipn (Z.to_nat i) l) at 1. f_equal.
    rewrite <- (firstn_skipn (Z.to_nat (j - i)) (skipn (Z.to_nat i) l)) at 1. f_equal.
    rewrite skipn_skipn. f_equal. lia.
  - rewrite length_firstn. lia.
  - rewrite length_firstn, length_skipn. lia.
  - reflexivity.
  - reflexivity.
Qed.

(** The call on the index of the offsets [Ob ++ Oo ++ Oa], when the window
    is [Oo], replaces it by the offsets of the lines [new_lines]. *)
Lemma wrap_range_window width Ob Oo Oa document start old_end new_end :
  Oo <> [] ->
  let self := index_from (Ob ++ Oo ++ Oa) width in
  top_line_index document self start old_end new_end = Py.len Ob ->
  old_bottom_line_index document self start old_end new_end
  = Py.len Ob + Py.len Oo - 1 ->
  Py.len (new_lines document self start old_end new_end)
  = new_bottom_line_index document self start old_end new_end - Py.len Ob + 1 ->
  wrap_range document self start old_end new_end
  = inr (index_from
           (Ob ++ offsets width (new_lines document self start old_end new_end) ++ Oa)
           width)
  /\ offset_shift divide_line document self start old_end new_end
     = inr (row_count (offsets width (new_lines document self start old_end new_end))
            - row_count Oo).
Proof.
  intros HOo0 self Htop Hob Hlen.
  set (N := new_lines document self start old_end new_end) in *.
  set (nb := new_bottom_line_index document self start old_end new_end) in *.
  assert (Py.slice (Document.lines document) (Py.len Ob) (nb + 1) = N) as HN.
  { subst N. unfold new_lines. rewrite Htop. reflexivity. }
  unfold offset_shift. fold N. rewrite Htop, Hob.
  unfold WrappedDocument.wrap_range.
  destruct start as [sl sc], old_end as [oel oec], new_end as [nel nec].
  unfold top_line_index, old_bottom_line_index, new_bottom_line_index, edit_window
    in Htop, Hob, nb.
  cbn [fst snd] in Htop, Hob, nb.
  rewrite Htop, Hob. fold nb. rewrite HN.
  subst self. unfold index_from.
  cbn [WrappedDocument._line_index_to_offsets WrappedDocument._offset_to_line_info
       WrappedDocument._wrap_offsets WrappedDocument._width].
  pose proof (len_nonneg Ob) as Hb. pose proof (len_nonneg Oa) as Ha.
  assert (0 < Py.len Oo) as Ho
    by (destruct Oo; [congruence | rewrite len_cons; pose proof (len_nonneg Oo); lia]).
  pose proof (len_nonneg N) as HlenN.
  rewrite !y_offsets_from_app, !line_info_from_app, !Z.add_0_l.
  set (On := offsets width N).
  assert (Py.len On = Py.len N) as HOn by apply len_offsets.
  set (rb := row_count Ob).
  destruct (y_offsets_first rb Oo HOo0) as (row1 & rest1 & E1 & G1).
  destruct (y_offsets_last rb Oo HOo0) as (init2 & row2 & E2 & G2).
  rewrite E1 at 1 2.
  rewrite !getitem_block_first by (rewrite len_y_offsets_from; lia).
  cbn [Py.bind]. rewrite G1. cbn [Py.bind].
  rewrite E2 at 1 2.
  rewrite !getitem_block_last
    by (rewrite <- E2, !len_y_offsets_from; lia).
  cbn [Py.bind]. rewrite G2. cbn [Py.bind].
  rewrite wrap_range_lines. cbn [app]. fold On.
  rewrite len_line_info_from.
  split; [|unfold Py.ret; f_equal; lia].
  rewrite !(setslice_block (line_info_from 0 Ob) (line_info_from (Py.len Ob) Oo))
    by (rewrite !len_line_info_from; subst rb; lia).
  rewrite !(setslice_block (y_offsets_from 0 Ob) (y_offsets_from rb Oo))
    by (rewrite !len_y_offsets_from; lia).
  rewrite (setslice_block Ob Oo) by lia.
  assert ((if nb - (Py.len Ob + Py.len Oo - 1) =? 0
           then Py.ret (line_info_from 0 Ob ++ line_info_from (Py.len Ob) On
                          ++ line_info_from (Py.len Ob + Py.len Oo) Oa)
           else Py.for_each
                  (Py.range (rb + row_count On)
                     (Py.len (line_info_from 0 Ob ++ line_info_from (Py.len Ob) On
                                ++ line_info_from (Py.len Ob + Py.len Oo) Oa)))
                  (WrappedDocument.shift_line_info (nb - (Py.len Ob + Py.len Oo - 1)))
                  (line_info_from 0 Ob ++ line_info_from (Py.len Ob) On
                     ++ line_info_from (Py.len Ob + Py.len Oo) Oa))
          = inr (line_info_from 0 Ob ++ line_info_from (Py.len Ob) On
                   ++ line_info_from (Py.len Ob + Py.len On) Oa)) as ->.
  { destruct (Z.eqb_spec (nb - (Py.len Ob + Py.len Oo - 1)) 0) as [E|E].
    - replace (Py.len Ob + Py.len Oo) with (Py.len Ob + Py.len On) by lia.
      reflexivity.
    - rewrite !app_assoc.
      rewrite shift_line_info_tail
        by (rewrite ?len_app, ?len_line_info_from; subst rb; lia).
      rewrite <- line_info_from_shift.
      replace (Py.len Ob + Py.len Oo + (nb - (Py.len Ob + Py.len Oo - 1)))
        with (Py.len Ob + Py.len On) by lia.
      now rewrite <- app_assoc. }
  cbn [Py.bind].
  assert ((if row_count On - (rb + row_count Oo - 1 - rb + 1) =? 0
           then Py.ret (y_offsets_from 0 Ob ++ y_offsets_from rb On
                          ++ y_offsets_from (rb + row_count Oo) Oa)
           else Py.for_each
                  (Py.range (Py.len Ob + Py.len N)
                     (Py.len (y_offsets_from 0 Ob ++ y_offsets_from rb On
                                ++ y_offsets_from (rb + row_count Oo) Oa)))
                  (WrappedDocument.shift_offsets
                     (row_count On - (rb + row_count Oo - 1 - rb + 1)))
                  (y_offsets_from 0 Ob ++ y_offsets_from rb On
                     ++ y_offsets_from (rb + row_count Oo) Oa))
          = inr (y_offsets_from 0 Ob ++ y_offsets_from rb On
                   ++ y_offsets_from (rb + row_count On) Oa)) as ->.
  { destruct (Z.eqb_spec (row_count On - (rb + row_count Oo - 1 - rb + 1)) 0) as [E|E].
    - replace (rb + row_count Oo) with (rb + row_count On) by lia.
      reflexivity.
    - rewrite !app_assoc.
      rewrite shift_offsets_tail
        by (rewrite ?len_app, ?len_y_offsets_from; lia).
      rewrite <- y_offsets_from_shift.
      replace (rb + row_count Oo + (row_count On - (rb + row_count Oo - 1 - rb + 1)))
        with (rb + row_count On) by lia.
      now rewrite <- app_assoc. }
  cbn [Py.bind Py.ret]. f_equal. reflexivity.
Qed.

(** The call on the index of any offsets, for any locations and any
    document with a line. *)
Lemma wrap_range_any width offs document start old_end new_end :
  offs <> [] -> 0 < Document.line_count document ->
  let self := index_from offs width in
  let top := top_line_index document self start old_end new_end in
  let old_bottom := old_bottom_line_index document self start old_end new_end in
  let lines := new_lines document self start old_end new_end in
  exists Ob Oo Oa,
    offs = Ob ++ Oo ++ Oa
    /\ Py.len Ob = top /\ Py.len Oo = old_bottom - top + 1
    /\ Ob = firstn (Z.to_nat top) offs
    /\ Oa = skipn (Z.to_nat (old_bottom + 1)) offs
    /\ Py.len lines
       = new_bottom_line_index document self start old_end new_end - top + 1
    /\ wrap_range document self start old_end new_end
       = inr (index_from (Ob ++ offsets width lines ++ Oa) width)
    /\ offset_shift divide_line document self start old_end new_end
       = inr (row_count (offsets width lines) - row_count Oo).
Proof.
  intros Hoffs Hdoc self top old_bottom lines.
  destruct (edit_window_bounds width offs document start old_end new_end Hoffs Hdoc)
    as (Htop & Hob & Hnb & Hnb').
  fold self in Htop, Hob, Hnb, Hnb'. fold top in Htop, Hnb. fold old_bottom in Htop, Hob.
  destruct (cut_in_three offs top (old_bottom + 1) ltac:(lia) ltac:(lia))
    as (Ob & Oo & Oa & E & HOb & HOo & EOb & EOa).
  assert (Py.len lines
          = new_bottom_line_index document self start old_end new_end - top + 1) as Hlen.
  { subst lines. unfold new_lines. fold top.
    rewrite len_slice_inside; unfold Document.lines, Document.line_count in *; lia. }
  exists Ob, Oo, Oa.
  split; [exact E|]. split; [exact HOb|]. split; [lia|].
  split; [exact EOb|]. split; [exact EOa|]. split; [exact Hlen|].
  assert (Oo <> []) as HOo0 by (intros ->; cbn in HOo; lia).
  clear EOb EOa.
  subst lines top old_bottom self. subst offs.
  apply wrap_range_window; [exact HOo0 | lia | lia | lia].
Qed.

(** Every state of the index is the index of some wrap offsets. *)
Lemma reachable_index_from width self :
  reachable divide_line width self ->
  exists offs, offs <> [] /\ self = index_from offs width.
Proof.
  induction 1 as [document self Hdoc Hw
                 | document self start old_end new_end self' _ IH Hdoc Hr].
  - rewrite wrap_eq in Hw. injection Hw as <-.
    exists (offsets width document). split; [|reflexivity].
    intros E. pose proof (len_offsets width document) as Hl. rewrite E in Hl.
    unfold Document.line_count, Document.lines in Hdoc. cbn in Hl. lia.
  - destruct IH as (offs & Hoffs & ->).
    destruct (wrap_range_any width offs document start old_end new_end Hoffs Hdoc)
      as (Ob & Oo & Oa & _ & _ & _ & _ & _ & Hlen & Hcall & _).
    rewrite Hcall in Hr. injection Hr as <-.
    eexists. split; [|reflexivity].
    intros E. apply (f_equal (@Py.len _)) in E.
    rewrite !len_app, len_offsets in E. cbn in E.
    pose proof (len_nonneg Ob). pose proof (len_nonneg Oa).
    pose proof (edit_window_bounds width offs document start old_end new_end Hoffs Hdoc).
    cbv zeta in *. lia.
Qed.

(** The entries of the lines outside a window that is replaced. *)
Lemma index_from_frame width (Ob Oo On Oa : list (list Z)) :
  let self := index_from (Ob ++ Oo ++ Oa) width in
  let self' := index_from (Ob ++ On ++ Oa) width in
  (forall line_index, 0 <= line_index < Py.len Ob ->
     Py.getitem (WrappedDocument._wrap_offsets self') line_index
     = Py.getitem (WrappedDocument._wrap_offsets self) line_index
     /\ Py.getitem (WrappedDocument._line_index_to_offsets self') line_index
        = Py.getitem (WrappedDocument._line_index_to_offsets self) line_index)
  /\ (forall y line_index section, 0 <= y -> line_index < Py.len Ob ->
        Py.getitem (WrappedDocument._offset_to_line_info self) y
        = inr (line_index, section) ->
        Py.getitem (WrappedDocument._offset_to_line_info self') y
        = inr (line_index, section))
  /\ (Py.len On = Py.len Oo -> row_count On = row_count Oo ->
      (forall line_index, Py.len Ob + Py.len Oo - 1 < line_index ->
         Py.getitem (WrappedDocument._wrap_offsets self') line_index
         = Py.getitem (WrappedDocument._wrap_offsets self) line_index
         /\ Py.getitem (WrappedDocument._line_index_to_offsets self') line_index
            = Py.getitem (WrappedDocument._line_index_to_offsets self) line_index)
      /\ (forall y line_index section, 0 <= y ->
            Py.len Ob + Py.len Oo - 1 < line_index ->
            Py.getitem (WrappedDocument._offset_to_line_info self) y
            = inr (line_index, section) ->
            Py.getitem (WrappedDocument._offset_to_line_info self') y
            = inr (line_index, section))).
Proof.
  intros self self'. subst self self'. unfold index_from.
  cbn [WrappedDocument._line_index_to_offsets WrappedDocument._offset_to_line_info
       WrappedDocument._wrap_offsets].
  rewrite !line_info_from_app, !y_offsets_from_app, !Z.add_0_l.
  pose proof (row_count_nonneg Ob) as Hrb.
  pose proof (row_count_nonneg Oo) as Hro.
  pose proof (row_count_nonneg On) as Hrn.
  pose proof (len_nonneg Ob) as Hlb. pose proof (len_nonneg Oo) as Hlo.
  split; [|split].
  - intros li Hli. split.
    + rewrite !getitem_app_l by lia. reflexivity.
    + rewrite !getitem_app_l by (rewrite len_y_offsets_from; lia). reflexivity.
  - intros y li s Hy Hli Hget.
    destruct (Z_lt_ge_dec y (row_count Ob)) as [Hin|Hout].
    + rewrite getitem_app_l in Hget |- * by (rewrite len_line_info_from; lia).
      exact Hget.
    + rewrite getitem_app_r in Hget by (rewrite len_line_info_from; lia).
      apply getitem_In in Hget; [|rewrite len_line_info_from; lia].
      apply in_app_iff in Hget as [Hget|Hget];
        apply line_info_from_bounds in Hget; lia.
  - intros Hlen Hrows. split.
    + intros li Hli. split.
      * rewrite !app_assoc.
        rewrite !getitem_app_r by (rewrite len_app; lia).
        rewrite !len_app, Hlen. reflexivity.
      * rewrite !app_assoc.
        rewrite !getitem_app_r by (rewrite len_app, !len_y_offsets_from; lia).
        rewrite !len_app, !len_y_offsets_from, Hlen, Hrows. reflexivity.
    + intros y li s Hy Hli Hget.
      rewrite Hlen. rewrite app_assoc in Hget |- *.
      assert (Py.len (line_info_from 0 Ob ++ line_info_from (Py.len Ob) Oo)
              = Py.len (line_info_from 0 Ob ++ line_info_from (Py.len Ob) On)) as Hl
        by (rewrite !len_app, !len_line_info_from; lia).
      destruct (Z_lt_ge_dec y
                  (Py.len (line_info_from 0 Ob ++ line_info_from (Py.len Ob) Oo)))
        as [Hin|Hout].
      * rewrite getitem_app_l in Hget by lia.
        apply getitem_In in Hget; [|lia].
        apply in_app_iff in Hget as [Hget|Hget];
          apply line_info_from_bounds in Hget; lia.
      * rewrite getitem_app_r in Hget |- * by lia.
        rewrite <- Hl. exact Hget.
Qed.

(** The index of any wrap offsets has its two maps inverse of each other,
    and as many rows as [height] says. *)
Lemma index_from_inverse offs width :
  inverse_maps (index_from offs width) /\ rows_add_up (index_from offs width).
Proof.
  unfold inverse_maps, rows_add_up, index_from, WrappedDocument.height.
  cbn [WrappedDocument._line_index_to_offsets WrappedDocument._offset_to_line_info
       WrappedDocument._wrap_offsets].
  split; [|split].
  - intros y li s Hy Hli Hs.
    rewrite (index_block_inverse _ 0 0 y li s) by lia.
    now rewrite Z.sub_0_r, Z.add_0_l.
  - apply len_line_info_from.
  - now rewrite len_line_info_from.
Qed.

(** ** What [wrap_range] keeps and what it changes *)

(** C10.  Whatever the three locations, a call of [wrap_range] on an index
    that [wrap] and earlier calls have left, for a document with a line,
    returns and leaves alone what lies above the window: for every line
    before [top], the smaller of the line indexes of [start] and [old_end]
    once clamped, its wrap offsets, its rows and the entries of its rows are
    what they were.  When [line_shift] and [offset_shift] are 0, the same
    holds for the lines after [old_bottom]. *)
Theorem wrap_range_frame width self document start old_end new_end :
  reachable divide_line width self ->
  0 < Document.line_count document ->
  let top := top_line_index document self start old_end new_end in
  let old_bottom := old_bottom_line_index document self start old_end new_end in
  exists self',
    wrap_range document self start old_end new_end = inr self'
    /\ (forall line_index, 0 <= line_index < top ->
          Py.getitem (WrappedDocument._wrap_offsets self') line_index
          = Py.getitem (WrappedDocument._wrap_offsets self) line_index
          /\ Py.getitem (WrappedDocument._line_index_to_offsets self') line_index
             = Py.getitem (WrappedDocument._line_index_to_offsets self) line_index)
    /\ (forall y line_index section, 0 <= y -> line_index < top ->
          Py.getitem (WrappedDocument._offset_to_line_info self) y
          = inr (line_index, section) ->
          Py.getitem (WrappedDocument._offset_to_line_info self') y
          = inr (line_index, section))
    /\ (line_shift document self start old_end new_end = 0 ->
        offset_shift divide_line document self start old_end new_end = inr 0 ->
        (forall line_index, old_bottom < line_index ->
           Py.getitem (WrappedDocument._wrap_offsets self') line_index
           = Py.getitem (WrappedDocument._wrap_offsets self) line_index
           /\ Py.getitem (WrappedDocument._line_index_to_offsets self') line_index
              = Py.getitem (WrappedDocument._line_index_to_offsets self) line_index)
        /\ (forall y line_index section, 0 <= y -> old_bottom < line_index ->
              Py.getitem (WrappedDocument._offset_to_line_info self) y
              = inr (line_index, section) ->
              Py.getitem (WrappedDocument._offset_to_line_info self') y
              = inr (line_index, section))).
Proof.
  intros Hself Hdoc top old_bottom.
  destruct (reachable_index_from width self Hself) as (offs & Hoffs & ->).
  destruct (wrap_range_any width offs document start old_end new_end Hoffs Hdoc)
    as (Ob & Oo & Oa & E & HOb & HOo & _ & _ & Hlen & Hcall & Hshift).
  fold top in HOb, HOo, Hlen. fold old_bottom in HOo.
  eexists. split; [exact Hcall|].
  set (On := offsets width (new_lines document (index_from offs width)
                              start old_end new_end)) in *.
  destruct (index_from_frame width Ob Oo On Oa) as (Hlines & Hrows & Hafter).
  rewrite <- E in Hlines, Hrows, Hafter. rewrite HOb in Hlines, Hrows, Hafter.
  split; [exact Hlines|]. split; [exact Hrows|].
  intros Hls Hos. rewrite Hshift in Hos. injection Hos as Hos.
  unfold line_shift in Hls. fold old_bottom in Hls.
  replace (top + Py.len Oo - 1) with old_bottom in Hafter by lia.
  apply Hafter; [|lia].
  subst On. rewrite len_offsets. lia.
Qed.

(** X19.  Whatever the three locations, a call of [wrap_range] on an index
    that [wrap] and earlier calls have left, for a document with a line,
    returns; the wrap offsets of the lines [top] to [old_bottom] are
    replaced by those of the lines [top] to [new_bottom] of the document,
    the other lines keep theirs, and the two maps are the ones these wrap
    offsets give, rows and lines counted from 0. *)
Theorem wrap_range_replaces_window width self document start old_end new_end :
  reachable divide_line width self ->
  0 < Document.line_count document ->
  exists self',
    wrap_range document self start old_end new_end = inr self'
    /\ WrappedDocument._wrap_offsets self'
       = firstn (Z.to_nat (top_line_index document self start old_end new_end))
           (WrappedDocument._wrap_offsets self)
         ++ offsets width (new_lines document self start old_end new_end)
         ++ skipn (Z.to_nat (old_bottom_line_index document self start old_end new_end + 1))
              (WrappedDocument._wrap_offsets self)
    /\ WrappedDocument._offset_to_line_info self'
       = line_info_from 0 (WrappedDocument._wrap_offsets self')
    /\ WrappedDocument._line_index_to_offsets self'
       = y_offsets_from 0 (WrappedDocument._wrap_offsets self')
    /\ WrappedDocument._width self' = width.
Proof.
  intros Hself Hdoc.
  destruct (reachable_index_from width self Hself) as (offs & Hoffs & ->).
  destruct (wrap_range_any width offs document start old_end new_end Hoffs Hdoc)
    as (Ob & Oo & Oa & _ & _ & _ & EOb & EOa & _ & Hcall & _).
  eexists. split; [exact Hcall|].
  unfold index_from at 1 2 3 4.
  cbn [WrappedDocument._line_index_to_offsets WrappedDocument._offset_to_line_info
       WrappedDocument._wrap_offsets WrappedDocument._width].
  rewrite EOb, EOa. repeat split.
Qed.

(** X9.  Whatever the three locations, a call of [wrap_range] changes the
    height by [offset_shift], which is the number of rows of the lines [top]
    to [new_bottom] of the document less the number of rows the lines [top]
    to [old_bottom] had in the index. *)
Theorem wrap_range_height width self document start old_end new_end :
  reachable divide_line width self ->
  0 < Document.line_count document ->
  exists self' shift,
    wrap_range document self start old_end new_end = inr self'
    /\ offset_shift divide_line document self start old_end new_end = inr shift
    /\ shift
       = row_count (offsets width (new_lines document self start old_end new_end))
         - row_count
             (Py.slice (WrappedDocument._wrap_offsets self)
                (top_line_index document self start old_end new_end)
                (old_bottom_line_index document self start old_end new_end + 1))
    /\ WrappedDocument.height self' = WrappedDocument.height self + shift.
Proof.
  intros Hself Hdoc.
  destruct (reachable_index_from width self Hself) as (offs & Hoffs & ->).
  destruct (wrap_range_any width offs document start old_end new_end Hoffs Hdoc)
    as (Ob & Oo & Oa & E & HOb & HOo & _ & _ & _ & Hcall & Hshift).
  eexists _, _. split; [exact Hcall|]. split; [exact Hshift|].
  unfold WrappedDocument.height.
  repeat match goal with
         | |- context [WrappedDocument._wrap_offsets (index_from ?o width)] =>
             change (WrappedDocument._wrap_offsets (index_from o width)) with o
         end.
  fold (row_count
          (Ob ++ offsets width (new_lines document (index_from offs width)
                                  start old_end new_end) ++ Oa)).
  fold (row_count offs).
  assert (Py.slice offs
            (top_line_index document (index_from offs width) start old_end new_end)
            (old_bottom_line_index document (index_from offs width) start old_end new_end
             + 1) = Oo) as ->.
  { rewrite E at 1. rewrite <- HOb.
    replace (old_bottom_line_index document (index_from offs width) start old_end new_end
             + 1) with (Py.len Ob + Py.len Oo) by lia.
    apply slice_middle. }
  split; [reflexivity|].
  rewrite E at 2. rewrite !row_count_app. lia.
Qed.

(** X21.  After every call of [wrap_range] that follows [wrap], whatever
    the locations, the row-to-line map and the line-to-rows map are inverses
    of each other and the number of rows is the sum over the lines of the
    number of wrap offsets plus one, which is [height]. *)
Theorem wrap_range_keeps_maps width self document start old_end new_end :
  reachable divide_line width self ->
  0 < Document.line_count document ->
  exists self',
    wrap_range document self start old_end new_end = inr self'
    /\ inverse_maps self' /\ rows_add_up self'.
Proof.
  intros Hself Hdoc.
  destruct (reachable_index_from width self Hself) as (offs & Hoffs & ->).
  destruct (wrap_range_any width offs document start old_end new_end Hoffs Hdoc)
    as (Ob & Oo & Oa & _ & _ & _ & _ & _ & _ & Hcall & _).
  eexists. split; [exact Hcall|]. apply index_from_inverse.
Qed.

(** X22.  Whatever the three locations, a call of [wrap_range] changes the
    number of lines the index keeps by [line_shift], the difference of
    [new_bottom] and [old_bottom], whatever the number of lines of the
    document then is; the line-to-rows map has as many lines as the wrap
    offsets. *)
Theorem wrap_range_line_count width self document start old_end new_end :
  reachable divide_line width self ->
  0 < Document.line_count document ->
  exists self',
    wrap_range document self start old_end new_end = inr self'
    /\ Py.len (WrappedDocument._wrap_offsets self')
       = Py.len (WrappedDocument._wrap_offsets self)
         + line_shift document self start old_end new_end
    /\ Py.len (WrappedDocument._line_index_to_offsets self')
       = Py.len (WrappedDocument._wrap_offsets self').
Proof.
  intros Hself Hdoc.
  destruct (reachable_index_from width self Hself) as (offs & Hoffs & ->).
  destruct (wrap_range_any width offs document start old_end new_end Hoffs Hdoc)
    as (Ob & Oo & Oa & E & HOb & HOo & _ & _ & Hlen & Hcall & _).
  eexists. split; [exact Hcall|].
  repeat match goal with
         | |- context [WrappedDocument._wrap_offsets (index_from ?o width)] =>
             change (WrappedDocument._wrap_offsets (index_from o width)) with o
         | |- context [WrappedDocument._line_index_to_offsets (index_from ?o width)] =>
             change (WrappedDocument._line_index_to_offsets (index_from o width))
               with (y_offsets_from 0 o)
         end.
  split; [|apply len_y_offsets_from].
  unfold line_shift. rewrite !len_app, len_offsets.
  assert (Py.len offs = Py.len Ob + (Py.len Oo + Py.len Oa))
    by (rewrite E at 1; now rewrite !len_app).
  lia.
Qed.

(** X20.  After an edit that replaced the lines [old], below the lines
    [before], by the lines [new], when the three locations give these
    windows ([describes_edit]), [wrap_range] returns, and the three indexes
    it leaves are the ones a full [wrap] at the same width builds from the
    edited document.  In particular the rows after the window are the
    former ones with [line_shift] added to their line index, and the lines
    after the window have the former row numbers with [offset_shift]
    added. *)
Theorem wrap_range_is_rebuild width before old new after start old_end new_end self :
  edited_from divide_line width (before ++ old ++ after) self ->
  describes_edit start old_end new_end before old new ->
  exists self',
    wrap_range (before ++ new ++ after) self start old_end new_end = inr self'
    /\ wrap (before ++ new ++ after) width = inr self'
    /\ (let line_shift := Py.len new - Py.len old in
        skipn (Z.to_nat (row_count (offsets width (before ++ new))))
          (WrappedDocument._offset_to_line_info self')
        = map (fun info : Z * Z => (fst info + line_shift, snd info))
            (skipn (Z.to_nat (row_count (offsets width (before ++ old))))
               (WrappedDocument._offset_to_line_info self)))
    /\ (let offset_shift :=
          row_count (offsets width new) - row_count (offsets width old) in
        skipn (length (before ++ new)) (WrappedDocument._line_index_to_offsets self')
        = map (map (fun y => y + offset_shift))
            (skipn (length (before ++ old))
               (WrappedDocument._line_index_to_offsets self))).
Proof.
  intros Hself Hedit. apply edited_from_index in Hself. subst self.
  exists (index width (before ++ new ++ after)).
  split; [now apply wrap_range_eq|]. split; [apply wrap_eq|].
  unfold index_of, Document.lines.
  cbn [WrappedDocument._line_index_to_offsets WrappedDocument._offset_to_line_info].
  rewrite !(app_assoc before), !(offsets_app width (before ++ _) after).
  rewrite !line_info_from_app, !y_offsets_from_app.
  split; cbv zeta.
  - replace (Z.to_nat (row_count (offsets width (before ++ new))))
      with (length (line_info_from 0 (offsets width (before ++ new))))
      by (rewrite <- to_nat_len, len_line_info_from; reflexivity).
    replace (Z.to_nat (row_count (offsets width (before ++ old))))
      with (length (line_info_from 0 (offsets width (before ++ old))))
      by (rewrite <- to_nat_len, len_line_info_from; reflexivity).
    rewrite !skipn_app, !Nat.sub_diag, !skipn_all. cbn [skipn app].
    rewrite <- line_info_from_shift, !len_offsets, !len_app. f_equal. lia.
  - replace (length (before ++ new))
      with (length (y_offsets_from 0 (offsets width (before ++ new))))
      by (rewrite <- to_nat_len, len_y_offsets_from, len_offsets; apply to_nat_len).
    replace (length (before ++ old))
      with (length (y_offsets_from 0 (offsets width (before ++ old))))
      by (rewrite <- to_nat_len, len_y_offsets_from, len_offsets; apply to_nat_len).
    rewrite !skipn_app, !Nat.sub_diag, !skipn_all. cbn [skipn app].
    rewrite <- y_offsets_from_shift, !offsets_app, !row_count_app, !Z.add_0_l.
    f_equal. lia.
Qed.

End WrapFacts.

(** ** An edit of a three-line document *)

Lemma example_wrapped_eq :
  WrappedDocument.wrap Example.divide_line
    (Example.before ++ Example.old ++ Example.after) 10
  = inr Example.wrapped.
Proof. reflexivity. Defined.

Lemma example_rewrapped_eq :
  WrappedDocument.wrap_range Example.divide_line
    (Example.before ++ Example.new ++ Example.after) Example.wrapped
    Example.start Example.old_end Example.new_end
  = inr Example.rewrapped.
Proof. reflexivity. Defined.

Lemma example_edit_described :
  describes_edit Example.start Example.old_end Example.new_end
    Example.before Example.old Example.new.
Proof. unfold describes_edit. repeat split; discriminate. Defined.

Lemma example_rewrapped_reachable : reachable Example.divide_line 10 Example.rewrapped.
Proof.
  apply (reachable_wrap Example.divide_line 10
           (Example.before ++ Example.new ++ Example.after)); reflexivity.
Defined.

Lemma wrap_range_is_rebuild_witness :
  exists self',
    WrappedDocument.wrap_range Example.divide_line
      (Example.before ++ Example.new ++ Example.after) Example.wrapped
      Example.start Example.old_end Example.new_end = inr self'
    /\ WrappedDocument.wrap Example.divide_line
         (Example.before ++ Example.new ++ Example.after) 10 = inr self'
    /\ skipn 7 (WrappedDocument._offset_to_line_info self')
       = map (fun info : Z * Z => (fst info + 1, snd info))
           (skipn 3 (WrappedDocument._offset_to_line_info Example.wrapped))
    /\ skipn 3 (WrappedDocument._line_index_to_offsets self')
       = map (map (fun y => y + 4))
           (skipn 2 (WrappedDocument._line_index_to_offsets Example.wrapped)).
Proof.
  exact (wrap_range_is_rebuild Example.divide_line 10
           Example.before Example.old Example.new Example.after
           Example.start Example.old_end Example.new_end Example.wrapped
           (edited_wrap Example.divide_line 10 _ _ example_wrapped_eq)
           example_edit_described).
Defined.

(** A word of line 1 is typed over: the window is line 1, and neither the
    lines nor the rows shift. *)
Lemma wrap_range_frame_witness :
  exists self',
    WrappedDocument.wrap_range Example.divide_line Example.retyped Example.rewrapped
      (1, 11) (1, 12) (1, 12) = inr self'
    /\ (forall line_index, 0 <= line_index < 1 ->
          Py.getitem (WrappedDocument._wrap_offsets self') line_index
          = Py.getitem (WrappedDocument._wrap_offsets Example.rewrapped) line_index
          /\ Py.getitem (WrappedDocument._line_index_to_offsets self') line_index
             = Py.getitem (WrappedDocument._line_index_to_offsets Example.rewrapped)
                 line_index)
    /\ (forall y line_index section, 0 <= y -> line_index < 1 ->
          Py.getitem (WrappedDocument._offset_to_line_info Example.rewrapped) y
          = inr (line_index, section) ->
          Py.getitem (WrappedDocument._offset_to_line_info self') y
          = inr (line_index, section))
    /\ (forall line_index, 1 < line_index ->
          Py.getitem (WrappedDocument._wrap_offsets self') line_index
          = Py.getitem (WrappedDocument._wrap_offsets Example.rewrapped) line_index
          /\ Py.getitem (WrappedDocument._line_index_to_offsets self') line_index
             = Py.getitem (WrappedDocument._line_index_to_offsets Example.rewrapped)
                 line_index)
    /\ (forall y line_index section, 0 <= y -> 1 < line_index ->
          Py.getitem (WrappedDocument._offset_to_line_info Example.rewrapped) y
          = inr (line_index, section) ->
          Py.getitem (WrappedDocument._offset_to_line_info self') y
          = inr (line_index, section)).
Proof.
  destruct (wrap_range_frame Example.divide_line 10 Example.rewrapped Example.retyped
              (1, 11) (1, 12) (1, 12) example_rewrapped_reachable eq_refl)
    as (self' & Hcall & Hlines & Hrows & Hafter).
  exists self'. split; [exact Hcall|]. split; [exact Hlines|]. split; [exact Hrows|].
  apply Hafter; reflexivity.
Defined.

Lemma wrap_range_replaces_window_witness :
  exists self',
    WrappedDocument.wrap_range Example.divide_line Example.deleted Example.rewrapped
      (2, 10) (1, 5) (1, 5) = inr self'
    /\ WrappedDocument._wrap_offsets self'
       = firstn 1 (WrappedDocument._wrap_offsets Example.rewrapped)
         ++ offsets_of Example.divide_line 10
              [str_of "I muse mind-killer."; str_of "xyz"]
         ++ skipn 3 (WrappedDocument._wrap_offsets Example.rewrapped)
    /\ WrappedDocument._offset_to_line_info self'
       = line_info_from 0 (WrappedDocument._wrap_offsets self')
    /\ WrappedDocument._line_index_to_offsets self'
       = y_offsets_from 0 (WrappedDocument._wrap_offsets self')
    /\ WrappedDocument._width self' = 10.
Proof.
  exact (wrap_range_replaces_window Example.divide_line 10 Example.rewrapped
           Example.deleted (2, 10) (1, 5) (1, 5) example_rewrapped_reachable eq_refl).
Defined.

Lemma wrap_range_height_witness :
  exists self' shift,
    WrappedDocument.wrap_range Example.divide_line Example.deleted Example.rewrapped
      (2, 10) (1, 5) (1, 5) = inr self'
    /\ offset_shift Example.divide_line Example.deleted Example.rewrapped
         (2, 10) (1, 5) (1, 5) = inr shift
    /\ shift
       = row_count (offsets_of Example.divide_line 10
                      [str_of "I muse mind-killer."; str_of "xyz"])
         - row_count (Py.slice (WrappedDocument._wrap_offsets Example.rewrapped) 1 3)
    /\ WrappedDocument.height self' = WrappedDocument.height Example.rewrapped + shift.
Proof.
  exact (wrap_range_height Example.divide_line 10 Example.rewrapped
           Example.deleted (2, 10) (1, 5) (1, 5) example_rewrapped_reachable eq_refl).
Defined.

Lemma wrap_range_keeps_maps_witness :
  exists self',
    WrappedDocument.wrap_range Example.divide_line Example.deleted Example.rewrapped
      (2, 10) (1, 5) (1, 5) = inr self'
    /\ inverse_maps self' /\ rows_add_up self'.
Proof.
  exact (wrap_range_keeps_maps Example.divide_line 10 Example.rewrapped
           Example.deleted (2, 10) (1, 5) (1, 5) example_rewrapped_reachable eq_refl).
Defined.

Lemma wrap_range_line_count_witness :
  exists self',
    WrappedDocument.wrap_range Example.divide_line Example.deleted Example.rewrapped
      (2, 10) (1, 5) (1, 5) = inr self'
    /\ Py.len (WrappedDocument._wrap_offsets self')
       = Py.len (WrappedDocument._wrap_offsets Example.rewrapped)
         + line_shift Example.deleted Example.rewrapped (2, 10) (1, 5) (1, 5)
    /\ Py.len (WrappedDocument._line_index_to_offsets self')
       = Py.len (WrappedDocument._wrap_offsets self').
Proof.
  exact (wrap_range_line_count Example.divide_line 10 Example.rewrapped
           Example.deleted (2, 10) (1, 5) (1, 5) example_rewrapped_reachable eq_refl).
Defined.

(** ** A deletion passed from its lower end *)

(** C1.  The document "abc", "I must not fear.", "Fear is the
    mind-killer.", "xyz" is wrapped at width 10, and the text from (1, 5)
    to (2, 10) is deleted.  Passed from its lower end, the edit leaves an
    index of four lines and six rows, the last line of the document being
    wrapped twice; [wrap] builds three lines and five rows.  The window is
    sorted for [top] and [old_bottom], but [new_bottom] is the larger of
    [start] and [new_end], not of [top] and [new_end]. *)
Theorem wrap_range_bottom_up_delete :
  WrappedDocument.wrap Example.divide_line
    (Example.before ++ Example.new ++ Example.after) 10
  = inr Example.rewrapped
  /\ WrappedDocument.wrap_range Example.divide_line Example.deleted Example.rewrapped
       (2, 10) (1, 5) (1, 5)
     = inr Example.stale
  /\ WrappedDocument.wrap Example.divide_line Example.deleted 10 = inr Example.rebuilt
  /\ Example.stale <> Example.rebuilt
  /\ WrappedDocument.wrap_range Example.divide_line Example.deleted Example.rewrapped
       (1, 5) (2, 10) (1, 5)
     = inr Example.rebuilt.
Proof. repeat split. discriminate. Qed.

(** C2.  After [wrap_range] for the same deletion, passed from its lower
    end, the indexes hold four lines for a document of three, and the
    row-to-line map names line 3, which the document does not have: the
    indexes do not have the line count of the document. *)
Theorem wrap_range_bottom_up_line_count :
  WrappedDocument.wrap_range Example.divide_line Example.deleted Example.rewrapped
    (2, 10) (1, 5) (1, 5)
  = inr Example.stale
  /\ Document.line_count Example.deleted = 3
  /\ Py.len (WrappedDocument._wrap_offsets Example.stale) = 4
  /\ Py.len (WrappedDocument._line_index_to_offsets Example.stale) = 4
  /\ Py.getitem (WrappedDocument._offset_to_line_info Example.stale) 5 = inr (3, 0)
  /\ ~ same_line_count Example.deleted Example.stale
  /\ ~ consistent Example.deleted Example.stale.
Proof.
  assert (~ same_line_count Example.deleted Example.stale) as Hcount
    by (intros [H _]; discriminate H).
  repeat split; [exact Hcount|].
  intros (_ & H & _). exact (Hcount H).
Qed.

(** ** Binary search *)

Lemma bisect_right_loop_splits a x : increasing a ->
  forall fuel lo hi,
  0 <= lo <= hi -> hi <= Py.len a ->
  (Z.to_nat (hi - lo) < fuel)%nat ->
  (forall i v, nth_error a i = Some v -> Z.of_nat i < lo -> v <= x) ->
  (forall i v, nth_error a i = Some v -> hi <= Z.of_nat i -> x < v) ->
  splits_at a x (Py.bisect_right_loop fuel a x lo hi).
Proof.
  intros Hinc. induction fuel as [|fuel IH]; intros lo hi Hlo Hhi Hfuel Hbelow Habove.
  - lia.
  - cbn [Py.bisect_right_loop].
    destruct (Z.ltb_spec lo hi) as [Hlt|Hge].
    + assert (lo <= (lo + hi) / 2 < hi) as Hmid
        by (split; [apply Z.div_le_lower_bound | apply Z.div_lt_upper_bound]; lia).
      destruct (nth_error a (Z.to_nat ((lo + hi) / 2))) as [v|] eqn:E.
      * destruct (Z.ltb_spec x v) as [Hxv|Hxv].
        -- apply IH; try lia; [exact Hbelow|].
           intros i vi Hi Hle.
           destruct (Nat.eq_dec i (Z.to_nat ((lo + hi) / 2))) as [->|Hne].
           ++ congruence.
           ++ assert (v < vi); [|lia].
              apply (Hinc (Z.to_nat ((lo + hi) / 2)) i); [lia | exact E | exact Hi].
        -- apply IH; try lia; [|exact Habove].
           intros i vi Hi Hle.
           destruct (Nat.eq_dec i (Z.to_nat ((lo + hi) / 2))) as [->|Hne].
           ++ congruence.
           ++ assert (vi < v); [|lia].
              apply (Hinc i (Z.to_nat ((lo + hi) / 2))); [lia | exact Hi | exact E].
      * apply nth_error_None in E. unfold Py.len in Hhi. lia.
    + assert (lo = hi) as -> by lia. split; [lia|].
      intros i v Hi. split.
      * intros Hlt. eapply Hbelow; eassumption.
      * intros Hle. destruct (Z_lt_ge_dec (Z.of_nat i) hi) as [|Hge']; [assumption|].
        specialize (Habove i v Hi). lia.
Qed.

Lemma bisect_right_splits a x : increasing a -> splits_at a x (Py.bisect_right a x).
Proof.
  intros Hinc. unfold Py.bisect_right.
  pose proof (len_nonneg a).
  apply bisect_right_loop_splits; [assumption | lia | lia | | |].
  - unfold Py.len. lia.
  - intros i v Hi Hle. lia.
  - intros i v Hi Hle.
    assert (i < length a)%nat by (apply nth_error_Some; congruence).
    unfold Py.len in Hle. lia.
Qed.

(** ** The sections of a line *)

Lemma increasing_from_above lo a i v :
  increasing_from lo a -> nth_error a i = Some v -> lo < v.
Proof.
  revert lo i. induction a as [|w a IH]; intros lo i [].
  - destruct i; discriminate.
  - destruct i as [|i]; cbn [nth_error].
    + intros [= ->]. assumption.
    + intros Hi. specialize (IH w i ltac:(assumption) Hi). lia.
Qed.

Lemma increasing_from_increasing lo a : increasing_from lo a -> increasing a.
Proof.
  revert lo. induction a as [|w a IH]; intros lo H i j vi vj Hij Hi Hj.
  - destruct i; discriminate.
  - destruct H as [Hw Ha]. destruct j as [|j]; [lia|].
    cbn [nth_error] in Hj. destruct i as [|i]; cbn [nth_error] in Hi.
    + injection Hi as <-. eapply increasing_from_above; eassumption.
    + apply (IH w Ha i j); [lia | assumption | assumption].
Qed.

Lemma sane_ascending lo n a :
  increasing_from lo a -> Forall (fun v => v <= n) a -> lo <= n ->
  ascending lo (a ++ [n]) n.
Proof.
  revert lo. induction a as [|v a IH]; intros lo Hinc Hall Hlo; cbn.
  - lia.
  - destruct Hinc as [Hv Ha]. inversion Hall; subst.
    split; [lia|]. apply IH; assumption.
Qed.

Lemma slice_to_firstn {A : Type} (l : list A) k :
  0 <= k -> Py.slice_to l k = firstn (Z.to_nat k) l.
Proof.
  intros H. unfold Py.slice_to, Py.slice, Py.slice_index.
  pose proof (len_nonneg l).
  destruct (k <? 0) eqn:E; [lia|]. cbn [Z.ltb Z.compare].
  rewrite (Z.min_l 0) by lia. cbn [Z.to_nat skipn]. rewrite Z.sub_0_r.
  destruct (Z_le_gt_dec k (Py.len l)).
  - rewrite Z.min_l by lia. reflexivity.
  - rewrite Z.min_r by lia. rewrite to_nat_len, firstn_all.
    symmetry. apply firstn_all2. unfold Py.len in *. lia.
Qed.

Lemma slice_inside {A : Type} (l : list A) i j :
  0 <= i <= j -> j <= Py.len l ->
  Py.slice l i j = firstn (Z.to_nat (j - i)) (skipn (Z.to_nat i) l)
  /\ Py.len (Py.slice l i j) = j - i.
Proof.
  intros Hi Hj. unfold Py.slice, Py.slice_index.
  destruct (i <? 0) eqn:E1; [lia|]. destruct (j <? 0) eqn:E2; [lia|].
  rewrite !Z.min_l by lia. split; [reflexivity|].
  unfold Py.len in *. rewrite length_firstn, length_skipn. lia.
Qed.

Lemma divide_pieces line offsets :
  Rich.divide line offsets = pieces line 0 (offsets ++ [Py.len line])
  \/ (offsets = [] /\ Rich.divide line offsets = [line]).
Proof. destruct offsets; [right; split; reflexivity | left; reflexivity]. Qed.

Lemma pieces_nil_whole (line : str) : pieces line 0 [Py.len line] = [line].
Proof.
  unfold pieces. cbn [combine map fst snd]. f_equal.
  unfold Py.slice, Py.slice_index. cbn [Z.ltb Z.compare].
  pose proof (len_nonneg line).
  destruct (Py.len line <? 0) eqn:E; [lia|].
  rewrite (Z.min_l 0), Z.min_id, Z.sub_0_r, to_nat_len by lia.
  cbn [Z.to_nat skipn]. apply firstn_all.
Qed.

Lemma divide_eq_pieces line offsets :
  Rich.divide line offsets = pieces line 0 (offsets ++ [Py.len line]).
Proof.
  destruct (divide_pieces line offsets) as [H | [-> H]]; [exact H|].
  rewrite H. symmetry. apply pieces_nil_whole.
Qed.

Lemma length_pieces line b0 bounds : length (pieces line b0 bounds) = length bounds.
Proof.
  unfold pieces. rewrite length_map, length_combine. cbn [length]. lia.
Qed.

(** Piece [k] runs from bound [k] to bound [k + 1]. *)
Lemma pieces_nth line bounds :
  forall b0 k, (k < length bounds)%nat ->
  nth_error (pieces line b0 bounds) k
  = Some (Py.slice line (nth k (b0 :: bounds) 0) (nth k bounds 0)).
Proof.
  induction bounds as [|b bounds IH]; intros b0 k Hk.
  - cbn in Hk. lia.
  - destruct k as [|k]; [reflexivity|].
    change (nth_error (pieces line b0 (b :: bounds)) (S k))
      with (nth_error (pieces line b bounds) k).
    rewrite (IH b k) by (cbn in Hk; lia). reflexivity.
Qed.

(** The pieces before piece [k] hold the characters before bound [k]. *)
Lemma pieces_lengths line n bounds :
  n <= Py.len line ->
  forall b0 k, 0 <= b0 -> ascending b0 bounds n -> (k <= length bounds)%nat ->
  Py.sum (map Py.len (firstn k (pieces line b0 bounds))) = nth k (b0 :: bounds) 0 - b0.
Proof.
  intros Hn.
  induction bounds as [|b bounds IH]; intros b0 k Hb0 Hasc Hk.
  - assert (k = 0)%nat as -> by (cbn in Hk; lia). cbn. lia.
  - destruct k as [|k]; [cbn; lia|].
    destruct Hasc as [Hb Hasc].
    assert (b <= n).
    { clear -Hasc. revert b Hasc. induction bounds as [|c bounds IH']; intros b; cbn.
      - trivial.
      - intros [Hc Hrest]. specialize (IH' c Hrest). lia. }
    change (firstn (S k) (pieces line b0 (b :: bounds)))
      with (Py.slice line b0 b :: firstn k (pieces line b bounds)).
    cbn [map]. rewrite sum_cons.
    rewrite (IH b k) by (cbn in Hk; lia || assumption).
    destruct (slice_inside line b0 b) as [_ ->]; [lia | lia|].
    cbn [nth]. lia.
Qed.

(** ** The chunks of a line *)

Lemma span_spec p text :
  forall taken others, Wrap.span p text = (taken, others) ->
  text = taken ++ others
  /\ forallb p taken = true
  /\ match others with
     | [] => True
     | c :: _ => p c = false
     end.
Proof.
  induction text as [|c text IH]; intros taken others; cbn [Wrap.span].
  - intros [= <- <-]. repeat split.
  - destruct (p c) eqn:E.
    + destruct (Wrap.span p text) as [taken' others'].
      intros [= <- <-]. destruct (IH _ _ eq_refl) as (-> & Hall & Hrest).
      cbn [app forallb]. rewrite E, Hall. repeat split. exact Hrest.
    + intros [= <- <-]. repeat split. exact E.
Qed.

Lemma has_word_app s1 s2 : has_word (s1 ++ s2) = has_word s1 || has_word s2.
Proof. apply existsb_app. Qed.

Lemma spaces_no_word s : forallb Wrap.is_space s = true -> has_word s = false.
Proof.
  induction s as [|c s IH]; cbn [forallb has_word existsb]; [reflexivity|].
  intros H. apply andb_prop in H as [Hc H]. unfold Wrap.is_word at 1. rewrite Hc.
  exact (IH H).
Qed.

(** The pattern matches exactly when a word is left; the chunk is then a
    non-empty prefix, and what follows it is empty or starts a word. *)
Lemma re_chunk_match_none rest :
  Wrap.re_chunk_match rest = None -> has_word rest = false.
Proof.
  unfold Wrap.re_chunk_match.
  destruct (Wrap.span Wrap.is_space rest) as [before rest1] eqn:E1.
  destruct (Wrap.span Wrap.is_word rest1) as [word rest2] eqn:E2.
  destruct (span_spec _ _ _ _ E1) as (-> & Hbefore & Hrest1).
  destruct (span_spec _ _ _ _ E2) as (-> & Hword & Hrest2).
  destruct word as [|c word].
  - intros _. cbn [app] in *. rewrite has_word_app, (spaces_no_word _ Hbefore).
    destruct rest2 as [|c rest2]; [reflexivity|].
    unfold Wrap.is_word in Hrest2. rewrite Hrest1 in Hrest2. discriminate.
  - destruct (Wrap.span Wrap.is_space rest2). discriminate.
Qed.

Lemma re_chunk_match_some rest chunk rest' :
  Wrap.re_chunk_match rest = Some (chunk, rest') ->
  rest = chunk ++ rest'
  /\ (0 < length chunk)%nat
  /\ (rest' = [] \/ has_word rest' = true).
Proof.
  unfold Wrap.re_chunk_match.
  destruct (Wrap.span Wrap.is_space rest) as [before rest1] eqn:E1.
  destruct (Wrap.span Wrap.is_word rest1) as [word rest2] eqn:E2.
  destruct (span_spec _ _ _ _ E1) as (-> & Hbefore & Hrest1).
  destruct (span_spec _ _ _ _ E2) as (-> & Hword & Hrest2).
  destruct word as [|c word]; [discriminate|].
  destruct (Wrap.span Wrap.is_space rest2) as [after rest3] eqn:E3.
  destruct (span_spec _ _ _ _ E3) as (-> & Hafter & Hrest3).
  intros [= <- <-]. split; [|split].
  - rewrite <- app_assoc. cbn [app]. rewrite <- app_assoc. reflexivity.
  - rewrite !length_app. cbn [length]. lia.
  - destruct rest3 as [|c3 rest3]; [left; reflexivity | right].
    cbn [has_word existsb]. unfold Wrap.is_word at 1. now rewrite Hrest3.
Qed.

(** When the text has a word, the last chunk ends at the end of the text. *)
Lemma chunks_from_reach_end fuel :
  forall rest end_, (length rest < fuel)%nat -> has_word rest = true ->
  exists start chunk,
    In (start, end_ + Py.len rest, chunk) (Wrap.chunks_from fuel rest end_).
Proof.
  induction fuel as [|fuel IH]; intros rest end_ Hfuel Hword; [lia|].
  cbn [Wrap.chunks_from].
  destruct (Wrap.re_chunk_match rest) as [[chunk rest']|] eqn:E.
  - destruct (re_chunk_match_some _ _ _ E) as (-> & Hlen & [-> | Hword']).
    + exists end_, chunk. left. now rewrite app_nil_r.
    + rewrite length_app in Hfuel.
      destruct (IH rest' (end_ + Py.len chunk) ltac:(lia) Hword') as (start & c & Hin).
      exists start, c. right. rewrite len_app, Z.add_assoc. exact Hin.
  - apply re_chunk_match_none in E. congruence.
Qed.

Lemma chunks_reach_end text :
  has_word text = true ->
  exists start chunk, In (start, Py.len text, chunk) (Wrap.chunks text).
Proof.
  intros H. unfold Wrap.chunks.
  destruct (chunks_from_reach_end (S (length text)) text 0 ltac:(lia) H)
    as (start & chunk & Hin).
  exists start, chunk. exact Hin.
Qed.

Lemma chunks_blank text : has_word text = false -> Wrap.chunks text = [].
Proof.
  intros H. unfold Wrap.chunks. cbn [Wrap.chunks_from].
  destruct (Wrap.re_chunk_match text) as [[chunk rest']|] eqn:E; [|reflexivity].
  destruct (re_chunk_match_some _ _ _ E) as (-> & Hlen & _).
  exfalso. revert H E. unfold Wrap.re_chunk_match.
  destruct (Wrap.span Wrap.is_space (chunk ++ rest')) as [before rest1] eqn:E1.
  destruct (Wrap.span Wrap.is_word rest1) as [word rest2] eqn:E2.
  destruct (span_spec _ _ _ _ E1) as (Heq & Hbefore & Hrest1).
  destruct (span_spec _ _ _ _ E2) as (-> & Hword & Hrest2).
  rewrite Heq. destruct word as [|c word]; [discriminate|].
  rewrite !has_word_app. cbn [has_word existsb forallb] in *.
  apply andb_prop in Hword as [-> _]. rewrite orb_true_r. discriminate.
Qed.

(** ** The line breaker *)

Lemma getitem_raises {A : Type} (l : list A) i e :
  Py.getitem l i = inl e -> e = Py.IndexError.
Proof.
  unfold Py.getitem.
  destruct ((if i <? 0 then i + Py.len l else i) <? 0); [now intros [= <-]|].
  destruct (nth_error l _); [discriminate | now intros [= <-]].
Qed.

Lemma getitem_past_end {A : Type} (l : list A) i :
  Py.len l <= i -> Py.getitem l i = inl Py.IndexError.
Proof.
  intros H. pose proof (len_nonneg l). rewrite getitem_nonneg by lia.
  replace (nth_error l (Z.to_nat i)) with (@None A); [reflexivity|].
  symmetry. apply nth_error_None. unfold Py.len in H. lia.
Qed.

Lemma for_each_raises {A S : Type} (body : S -> A -> Py.M S) (x : A) xs :
  (forall s y e, body s y = inl e -> e = Py.IndexError) ->
  (forall s, body s x = inl Py.IndexError) ->
  In x xs ->
  forall s, Py.for_each xs body s = inl Py.IndexError.
Proof.
  intros Honly Hx. induction xs as [|y xs IH]; intros Hin s; [destruct Hin|].
  cbn [Py.for_each].
  destruct (body s y) as [e|s'] eqn:E.
  - now rewrite (Honly _ _ _ E).
  - destruct Hin as [->|Hin]; [rewrite Hx in E; discriminate|].
    cbn [Py.bind]. now apply IH.
Qed.

Section DivideLineFacts.

Variable cell_len : str -> Z.
Variable get_tab_widths : str -> Z -> Py.M (list (str * Z)).
Variable chop_cells : str -> Z -> list str.

Local Abbreviation divide_line := (Wrap.divide_line cell_len get_tab_widths chop_cells).
Local Abbreviation divide_chunk := (Wrap.divide_chunk cell_len chop_cells).

(** The table has one entry per character of the sections, and no more. *)
Lemma len_cumulative_widths tab_widths :
  forall cumulative_width,
  Py.len (Wrap.cumulative_widths_from tab_widths cumulative_width)
  = sections_length tab_widths.
Proof.
  unfold sections_length.
  induction tab_widths as [|[tab_section tab_width] rest IH]; intros cw;
    cbn [Wrap.cumulative_widths_from map fst].
  - reflexivity.
  - rewrite len_app, IH, sum_cons. unfold Py.len at 1. now rewrite repeat_length.
Qed.

Lemma divide_chunk_raises_only cumulative_widths width fold b item e :
  divide_chunk cumulative_widths width fold b item = inl e -> e = Py.IndexError.
Proof.
  destruct item as [[start end_] chunk]. unfold Wrap.divide_chunk.
  destruct (Py.getitem cumulative_widths start) as [e1|w1] eqn:E1; cbn [Py.bind].
  - intros [= <-]. eapply getitem_raises, E1.
  - destruct (Py.getitem cumulative_widths end_) as [e2|w2] eqn:E2; cbn [Py.bind].
    + intros [= <-]. eapply getitem_raises, E2.
    + discriminate.
Qed.

(** A chunk that ends where the table ends, or later, cannot be measured:
    the look-up of [cumulative_widths[end]] is out of range. *)
Lemma divide_chunk_past_table cumulative_widths width fold b start end_ chunk :
  Py.len cumulative_widths <= end_ ->
  divide_chunk cumulative_widths width fold b (start, end_, chunk)
  = inl Py.IndexError.
Proof.
  intros H. unfold Wrap.divide_chunk.
  destruct (Py.getitem cumulative_widths start) as [e1|w1] eqn:E1; cbn [Py.bind].
  - now rewrite (getitem_raises _ _ _ E1).
  - now rewrite (getitem_past_end _ _ H).
Qed.

(** What [get_tab_widths] raises, [divide_line] raises. *)
Lemma divide_line_tab_error text width tab_size fold e :
  get_tab_widths text tab_size = inl e ->
  divide_line text width tab_size fold = inl e.
Proof. intros H. unfold Wrap.divide_line. now rewrite H. Qed.

(** For a line with a word the loop over the chunks raises: at the last
    chunk at the latest, whose end is the length of the line. *)
Lemma divide_line_words text width tab_size fold tab_widths :
  get_tab_widths text tab_size = inr tab_widths ->
  sections_length tab_widths <= Py.len text ->
  has_word text = true ->
  divide_line text width tab_size fold = inl Py.IndexError.
Proof.
  intros Htabs Htable Hword. unfold Wrap.divide_line, Wrap.divide_chunks.
  rewrite Htabs. cbn [Py.bind].
  destruct (chunks_reach_end text Hword) as (start & chunk & Hin).
  rewrite (for_each_raises _ (start, Py.len text, chunk) (Wrap.chunks text)).
  - reflexivity.
  - intros s y e. apply divide_chunk_raises_only.
  - intros s. apply divide_chunk_past_table. now rewrite len_cumulative_widths.
  - exact Hin.
Qed.

(** C5.  For a line with a word, [divide_line] returns no offsets to split
    the line at: whatever the width, the tab size and the fold setting, it
    raises.  When [get_tab_widths] returns, the table it gives being no
    longer than the line, the error is the [IndexError] of the look-up of
    [cumulative_widths[end]] for the last chunk at the latest; when
    [get_tab_widths] raises, as it does with a tab size of 0 on a line with
    a tab, [divide_line] raises that error. *)
Theorem divide_line_raises text width tab_size fold :
  (forall tab_widths, get_tab_widths text tab_size = inr tab_widths ->
     sections_length tab_widths <= Py.len text) ->
  has_word text = true ->
  divide_line text width tab_size fold
  = match get_tab_widths text tab_size with
    | inl e => inl e
    | inr _ => inl Py.IndexError
    end.
Proof.
  intros Htable Hword.
  destruct (get_tab_widths text tab_size) as [e|tab_widths] eqn:E.
  - now apply divide_line_tab_error.
  - apply (divide_line_words _ _ _ _ tab_widths E); [now apply Htable | exact Hword].
Qed.

(** A line of white space has no chunk and is never broken. *)
Lemma divide_line_blank text width tab_size fold tab_widths :
  get_tab_widths text tab_size = inr tab_widths ->
  has_word text = false -> divide_line text width tab_size fold = inr [].
Proof.
  intros Htabs H. unfold Wrap.divide_line, Wrap.divide_chunks.
  rewrite Htabs. cbn [Py.bind].
  now rewrite (chunks_blank text H).
Qed.

End DivideLineFacts.
(** ** Cell widths and tab stops *)

Section Measured.

(** The table of character widths, as in [Cells]: no character has a
    negative width. *)
Variable cell_size : char -> Z.
Hypothesis cell_size_nonneg : forall c, 0 <= cell_size c.

Local Abbreviation cell_len := (Cells.cell_len cell_size).
Local Abbreviation chop_cells := (Rich.chop_cells cell_size).
Local Abbreviation chop_cells_from := (Rich.chop_cells_from cell_size).
Local Abbreviation expanded_width := (Measure.expanded_width cell_size).
Local Abbreviation column_x := (Measure.column_x cell_size).
Local Abbreviation takes_a_cell := (Measure.takes_a_cell cell_size).
Local Abbreviation piece_fits := (Measure.piece_fits cell_size).
Local Abbreviation offset_to_location := (WrappedDocument.offset_to_location cell_size).
Local Abbreviation location_to_offset := (WrappedDocument.location_to_offset cell_size).
Local Abbreviation get_target_document_column :=
  (WrappedDocument.get_target_document_column cell_size).
Local Abbreviation divide_line' := (Wrap.divide_line' cell_size).

Lemma cell_len_nil : cell_len [] = 0.
Proof. reflexivity. Qed.

Lemma cell_len_app s1 s2 : cell_len (s1 ++ s2) = cell_len s1 + cell_len s2.
Proof. unfold Cells.cell_len. now rewrite map_app, sum_app. Qed.

Lemma cell_len_cons c s :
  cell_len (c :: s) = cell_size c + cell_len s.
Proof. unfold Cells.cell_len. cbn [map]. apply sum_cons. Qed.

Lemma cell_len_nonneg s : 0 <= cell_len s.
Proof.
  induction s as [|c s IH].
  - rewrite cell_len_nil. lia.
  - rewrite cell_len_cons. pose proof (cell_size_nonneg c). lia.
Qed.

(** With a tab size other than 0 the functions of [Tabs] return. *)
Lemma get_tab_widths_from_returns text tab_size :
  tab_size <> 0 ->
  forall part cell_position,
  Tabs.get_tab_widths_from cell_size text part tab_size cell_position
  = inr (Stops.get_tab_widths_from cell_size text part tab_size cell_position).
Proof.
  intros Hsize. induction text as [|c text IH]; intros part pos;
    cbn [Tabs.get_tab_widths_from Stops.get_tab_widths_from].
  - destruct part; reflexivity.
  - destruct (N.eqb c Tabs.tab); [|apply IH].
    destruct (Z.eqb_spec tab_size 0); [contradiction|].
    rewrite IH. reflexivity.
Qed.

Lemma expand_tabs_inline_returns text tab_width :
  tab_width <> 0 ->
  Tabs.expand_tabs_inline cell_size text tab_width
  = inr (Stops.expand_tabs_inline cell_size text tab_width).
Proof.
  intros H. unfold Tabs.expand_tabs_inline, Tabs.get_tab_widths.
  rewrite get_tab_widths_from_returns by exact H. reflexivity.
Qed.

Lemma largest_column_returns text target tab_width todo :
  tab_width <> 0 ->
  forall column best,
  Tabs.largest_column cell_size text target tab_width todo column best
  = inr (Stops.largest_column cell_size text target tab_width todo column best).
Proof.
  intros H. induction todo as [|todo IH]; intros column best;
    cbn [Tabs.largest_column Stops.largest_column];
    rewrite expand_tabs_inline_returns by exact H; cbn [Py.bind]; [reflexivity|].
  apply IH.
Qed.

Lemma cell_width_to_column_index_returns text target tab_width :
  tab_width <> 0 ->
  Tabs.cell_width_to_column_index cell_size text target tab_width
  = inr (Stops.cell_width_to_column_index cell_size text target tab_width).
Proof. intros H. now apply largest_column_returns. Qed.

(** With a tab size of 0, [get_tab_widths] raises at the first tab and
    returns for a text without one. *)
Lemma get_tab_widths_from_zero text :
  forall part cell_position,
  Tabs.get_tab_widths_from cell_size text part 0 cell_position
  = if has_tab text then inl Py.ZeroDivisionError
    else inr (Stops.get_tab_widths_from cell_size text part 0 cell_position).
Proof.
  induction text as [|c text IH]; intros part pos;
    cbn [Tabs.get_tab_widths_from Stops.get_tab_widths_from has_tab existsb].
  - destruct part; reflexivity.
  - rewrite (N.eqb_sym Tabs.tab c).
    destruct (N.eqb c Tabs.tab); [reflexivity|]. cbn [orb]. apply IH.
Qed.

(** One more character never makes the expanded text narrower. *)
Lemma expanded_width_snoc tab_size ch text :
  forall part cell_position,
  expanded_width text part tab_size cell_position
  <= expanded_width (text ++ [ch]) part tab_size cell_position.
Proof.
  unfold Measure.expanded_width.
  induction text as [|c text IH]; intros part pos; cbn [app Stops.get_tab_widths_from].
  - pose proof (cell_len_nonneg (rev part)) as Hpart.
    pose proof (cell_size_nonneg ch) as Hch.
    destruct (N.eqb ch Tabs.tab).
    + cbn [flat_map fst snd]. rewrite app_nil_r, cell_len_app.
      pose proof (cell_len_nonneg
                    (repeat Tabs.space
                       (Z.to_nat (tab_size - (pos + cell_len (rev part)) mod tab_size)))).
      destruct part; cbn [flat_map]; rewrite ?app_nil_r, ?cell_len_app, ?cell_len_nil;
        cbn [fst snd Z.to_nat repeat]; rewrite ?cell_len_nil; lia.
    + cbn [flat_map fst snd Z.to_nat repeat rev].
      rewrite !app_nil_r, cell_len_app, cell_len_cons, cell_len_nil.
      destruct part; cbn [flat_map]; rewrite ?app_nil_r, ?cell_len_nil;
        cbn [fst snd rev]; rewrite ?cell_len_nil; lia.
  - destruct (N.eqb c Tabs.tab).
    + cbn [flat_map]. rewrite !(cell_len_app (fst _ ++ _)).
      specialize (IH [] (pos + cell_len (rev part)
                         + (tab_size - (pos + cell_len (rev part)) mod tab_size))).
      lia.
    + apply IH.
Qed.

Lemma firstn_snoc {A : Type} (l : list A) n x :
  nth_error l n = Some x -> firstn (S n) l = firstn n l ++ [x].
Proof.
  revert n. induction l as [|y l IH]; intros [|n]; cbn [nth_error]; try discriminate.
  - now intros [= ->].
  - intros H.
    change (firstn (S (S n)) (y :: l)) with (y :: firstn (S n) l).
    rewrite (IH n H). reflexivity.
Qed.

Lemma column_x_step text tab_width column :
  0 <= column < Py.len text ->
  column_x text tab_width column <= column_x text tab_width (column + 1).
Proof.
  intros H. unfold Measure.column_x. rewrite !slice_to_firstn by lia.
  replace (Z.to_nat (column + 1)) with (S (Z.to_nat column)) by lia.
  destruct (nth_error text (Z.to_nat column)) as [x|] eqn:E.
  - rewrite (firstn_snoc _ _ _ E). apply expanded_width_snoc.
  - apply nth_error_None in E. unfold Py.len in H. lia.
Qed.

Lemma column_x_monotone text tab_width c1 c2 :
  0 <= c1 <= c2 -> c2 <= Py.len text ->
  column_x text tab_width c1 <= column_x text tab_width c2.
Proof.
  intros H1 H2.
  replace c2 with (c1 + Z.of_nat (Z.to_nat (c2 - c1))) in * by lia.
  induction (Z.to_nat (c2 - c1)) as [|n IH].
  - rewrite Z.add_0_r. lia.
  - pose proof (column_x_step text tab_width (c1 + Z.of_nat n)).
    replace (c1 + Z.of_nat (S n)) with (c1 + Z.of_nat n + 1) in * by lia.
    lia.
Qed.

(** The search for the largest column that fits. *)
Lemma largest_column_none text target tab_width todo :
  forall column best,
  (forall j, column <= j <= column + Z.of_nat todo ->
             target < column_x text tab_width j) ->
  Stops.largest_column cell_size text target tab_width todo column best = best.
Proof.
  induction todo as [|todo IH]; intros column best Hnone; cbn [Stops.largest_column].
  - specialize (Hnone column ltac:(lia)). unfold Measure.column_x in Hnone.
    destruct (Z.leb_spec (cell_len
                (Stops.expand_tabs_inline cell_size (Py.slice_to text column) tab_width)) target);
      [lia | reflexivity].
  - pose proof (Hnone column ltac:(lia)) as H0. unfold Measure.column_x in H0.
    destruct (Z.leb_spec (cell_len
                (Stops.expand_tabs_inline cell_size (Py.slice_to text column) tab_width)) target);
      [lia|].
    apply IH. intros j Hj. apply Hnone. lia.
Qed.

Lemma largest_column_found text target tab_width c todo :
  forall column best,
  column <= c <= column + Z.of_nat todo ->
  (forall j, column <= j <= c -> column_x text tab_width j <= target) ->
  (forall j, c < j <= column + Z.of_nat todo -> target < column_x text tab_width j) ->
  Stops.largest_column cell_size text target tab_width todo column best = c.
Proof.
  induction todo as [|todo IH]; intros column best Hc Hfit Hnot;
    cbn [Stops.largest_column].
  - assert (column = c) as -> by lia.
    specialize (Hfit c ltac:(lia)). unfold Measure.column_x in Hfit.
    destruct (Z.leb_spec (cell_len
                (Stops.expand_tabs_inline cell_size (Py.slice_to text c) tab_width)) target);
      [reflexivity | lia].
  - pose proof (Hfit column ltac:(lia)) as H0. unfold Measure.column_x in H0.
    destruct (Z.leb_spec (cell_len
                (Stops.expand_tabs_inline cell_size (Py.slice_to text column) tab_width)) target);
      [|lia].
    destruct (Z.eq_dec column c) as [->|Hne].
    + apply largest_column_none. intros j Hj. apply Hnot. lia.
    + apply IH; [lia | intros j Hj; apply Hfit; lia | intros j Hj; apply Hnot; lia].
Qed.

(** From the [x] of a column, [cell_width_to_column_index] finds the column
    back when the character there takes a cell (or the column is the end of
    the text). *)
Lemma cell_width_to_column_index_inverse text tab_width column :
  0 <= column <= Py.len text ->
  (column < Py.len text ->
   column_x text tab_width column < column_x text tab_width (column + 1)) ->
  Stops.cell_width_to_column_index cell_size text (column_x text tab_width column) tab_width
  = column.
Proof.
  intros Hc Hcell. unfold Stops.cell_width_to_column_index.
  apply largest_column_found.
  - unfold Py.len in Hc. lia.
  - intros j Hj. apply column_x_monotone; lia.
  - intros j Hj. fold (Py.len text) in Hj.
    specialize (Hcell ltac:(lia)).
    pose proof (column_x_monotone text tab_width (column + 1) j ltac:(lia) ltac:(lia)).
    lia.
Qed.

Lemma getitem_nth_error {A : Type} (l : list A) i x :
  0 <= i -> nth_error l (Z.to_nat i) = Some x -> Py.getitem l i = inr x.
Proof. intros H E. rewrite getitem_nonneg by lia. now rewrite E. Qed.

Lemma getitem_inr_nth_error {A : Type} (l : list A) i x :
  0 <= i -> Py.getitem l i = inr x -> nth_error l (Z.to_nat i) = Some x.
Proof.
  intros H. rewrite getitem_nonneg by lia.
  destruct (nth_error l (Z.to_nat i)); [now intros [= ->] | discriminate].
Qed.

(** The rows of line [li]: as many as its sections, from the row after the
    rows of the lines before it. *)
Lemma y_offsets_from_nth offs :
  forall y0 li o, nth_error offs li = Some o ->
  nth_error (y_offsets_from y0 offs) li
  = Some (Py.range (y0 + row_count (firstn li offs))
            (y0 + row_count (firstn li offs) + Py.len o + 1)).
Proof.
  induction offs as [|o' offs IH]; intros y0 li o Hli.
  - destruct li; discriminate.
  - destruct li as [|li]; cbn [nth_error y_offsets_from firstn] in *.
    + injection Hli as ->. unfold row_count. cbn. now rewrite Z.add_0_r.
    + rewrite (IH _ _ _ Hli), row_count_cons. do 2 f_equal; lia.
Qed.

(** ** The two queries *)

Section Queries.

Variable divide_line : str -> Z -> list Z.

Local Abbreviation index := (index_of divide_line).
Local Abbreviation offsets := (offsets_of divide_line).

(** C4.  [location_to_offset] does not clamp a line index at or past the
    line count to the last line: it clamps to [len], one past the last
    line, and [get_offsets] then raises [ValueError]. *)
Theorem location_to_offset_past_last_line width document self line_index column_index
  tab_width :
  edited_from divide_line width document self ->
  Document.line_count document <= line_index ->
  location_to_offset document self (line_index, column_index) tab_width
  = inl Py.ValueError.
Proof.
  intros Hself Hline. apply edited_from_index in Hself. subst self.
  unfold WrappedDocument.location_to_offset, WrappedDocument.get_offsets, index_of,
    Document.line_count, Document.lines in *.
  cbn [WrappedDocument._line_index_to_offsets WrappedDocument._wrap_offsets].
  rewrite len_y_offsets_from, !len_offsets.
  pose proof (len_nonneg document) as Hn.
  assert (Geometry.clamp line_index 0 (Py.len document) = Py.len document) as ->.
  { unfold Geometry.clamp.
    destruct (Py.len document <? 0) eqn:E; [lia|].
    destruct (line_index <? 0) eqn:E1; [lia|].
    destruct (Z.ltb_spec (Py.len document) line_index); lia. }
  destruct (Py.len document <? 0) eqn:E; [lia|].
  destruct (Z.leb_spec (Py.len document) (Py.len document)); [|lia].
  reflexivity.
Qed.

(** Without wrapping, the row is clamped to the last line and the column to
    the length of that line. *)
Lemma offset_to_location_unwrapped_eq document self x y tab_width :
  edited_from divide_line 0 document self ->
  0 < Document.line_count document ->
  exists line,
    Document.get_line document (Z.min (Z.max 0 y) (Document.line_count document - 1))
    = inr line
    /\ offset_to_location document self (x, y) tab_width
       = inr (Z.min (Z.max 0 y) (Document.line_count document - 1),
              Z.min (Z.max 0 x) (Py.len line)).
Proof.
  intros Hself Hlines. apply edited_from_index in Hself. subst self.
  unfold WrappedDocument.offset_to_location, index_of, Document.get_line,
    Document.line_count, Document.lines in *.
  cbn [WrappedDocument._width WrappedDocument._wrap_offsets Z.eqb].
  rewrite len_offsets.
  set (line_index := Z.min (Z.max 0 y) (Py.len document - 1)).
  assert (0 <= line_index < Py.len document) as Hi by (subst line_index; lia).
  rewrite getitem_nonneg by lia.
  destruct (nth_error document (Z.to_nat line_index)) as [line|] eqn:E.
  - exists line. split; reflexivity.
  - apply nth_error_None in E. unfold Py.len in Hi. lia.
Qed.

(** X1.  Without wrapping, [offset_to_location] clamps the row to the last
    line and the column to the length of that line, and does not raise,
    provided the document has a line. *)
Theorem offset_to_location_unwrapped document self x y tab_width :
  edited_from divide_line 0 document self ->
  0 < Document.line_count document ->
  exists line,
    Document.get_line document (Z.min (Z.max 0 y) (Document.line_count document - 1))
    = inr line
    /\ offset_to_location document self (x, y) tab_width
       = inr (Z.min (Z.max 0 y) (Document.line_count document - 1),
              Z.min (Z.max 0 x) (Py.len line)).
Proof. apply offset_to_location_unwrapped_eq. Qed.

(** The section of a caret, as the two queries compute it. *)
Lemma caret_in_section line offs column :
  sane_offsets line offs -> 0 <= column <= Py.len line ->
  let k := Py.bisect_right offs column in
  let start := nth (Z.to_nat k) (0 :: offs) 0 in
  let stop := nth (Z.to_nat k) (offs ++ [Py.len line]) 0 in
  0 <= k <= Py.len offs
  /\ 0 <= start <= column /\ column <= stop <= Py.len line
  /\ (k < Py.len offs -> column < stop)
  /\ Py.getitem (0 :: offs) k = inr start
  /\ Py.len (Rich.divide line offs) = Py.len offs + 1
  /\ Py.getitem (Rich.divide line offs) k = inr (Py.slice line start stop)
  /\ Py.sum (map Py.len (Py.slice_to (Rich.divide line offs) k)) = start.
Proof.
  intros [Hinc Hall] Hcol k start stop.
  destruct (bisect_right_splits offs column (increasing_from_increasing _ _ Hinc))
    as [Hk Hsplit]. fold k in Hk, Hsplit.
  pose proof (len_nonneg offs) as Hlen.
  assert (Z.to_nat k <= length offs)%nat as Hkn by (unfold Py.len in Hk; lia).
  assert (0 <= start <= column) as Hstart.
  { subst start. destruct (Z.to_nat k) as [|k'] eqn:Ek; cbn [nth]; [lia|].
    destruct (nth_error offs k') as [v|] eqn:E.
    - rewrite (nth_error_nth _ _ _ E).
      pose proof (increasing_from_above _ _ _ _ Hinc E).
      apply Hsplit in E. lia.
    - apply nth_error_None in E. lia. }
  assert (column <= stop <= Py.len line /\ (k < Py.len offs -> column < stop))
    as [Hstop Hstop'].
  { subst stop. destruct (nth_error offs (Z.to_nat k)) as [v|] eqn:E.
    - assert (Z.to_nat k < length offs)%nat by (apply nth_error_Some; congruence).
      rewrite app_nth1 by lia. rewrite (nth_error_nth _ _ _ E).
      pose proof (proj1 (Forall_forall _ _) Hall v (nth_error_In _ _ E)) as Hv.
      cbn beta in Hv. apply Hsplit in E. lia.
    - apply nth_error_None in E.
      rewrite app_nth2 by lia.
      replace (Z.to_nat k - length offs)%nat with 0%nat by lia. cbn [nth].
      unfold Py.len in *. lia. }
  rewrite divide_eq_pieces.
  repeat split; try lia.
  - apply getitem_nth_error; [lia|]. apply nth_error_nth'. cbn [length]. lia.
  - unfold Py.len at 1. rewrite length_pieces, length_app. cbn [length].
    unfold Py.len. lia.
  - apply getitem_nth_error; [lia|].
    rewrite pieces_nth by (rewrite length_app; cbn [length]; lia).
    do 2 f_equal. subst start.
    destruct (Z.to_nat k) as [|k']; [reflexivity|]. cbn [nth].
    apply app_nth1. lia.
  - rewrite slice_to_firstn by lia.
    rewrite (pieces_lengths line (Py.len line)); try lia.
    + subst start. destruct (Z.to_nat k) as [|k']; cbn [nth]; [lia|].
      rewrite app_nth1 by lia. lia.
    + apply sane_ascending; [assumption | assumption | lia].
    + rewrite length_app. cbn [length]. lia.
Qed.

(** C3, amended.  In a document wrapped at a width other than 0, with a
    tab width of at least 1, take a line whose wrap offsets are strictly
    increasing within [(0, len(line)]] and a location on it,
    [0 <= column <= len(line)], whose character (when the column is not the
    end of its section) takes at least one cell; the line holds none of the
    control codes that [Text] removes.  Then [location_to_offset] returns an
    offset, and [offset_to_location] maps that offset back to the
    location. *)
Theorem location_round_trip width document self line_index column_index tab_width line :
  edited_from divide_line width document self ->
  width <> 0 ->
  0 < tab_width ->
  0 <= line_index ->
  Document.get_line document line_index = inr line ->
  Rich.strip_control_codes line = line ->
  0 <= column_index <= Py.len line ->
  sane_offsets line (divide_line line width) ->
  takes_a_cell line (divide_line line width) column_index tab_width ->
  exists offset,
    location_to_offset document self (line_index, column_index) tab_width
    = inr offset
    /\ offset_to_location document self offset tab_width
       = inr (line_index, column_index).
Proof.
  intros Hself Hwidth Htab Hli Hline Hplain Hcol Hsane Hcell.
  apply edited_from_index in Hself. subst self.
  unfold Document.get_line in Hline.
  pose proof (getitem_inr_bound _ _ _ Hli Hline) as Hli'.
  pose proof (getitem_inr_nth_error _ _ _ Hli Hline) as Hnth.
  set (offs := divide_line line width) in *.
  assert (nth_error (offsets width document) (Z.to_nat line_index) = Some offs) as Hoffs.
  { unfold offsets_of. rewrite nth_error_map, Hnth. cbn [option_map].
    unfold WrappedDocument.wrap_offsets_of.
    destruct (Z.eqb_spec width 0); [contradiction | reflexivity]. }
  destruct (caret_in_section line offs column_index Hsane Hcol)
    as (Hk & Hstart & Hstop & Hstop' & Gstart & Glen & Gsection & Gsum).
  set (k := Py.bisect_right offs column_index) in *.
  set (start := nth (Z.to_nat k) (0 :: offs) 0) in *.
  set (stop := nth (Z.to_nat k) (offs ++ [Py.len line]) 0) in *.
  set (Y := row_count (firstn (Z.to_nat line_index) (offsets width document))).
  assert (0 <= Y) as HY by apply row_count_nonneg.
  assert (Py.getitem (y_offsets_from 0 (offsets width document)) line_index
          = inr (Py.range Y (Y + Py.len offs + 1))) as Grows.
  { apply getitem_nth_error; [lia|].
    rewrite (y_offsets_from_nth _ 0 _ _ Hoffs). reflexivity. }
  assert (Py.getitem (Py.range Y (Y + Py.len offs + 1)) k = inr (Y + k)) as Grow.
  { rewrite getitem_range by lia.
    destruct (Z.ltb_spec (Y + k) (Y + Py.len offs + 1)); [reflexivity | lia]. }
  assert (WrappedDocument.get_sections document (index width document) line_index
          = inr (Rich.divide line offs)) as Gsections.
  { unfold WrappedDocument.get_sections, index_of, Document.get_line, Document.lines.
    cbn [WrappedDocument._wrap_offsets].
    rewrite (getitem_nth_error _ _ _ Hli Hoffs). cbn [Py.bind].
    rewrite Hline. cbn [Py.bind]. rewrite Hplain. reflexivity. }
  destruct (slice_inside line start stop ltac:(lia) ltac:(lia)) as [_ Hseclen].
  set (section := Py.slice line start stop) in *.
  exists (column_x section tab_width (column_index - start), Y + k).
  split.
  - unfold WrappedDocument.location_to_offset.
    assert (Geometry.clamp line_index 0
              (Py.len (WrappedDocument._line_index_to_offsets (index width document)))
            = line_index) as ->.
    { unfold index_of, Document.lines.
      cbn [WrappedDocument._line_index_to_offsets].
      rewrite len_y_offsets_from, len_offsets. apply clamp_inside; lia. }
    rewrite Gsections.
    unfold WrappedDocument.get_offsets, index_of, Document.lines.
    cbn [WrappedDocument._wrap_offsets WrappedDocument._line_index_to_offsets].
    rewrite !len_offsets.
    destruct (line_index <? 0) eqn:E1; [lia|].
    destruct (Z.leb_spec (Py.len document) line_index); [lia|].
    cbn [orb]. rewrite (getitem_nth_error _ _ _ Hli Hoffs). cbn [Py.bind].
    rewrite Grows. cbn [Py.bind]. fold k. rewrite Gstart. cbn [Py.bind].
    rewrite Gsection. cbn [Py.bind].
    rewrite expand_tabs_inline_returns by lia. cbn [Py.bind].
    rewrite Grow. reflexivity.
  - unfold WrappedDocument.offset_to_location.
    pose proof (cell_len_nonneg
                  ((Stops.expand_tabs_inline cell_size) (Py.slice_to section (column_index - start))
                     tab_width)) as Hx.
    fold (column_x section tab_width (column_index - start)) in Hx.
    rewrite !Z.max_r by lia.
    replace (WrappedDocument._width (index width document)) with width by reflexivity.
    destruct (Z.eqb_spec width 0); [contradiction|].
    destruct (index_consistent divide_line width document) as (Hinv & _ & _).
    assert (Py.getitem (WrappedDocument._offset_to_line_info (index width document))
              (Y + k) = inr (line_index, k)) as ->.
    { apply Hinv; [lia | lia | lia |].
      exists (Py.range Y (Y + Py.len offs + 1)). split; [exact Grows | exact Grow]. }
    cbn [Py.bind].
    unfold WrappedDocument.get_target_document_column.
    rewrite Gsections. cbn [Py.bind].
    rewrite Gsection. cbn [Py.bind]. rewrite Gsum.
    rewrite cell_width_to_column_index_returns by lia. cbn [Py.bind].
    rewrite cell_width_to_column_index_inverse.
    + rewrite Glen.
      replace (start + (column_index - start)) with column_index by lia.
      destruct (Z.eqb_spec k (Py.len offs + 1 - 1)) as [|Hne]; cbn [negb andb].
      * reflexivity.
      * destruct (Z.eqb_spec k (-1)); cbn [negb]; [lia|].
        rewrite Z.min_l by lia. reflexivity.
    + lia.
    + unfold Measure.takes_a_cell, caret_section in Hcell. fold offs k start in Hcell.
      rewrite (nth_error_nth _ _ _ (getitem_inr_nth_error _ _ _ (proj1 Hk) Gsection))
        in Hcell.
      exact Hcell.
Qed.

End Queries.

(** ** The line breaker with the modelled imports *)

(** The sections of the modelled [get_tab_widths] leave the tabs out, so
    they hold at most the characters of the text. *)
Lemma sections_length_from text tab_size :
  forall part cell_position,
  sections_length (Stops.get_tab_widths_from cell_size text part tab_size cell_position)
  <= Py.len text + Py.len part.
Proof.
  unfold sections_length.
  induction text as [|c text IH]; intros part pos; cbn [Stops.get_tab_widths_from].
  - destruct part as [|p part]; [cbn; lia|].
    cbn [map fst]. rewrite sum_cons. unfold Py.len at 1. rewrite length_rev.
    fold (Py.len (p :: part)). cbn. lia.
  - pose proof (len_nonneg part). pose proof (len_nonneg text).
    destruct (N.eqb c Tabs.tab).
    + cbn [map fst]. rewrite sum_cons, len_cons.
      specialize (IH [] (pos + cell_len (rev part)
                         + (tab_size - (pos + cell_len (rev part)) mod tab_size))).
      rewrite len_nil in IH. unfold Py.len at 1. rewrite length_rev.
      fold (Py.len part). lia.
    + specialize (IH (c :: part) pos). rewrite !len_cons in *. lia.
Qed.

Lemma sections_length_le text tab_size :
  sections_length (Stops.get_tab_widths cell_size text tab_size) <= Py.len text.
Proof.
  pose proof (sections_length_from text tab_size [] 0) as H.
  unfold Stops.get_tab_widths. change (Py.len (@nil char)) with 0 in H. lia.
Qed.

(** [get_tab_widths] raises with a tab size of 0 on a text with a tab, and
    returns otherwise. *)
Lemma get_tab_widths_cases text tab_size :
  Tabs.get_tab_widths cell_size text tab_size
  = if (tab_size =? 0) && has_tab text then inl Py.ZeroDivisionError
    else inr (Stops.get_tab_widths cell_size text tab_size).
Proof.
  unfold Tabs.get_tab_widths, Stops.get_tab_widths.
  destruct (Z.eqb_spec tab_size 0) as [->|Hsize]; cbn [andb].
  - apply get_tab_widths_from_zero.
  - now apply get_tab_widths_from_returns.
Qed.

(** With the modelled imports in place, [divide_line] returns the empty
    list for a line without a word and raises for every other line; with a
    tab size of 0 it raises for every line with a tab. *)
Lemma divide_line_cases text width tab_size fold :
  divide_line' text width tab_size fold
  = if (tab_size =? 0) && has_tab text then inl Py.ZeroDivisionError
    else if has_word text then inl Py.IndexError
    else inr [].
Proof.
  unfold Wrap.divide_line'.
  pose proof (get_tab_widths_cases text tab_size) as Htabs.
  destruct ((tab_size =? 0) && has_tab text).
  - now apply divide_line_tab_error.
  - destruct (has_word text) eqn:E.
    + apply (divide_line_words _ _ _ _ _ _ _ _ Htabs); [apply sections_length_le | exact E].
    + now apply (divide_line_blank _ _ _ _ _ _ _ _ Htabs).
Qed.

(** C6.  With the modelled imports in place, the only list [divide_line]
    ever returns is the empty one, for a line without a word (the empty
    line among them); for every other line it raises [IndexError] and
    returns no list whose order or bounds could be checked.  (With a tab
    size of 0 it raises [ZeroDivisionError] for a line with a tab, with or
    without a word.) *)
Theorem divide_line_result text width tab_size fold :
  divide_line' text width tab_size fold
  = if (tab_size =? 0) && has_tab text then inl Py.ZeroDivisionError
    else if has_word text then inl Py.IndexError
    else inr [].
Proof. apply divide_line_cases. Qed.

(** ** The rows and the two scenarios of the line breaker *)

(** C7.  For "ab cd" at width 3 with folding no row is produced, within
    the width or not: the look-up of [cumulative_widths[5]] for the chunk
    "cd" raises [IndexError], the table having the five entries 0 to 4. *)
Theorem divide_line_gives_no_rows :
  divide_line' (str_of "ab cd") 3 4 true = inl Py.IndexError
  /\ Wrap.chunks (str_of "ab cd") = [(0, 3, str_of "ab "); (3, 5, str_of "cd")]
  /\ Tabs.get_tab_widths cell_size (str_of "ab cd") 4 = inr [(str_of "ab cd", 0)]
  /\ Wrap.cumulative_widths_from [(str_of "ab cd", 0)] 0 = [0; 0; 0; 0; 0]
  /\ Py.getitem [0; 0; 0; 0; 0] 5 = inl Py.IndexError.
Proof. split; [apply divide_line_cases|]. repeat split. Qed.

(** C8.  For "I must not fear." at width 10, tab size 4, with folding, no
    break offsets are returned, before "fear." or elsewhere: the look-up of
    [cumulative_widths[16]] for the chunk "fear.", which ends where the
    line ends, raises [IndexError]. *)
Theorem fear_raises :
  divide_line' Fear.text 10 4 true = inl Py.IndexError
  /\ Wrap.chunks Fear.text
     = [(0, 2, str_of "I "); (2, 7, str_of "must "); (7, 11, str_of "not ");
        (11, 16, str_of "fear.")]
  /\ Py.len Fear.text = 16.
Proof. split; [apply divide_line_cases|]. split; reflexivity. Qed.

(** C9.  For a word of fifty letters at width 10 with folding no break
    offsets are returned: the word is one chunk, from 0 to 50, and the
    look-up of [cumulative_widths[50]] raises [IndexError] before the word
    is folded. *)
Theorem long_word_raises :
  divide_line' (repeat 97%N 50) 10 4 true = inl Py.IndexError
  /\ Wrap.chunks (repeat 97%N 50) = [(0, 50, repeat 97%N 50)].
Proof. split; [apply divide_line_cases | reflexivity]. Qed.

(** ** Further properties of the index *)

(** X2.  [wrap] never raises, whatever the document, the width and the
    breaker, and the index it builds satisfies the invariants. *)
Theorem wrap_builds_consistent_index divide_line document width :
  exists self,
    WrappedDocument.wrap divide_line document width = inr self
    /\ WrappedDocument._width self = width
    /\ consistent document self.
Proof.
  exists (index_of divide_line width document).
  split; [apply wrap_eq|]. split; [reflexivity | apply index_consistent].
Qed.


(** X3.  On the index [wrap] builds for a document, [get_offsets] returns
    the wrap offsets of the line for a line index of the document, and
    raises [ValueError] for every other index, the negative ones included,
    which indexing the list would accept. *)
Theorem get_offsets_of_line divide_line width document self line_index :
  edited_from divide_line width document self ->
  WrappedDocument.get_offsets self line_index
  = if (line_index <? 0) || (Document.line_count document <=? line_index)
    then inl Py.ValueError
    else line <- Document.get_line document line_index ;;
         Py.ret (WrappedDocument.wrap_offsets_of divide_line width line).
Proof.
  intros Hself. apply edited_from_index in Hself. subst self.
  unfold WrappedDocument.get_offsets, index_of, Document.line_count, Document.lines,
    Document.get_line.
  cbn [WrappedDocument._wrap_offsets]. rewrite len_offsets.
  destruct (Z.ltb_spec line_index 0); [reflexivity|].
  destruct (Z.leb_spec (Py.len document) line_index); [reflexivity|].
  cbn [orb]. unfold offsets_of. apply getitem_map. lia.
Qed.

(** Every entry of the row-to-line map names a line of the index and one of
    its sections. *)
Lemma line_info_from_entry offs :
  forall li0 li s, In (li, s) (line_info_from li0 offs) ->
  li0 <= li
  /\ exists o, nth_error offs (Z.to_nat (li - li0)) = Some o /\ 0 <= s <= Py.len o.
Proof.
  induction offs as [|o offs IH]; intros li0 li s; cbn [line_info_from].
  - intros [].
  - rewrite in_app_iff, in_map_iff. intros [(x & [= <- <-] & Hx) | Hin].
    + split; [lia|]. exists o. rewrite Z.sub_diag. split; [reflexivity|].
      unfold Py.range in Hx. apply in_map_iff in Hx as (k & <- & Hk).
      apply in_seq in Hk. lia.
    + destruct (IH _ _ _ Hin) as (Hle & o' & Hnth & Hs).
      split; [lia|]. exists o'. split; [|exact Hs].
      replace (Z.to_nat (li - li0)) with (S (Z.to_nat (li - (li0 + 1)))) by lia.
      exact Hnth.
Qed.

Lemma getitem_minus_one {A : Type} (l : list A) :
  l <> [] -> exists x, Py.getitem l (-1) = inr x /\ In x l.
Proof.
  intros H. destruct (exists_last H) as (init & x & ->).
  exists x. split; [apply getitem_last | apply in_or_app; right; left; reflexivity].
Qed.

Lemma len_divide text offs : Py.len (Rich.divide text offs) = Py.len offs + 1.
Proof.
  rewrite divide_eq_pieces. unfold Py.len. rewrite length_pieces, length_app.
  cbn [length]. lia.
Qed.

Section QueriesReturn.

Variable divide_line : str -> Z -> list Z.

(** X5.  On the index [wrap] builds for a document with at least one
    line, with a tab width of at least 1, [offset_to_location] returns a
    location for every offset, whatever its components: it does not
    raise. *)
Theorem offset_to_location_returns width document self offset tab_width :
  edited_from divide_line width document self ->
  0 < Document.line_count document ->
  0 < tab_width ->
  exists location,
    offset_to_location document self offset tab_width = inr location.
Proof.
  intros Hself Hlines Htab. destruct offset as [x y].
  destruct (Z.eq_dec width 0) as [->|Hwidth].
  - destruct (offset_to_location_unwrapped_eq divide_line document self x y tab_width
                Hself Hlines) as (line & _ & ->).
    eexists. reflexivity.
  - apply edited_from_index in Hself. subst self.
    unfold WrappedDocument.offset_to_location.
    replace (WrappedDocument._width (index_of divide_line width document))
      with width by reflexivity.
    destruct (Z.eqb_spec width 0); [contradiction|].
    set (o2l := WrappedDocument._offset_to_line_info (index_of divide_line width document)).
    assert (o2l <> []) as Hrows.
    { subst o2l. unfold index_of, Document.lines, Document.line_count in *.
      cbn [WrappedDocument._offset_to_line_info].
      destruct document as [|line document]; [cbn in Hlines; lia|].
      unfold offsets_of. cbn [map line_info_from].
      pose proof (len_nonneg (WrappedDocument.wrap_offsets_of divide_line width line)).
      rewrite range_cons by lia. discriminate. }
    assert (exists li s,
              match Py.getitem o2l (Z.max 0 y) with
              | inl Py.IndexError => Py.getitem o2l (-1)
              | result => result
              end = inr (li, s) /\ In (li, s) o2l) as (li & s & -> & Hin).
    { destruct (Py.getitem o2l (Z.max 0 y)) as [e|[li s]] eqn:E.
      - rewrite (getitem_raises _ _ _ E).
        destruct (getitem_minus_one o2l Hrows) as ([li s] & G & Hin).
        exists li, s. split; assumption.
      - exists li, s. split; [reflexivity|].
        eapply getitem_In; [|exact E]. lia. }
    cbn [Py.bind].
    subst o2l. unfold index_of, Document.lines in Hin.
    cbn [WrappedDocument._offset_to_line_info] in Hin.
    destruct (line_info_from_entry _ _ _ _ Hin) as (Hli & o & Hnth & Hs).
    rewrite Z.sub_0_r in Hnth.
    unfold WrappedDocument.get_target_document_column, WrappedDocument.get_sections,
      index_of, Document.get_line, Document.lines.
    cbn [WrappedDocument._wrap_offsets].
    rewrite (getitem_nth_error _ _ _ Hli Hnth). cbn [Py.bind].
    unfold offsets_of in Hnth. rewrite nth_error_map in Hnth.
    destruct (nth_error document (Z.to_nat li)) as [line|] eqn:Hline; [|discriminate].
    rewrite (getitem_nth_error _ _ _ Hli Hline). cbn [Py.bind].
    cbn [Py.bind Py.ret].
    match goal with
    | |- context [Py.getitem ?sections s] =>
        assert (exists section, Py.getitem sections s = inr section) as (section & ->)
    end.
    { rewrite getitem_nonneg by lia.
      match goal with
      | |- context [nth_error ?sections _] =>
          destruct (nth_error sections (Z.to_nat s)) as [section|] eqn:E
      end.
      - exists section. reflexivity.
      - apply nth_error_None in E. fold (Py.len o) in E.
        pose proof (len_divide (Rich.strip_control_codes line) o) as Hlen.
        unfold Py.len in Hlen, Hs, E. cbn [option_map] in Hnth. lia. }
    cbn [Py.bind Py.ret].
    rewrite cell_width_to_column_index_returns by lia.
    cbn [Py.bind Py.ret]. eexists. reflexivity.
Qed.

End QueriesReturn.
(** ** The running width of a row *)

Lemma cell_len_rev s : cell_len (rev s) = cell_len s.
Proof.
  induction s as [|c s IH]; [reflexivity|].
  cbn [rev]. rewrite cell_len_app, IH, !cell_len_cons, cell_len_nil. lia.
Qed.

Lemma piece_fits_rev width line : piece_fits width line -> piece_fits width (rev line).
Proof.
  intros [H | (c & -> & H)].
  - left. now rewrite cell_len_rev.
  - right. exists c. split; [reflexivity | exact H].
Qed.

Lemma chop_cells_from_fit width text :
  forall line total_width,
  total_width = cell_len line -> piece_fits width line ->
  Forall (piece_fits width) (chop_cells_from text line width total_width).
Proof.
  induction text as [|c text IH]; intros line total Htotal Hfit;
    cbn [Rich.chop_cells_from].
  - constructor; [now apply piece_fits_rev | constructor].
  - destruct (Z.ltb_spec width (total + cell_size c)) as [Hnew|Hsame].
    + constructor; [now apply piece_fits_rev|].
      apply IH.
      * rewrite cell_len_cons, cell_len_nil. lia.
      * destruct (Z_le_gt_dec (cell_size c) width).
        -- left. rewrite cell_len_cons, cell_len_nil. lia.
        -- right. exists c. split; [reflexivity | lia].
    + apply IH.
      * rewrite cell_len_cons. lia.
      * left. rewrite cell_len_cons. lia.
Qed.

Lemma chop_cells_from_last text :
  forall line width total_width,
  chop_cells_from text line width total_width <> [].
Proof.
  induction text as [|c text IH]; intros line width total; cbn [Rich.chop_cells_from].
  - discriminate.
  - destruct (width <? total + cell_size c); [discriminate | apply IH].
Qed.

(** After the loop over the pieces of a folded word, the cell offset is the
    width of the last piece. *)
Lemma fold_pieces_cell_offset chop_width pieces :
  pieces <> [] ->
  forall start b,
  Wrap.cell_offset
    (snd (fold_left (Wrap.fold_step cell_len) (Wrap.loop_last pieces) (start, b)))
  = cell_len (last pieces chop_width).
Proof.
  induction pieces as [|p pieces IH]; intros Hne start b; [congruence|].
  destruct pieces as [|q pieces].
  - cbn [Wrap.loop_last fold_left Wrap.fold_step snd last]. reflexivity.
  - change (Wrap.loop_last (p :: q :: pieces))
      with ((false, p) :: Wrap.loop_last (q :: pieces)).
    cbn [fold_left]. unfold Wrap.fold_step at 2.
    rewrite IH by discriminate. reflexivity.
Qed.

(** X4.  With folding, placing a chunk leaves the cell offset of the current
    row within the width, or at the width of a single character wider than
    the width, whatever the chunk and the width measured for it. *)
Theorem place_chunk_within_width width start chunk chunk_width b :
  0 <= width ->
  Wrap.cell_offset b <= width ->
  Wrap.cell_offset
    (Wrap.place_chunk cell_len chop_cells width true start chunk chunk_width b)
  <= width
  \/ exists c,
       width < cell_size c
       /\ Wrap.cell_offset
            (Wrap.place_chunk cell_len chop_cells width true start chunk
               chunk_width b)
          = cell_size c.
Proof.
  intros Hwidth Hb. unfold Wrap.place_chunk.
  destruct (Z.leb_spec chunk_width (width - Wrap.cell_offset b)) as [Hfit|Hno].
  - left. cbn [Wrap.cell_offset]. lia.
  - destruct (Z.ltb_spec width chunk_width) as [Hwide|Hnarrow].
    + unfold Wrap.fold_word.
      rewrite (fold_pieces_cell_offset []) by apply chop_cells_from_last.
      assert (piece_fits width (last (chop_cells chunk width) [])) as Hlast.
      { pose proof (chop_cells_from_fit width chunk [] 0 eq_refl
                      (or_introl Hwidth)) as Hall.
        apply (proj1 (Forall_forall _ _) Hall).
        destruct (exists_last (chop_cells_from_last chunk [] width 0))
          as (init & p & E).
        unfold Rich.chop_cells. rewrite E, last_last.
        apply in_or_app. right. left. reflexivity. }
      destruct Hlast as [H | (c & -> & H)].
      * left. exact H.
      * right. exists c. split; [exact H|].
        rewrite cell_len_cons, cell_len_nil. lia.
    + left.
      destruct (negb (Wrap.cell_offset b =? 0) && negb (start =? 0));
        cbn [Wrap.cell_offset]; lia.
Qed.

(** ** The chunks tile the line *)

Lemma re_chunk_match_word rest chunk rest' :
  Wrap.re_chunk_match rest = Some (chunk, rest') -> has_word chunk = true.
Proof.
  unfold Wrap.re_chunk_match.
  destruct (Wrap.span Wrap.is_space rest) as [before rest1].
  destruct (Wrap.span Wrap.is_word rest1) as [word rest2] eqn:E2.
  destruct (span_spec _ _ _ _ E2) as (_ & Hword & _).
  destruct word as [|c word]; [discriminate|].
  destruct (Wrap.span Wrap.is_space rest2) as [after rest3].
  intros [= <- _]. rewrite !has_word_app.
  cbn [forallb] in Hword. apply andb_prop in Hword as [Hc _].
  cbn [has_word existsb]. rewrite Hc. cbn [orb]. apply orb_true_r.
Qed.

Lemma chunks_from_tiles fuel :
  forall rest end_, tiles end_ (Wrap.chunks_from fuel rest end_).
Proof.
  induction fuel as [|fuel IH]; intros rest end_; cbn [Wrap.chunks_from]; [exact I|].
  destruct (Wrap.re_chunk_match rest) as [[chunk rest']|] eqn:E; [|exact I].
  cbn [tiles]. repeat split.
  - eapply re_chunk_match_word, E.
  - apply IH.
Qed.

Lemma chunks_from_concat fuel :
  forall rest end_, (length rest < fuel)%nat -> has_word rest = true ->
  concat (map snd (Wrap.chunks_from fuel rest end_)) = rest.
Proof.
  induction fuel as [|fuel IH]; intros rest end_ Hfuel Hword; [lia|].
  cbn [Wrap.chunks_from].
  destruct (Wrap.re_chunk_match rest) as [[chunk rest']|] eqn:E.
  - destruct (re_chunk_match_some _ _ _ E) as (-> & Hlen & [-> | Hword']).
    + cbn [map concat snd]. f_equal.
      destruct fuel; reflexivity.
    + rewrite length_app in Hfuel. cbn [map concat snd].
      rewrite IH by (lia || assumption). reflexivity.
  - apply re_chunk_match_none in E. congruence.
Qed.

(** X6.  The chunks of a text follow one another from position 0, each
    holding a word and ending its own length after its start; put end to
    end they are the text, when the text has a word, and there is no chunk
    when it has none. *)
Theorem chunks_tile_text text :
  tiles 0 (Wrap.chunks text)
  /\ concat (map snd (Wrap.chunks text)) = (if has_word text then text else []).
Proof.
  split; [apply chunks_from_tiles|].
  destruct (has_word text) eqn:E.
  - apply chunks_from_concat; [lia | exact E].
  - now rewrite (chunks_blank _ E).
Qed.

(** ** The breaks a chunk adds *)

Lemma chop_cells_from_concat text :
  forall line width total_width,
  concat (chop_cells_from text line width total_width) = rev line ++ text.
Proof.
  induction text as [|c text IH]; intros line width total; cbn [Rich.chop_cells_from].
  - cbn [concat]. reflexivity.
  - destruct (width <? total + cell_size c).
    + cbn [concat]. rewrite IH. reflexivity.
    + rewrite IH. cbn [rev]. now rewrite <- app_assoc.
Qed.

Lemma nondecreasing_from_weaken lo lo' positions :
  lo' <= lo -> nondecreasing_from lo positions -> nondecreasing_from lo' positions.
Proof. destruct positions as [|p rest]; cbn; [trivial | intros H [H1 H2]; split; [lia | exact H2]]. Qed.

(** The loop over the pieces of a folded word only adds breaks: positions
    in order from [start] on, none of them 0, none past the last piece. *)
Lemma fold_pieces_breaks cell_len pieces :
  forall start b, 0 <= start ->
  exists added,
    Wrap.break_positions
      (snd (fold_left (Wrap.fold_step cell_len) (Wrap.loop_last pieces) (start, b)))
    = Wrap.break_positions b ++ added
    /\ nondecreasing_from start added
    /\ Forall (fun p => 0 < p <= start + Py.len (concat pieces)) added.
Proof.
  induction pieces as [|piece pieces IH]; intros start b Hstart.
  - exists []. cbn. rewrite app_nil_r. repeat split. constructor.
  - pose proof (len_nonneg piece) as Hpiece.
    pose proof (len_nonneg (concat pieces)) as Hrest.
    destruct pieces as [|q pieces].
    + cbn [Wrap.loop_last fold_left Wrap.fold_step snd Wrap.break_positions concat].
      rewrite app_nil_r.
      destruct (Z.eqb_spec start 0) as [->|Hne].
      * exists []. rewrite app_nil_r. repeat split. constructor.
      * exists [start]. repeat split; [cbn; lia|].
        constructor; [lia | constructor].
    + change (Wrap.loop_last (piece :: q :: pieces))
        with ((false, piece) :: Wrap.loop_last (q :: pieces)).
      cbn [fold_left]. unfold Wrap.fold_step at 2.
      destruct (IH (start + Py.len piece)
                  (Wrap.mk_breaker
                     (if start =? 0 then Wrap.break_positions b
                      else Wrap.break_positions b ++ [start])
                     (Wrap.cell_offset b)) ltac:(lia))
        as (added & -> & Hsorted & Hall).
      cbn [Wrap.break_positions].
      assert (Forall (fun p => 0 < p <= start + Py.len (concat (piece :: q :: pieces)))
                added) as Hall'.
      { eapply Forall_impl; [|exact Hall]. cbn beta. intros p Hp.
        change (concat (piece :: q :: pieces)) with (piece ++ concat (q :: pieces)).
        rewrite len_app. lia. }
      destruct (Z.eqb_spec start 0) as [->|Hne].
      * exists added. split; [reflexivity | split; [|exact Hall']].
        eapply nondecreasing_from_weaken; [|exact Hsorted]. lia.
      * exists (start :: added). rewrite <- app_assoc.
        split; [reflexivity | split].
        -- cbn. split; [lia|].
           eapply nondecreasing_from_weaken; [|exact Hsorted]. lia.
        -- constructor; [|exact Hall'].
           change (concat (piece :: q :: pieces)) with (piece ++ concat (q :: pieces)).
           rewrite len_app. pose proof (len_nonneg (concat (q :: pieces))). lia.
Qed.

(** X7.  Placing a chunk keeps the break positions found so far and adds,
    after them, positions in order that lie within the chunk, from its start
    to its end, and are never 0; this holds with and without folding. *)
Theorem place_chunk_breaks width fold start chunk chunk_width b :
  0 <= start ->
  exists added,
    Wrap.break_positions
      (Wrap.place_chunk cell_len chop_cells width fold start chunk
         chunk_width b)
    = Wrap.break_positions b ++ added
    /\ nondecreasing_from start added
    /\ Forall (fun p => 0 < p <= start + Py.len chunk) added.
Proof.
  intros Hstart. unfold Wrap.place_chunk.
  pose proof (len_nonneg chunk) as Hchunk.
  assert (forall positions : list Z, exists added,
            (if start =? 0 then positions else positions ++ [start]) = positions ++ added
            /\ nondecreasing_from start added
            /\ Forall (fun p => 0 < p <= start + Py.len chunk) added) as Hone.
  { intros positions. destruct (Z.eqb_spec start 0) as [->|Hne].
    - exists []. rewrite app_nil_r. repeat split. constructor.
    - exists [start]. repeat split; [cbn; lia|]. constructor; [lia | constructor]. }
  destruct (chunk_width <=? width - Wrap.cell_offset b).
  - exists []. cbn [Wrap.break_positions]. rewrite app_nil_r. repeat split. constructor.
  - destruct (width <? chunk_width).
    + destruct fold.
      * unfold Wrap.fold_word.
        destruct (fold_pieces_breaks cell_len (chop_cells chunk width)
                    start b Hstart) as (added & -> & Hsorted & Hall).
        exists added. repeat split; [exact Hsorted|].
        unfold Rich.chop_cells in Hall. rewrite chop_cells_from_concat in Hall.
        exact Hall.
      * cbn [Wrap.break_positions]. apply Hone.
    + destruct (negb (Wrap.cell_offset b =? 0) && negb (start =? 0)) eqn:E.
      * cbn [Wrap.break_positions]. exists [start].
        apply andb_prop in E as [_ E]. apply negb_true_iff, Z.eqb_neq in E.
        repeat split; [cbn; lia|]. constructor; [lia | constructor].
      * exists []. rewrite app_nil_r. repeat split. constructor.
Qed.

(** ** More on [wrap_range] *)

Section WrapRangeFacts.

Variable divide_line : str -> Z -> list Z.

Local Abbreviation wrap_range := (WrappedDocument.wrap_range divide_line).
Local Abbreviation offsets := (offsets_of divide_line).
Local Abbreviation index := (index_of divide_line).

(** X8.  Wrapping a window again whose lines did not change leaves the
    index as it was: every one of the three lists and the width. *)
Theorem wrap_range_unchanged_lines width before lines after start old_end new_end self :
  edited_from divide_line width (before ++ lines ++ after) self ->
  describes_edit start old_end new_end before lines lines ->
  wrap_range (before ++ lines ++ after) self start old_end new_end = inr self.
Proof.
  intros Hself Hedit. apply edited_from_index in Hself. subst self.
  now apply wrap_range_eq.
Qed.

End WrapRangeFacts.

(** ** [wrap_range] with locations of any kind *)

Lemma for_each_update_returns {A : Type} (f : A -> A) (l : list A) a :
  0 <= a ->
  exists l',
    Py.for_each (Py.range a (Py.len l))
      (fun l i => x <- Py.getitem l i ;; Py.setitem l i (f x)) l
    = inr l'.
Proof.
  intros Ha. destruct (Z_le_gt_dec (Py.len l) a) as [Hout|Hin].
  - rewrite range_nil by lia. exists l. reflexivity.
  - pose (l1 := firstn (Z.to_nat a) l). pose (l2 := skipn (Z.to_nat a) l).
    assert (l = l1 ++ l2) as E by (symmetry; apply firstn_skipn).
    assert (a = Py.len l1) as Hlen
      by (unfold l1, Py.len in *; rewrite length_firstn; lia).
    rewrite E, Hlen, for_each_update_tail. eexists. reflexivity.
Qed.

Lemma shift_line_info_returns line_shift (l : list (Z * Z)) a :
  0 <= a ->
  exists l',
    Py.for_each (Py.range a (Py.len l)) (WrappedDocument.shift_line_info line_shift) l
    = inr l'.
Proof.
  intros Ha.
  destruct (for_each_update_returns
              (fun info : Z * Z => (fst info + line_shift, snd info)) l a Ha)
    as (l' & E).
  exists l'. rewrite <- E. apply for_each_ext. intros s y.
  unfold WrappedDocument.shift_line_info.
  destruct (Py.getitem s y) as [e|[li sec]]; reflexivity.
Qed.

Lemma shift_offsets_returns offset_shift (l : list (list Z)) a :
  0 <= a ->
  exists l',
    Py.for_each (Py.range a (Py.len l)) (WrappedDocument.shift_offsets offset_shift) l
    = inr l'.
Proof.
  intros Ha.
  exact (for_each_update_returns (map (fun offset => offset + offset_shift)) l a Ha).
Qed.

Lemma getitem_range_last a b : a < b -> Py.getitem (Py.range a b) (-1) = inr (b - 1).
Proof.
  intros H. rewrite (range_app a (b - 1) b) by lia.
  rewrite (range_cons (b - 1)) by lia.
  rewrite (range_nil (b - 1 + 1)) by lia. apply getitem_last.
Qed.

(** The rows of a line of the index: a non-empty run of row numbers. *)
Lemma index_rows offs i :
  0 <= i < Py.len offs ->
  exists first_row last_row row,
    Py.getitem (y_offsets_from 0 offs) i = inr row
    /\ Py.getitem row 0 = inr first_row
    /\ Py.getitem row (-1) = inr last_row
    /\ 0 <= first_row <= last_row.
Proof.
  intros Hi.
  destruct (nth_error offs (Z.to_nat i)) as [o|] eqn:E.
  - pose proof (len_nonneg o) as Ho.
    pose proof (row_count_nonneg (firstn (Z.to_nat i) offs)) as Hrows.
    exists (0 + row_count (firstn (Z.to_nat i) offs)),
           (0 + row_count (firstn (Z.to_nat i) offs) + Py.len o + 1 - 1),
           (Py.range (0 + row_count (firstn (Z.to_nat i) offs))
              (0 + row_count (firstn (Z.to_nat i) offs) + Py.len o + 1)).
    split; [|split; [|split]].
    + apply getitem_nth_error; [lia|]. now apply y_offsets_from_nth.
    + rewrite getitem_range by lia.
      destruct (Z.ltb_spec (0 + row_count (firstn (Z.to_nat i) offs) + 0)
                  (0 + row_count (firstn (Z.to_nat i) offs) + Py.len o + 1));
        [f_equal; lia | lia].
    + apply getitem_range_last. lia.
    + lia.
  - apply nth_error_None in E. unfold Py.len in Hi. lia.
Qed.

Section WrapRangeReturns.

Variable divide_line : str -> Z -> list Z.

(** X10.  Whatever the three locations, [wrap_range] does not raise on an
    index and a document that have a line each: the line indexes are
    clamped into both, and every look-up that follows is in range. *)
Theorem wrap_range_returns width old_document document self start old_end new_end :
  edited_from divide_line width old_document self ->
  0 < Document.line_count old_document ->
  0 < Document.line_count document ->
  exists self',
    WrappedDocument.wrap_range divide_line document self start old_end new_end
    = inr self'
    /\ WrappedDocument._width self' = width.
Proof.
  intros Hself Hold Hnew. apply edited_from_index in Hself. subst self.
  destruct start as [sl sc], old_end as [oel oec], new_end as [nel nec].
  unfold WrappedDocument.wrap_range, index_of, Document.lines, Document.line_count in *.
  cbn [WrappedDocument._line_index_to_offsets WrappedDocument._offset_to_line_info
       WrappedDocument._wrap_offsets WrappedDocument._width].
  rewrite len_y_offsets_from, len_offsets.
  set (old_max := Py.len old_document - 1). set (new_max := Py.len document - 1).
  pose proof (clamp_bounds sl 0 (Z.min old_max new_max) ltac:(lia)) as Hs.
  pose proof (clamp_bounds oel 0 old_max ltac:(lia)) as Ho.
  pose proof (clamp_bounds nel 0 new_max ltac:(lia)) as Hn.
  set (s' := Geometry.clamp sl 0 (Z.min old_max new_max)) in *.
  set (oe' := Geometry.clamp oel 0 old_max) in *.
  set (ne' := Geometry.clamp nel 0 new_max) in *.
  destruct (index_rows (offsets_of divide_line width old_document) (Z.min s' oe'))
    as (top_y & top_last & top_row & Gtop & Gtop_y & _ & Htop);
    [rewrite len_offsets; lia|].
  destruct (index_rows (offsets_of divide_line width old_document) (Z.max s' oe'))
    as (bottom_first & bottom_y & bottom_row & Gbottom & _ & Gbottom_y & Hbottom);
    [rewrite len_offsets; lia|].
  rewrite Gtop. cbn [Py.bind]. rewrite Gtop_y. cbn [Py.bind].
  rewrite Gbottom. cbn [Py.bind]. rewrite Gbottom_y. cbn [Py.bind].
  destruct (fold_left _ _ _) as [[[new_wrap_offsets new_l2o] new_o2l] current].
  pose proof (len_nonneg new_o2l) as Hlen1.
  match goal with
  | |- context [Py.slice ?l ?i ?j] => pose proof (len_nonneg (Py.slice l i j)) as Hlen2
  end.
  match goal with
  | |- context [if ?c then Py.ret ?l else Py.for_each (Py.range ?a _) ?body ?l] =>
      assert (exists l', (if c then Py.ret l else Py.for_each (Py.range a (Py.len l)) body l)
                         = inr l') as (o2l' & ->)
  end.
  { destruct (_ =? 0); [eexists; reflexivity|].
    apply shift_line_info_returns. lia. }
  cbn [Py.bind].
  match goal with
  | |- context [if ?c then Py.ret ?l else Py.for_each (Py.range ?a _) ?body ?l] =>
      assert (exists l', (if c then Py.ret l else Py.for_each (Py.range a (Py.len l)) body l)
                         = inr l') as (l2o' & ->)
  end.
  { destruct (_ =? 0); [eexists; reflexivity|].
    apply shift_offsets_returns. lia. }
  cbn [Py.bind Py.ret]. eexists. split; reflexivity.
Qed.

End WrapRangeReturns.

(** On the index [wrap] builds the two maps are inverses and [height] is
    the number of rows. *)
Lemma edits_keep_rows divide_line width document self :
  edited_from divide_line width document self ->
  inverse_maps self
  /\ WrappedDocument.height self = Py.len (WrappedDocument._offset_to_line_info self).
Proof.
  intros H. apply edited_from_index in H. subst self.
  destruct (index_consistent divide_line width document) as (Hinv & _ & _ & Hheight).
  split; assumption.
Qed.

(** ** [location_to_offset] with columns of any kind *)

(** Whatever the list, the binary search stays between its bounds. *)
Lemma bisect_right_loop_bounds a x fuel :
  forall lo hi, lo <= hi -> lo <= Py.bisect_right_loop fuel a x lo hi <= hi.
Proof.
  induction fuel as [|fuel IH]; intros lo hi H; cbn [Py.bisect_right_loop]; [lia|].
  destruct (Z.ltb_spec lo hi) as [Hlt|]; [|lia].
  assert (lo <= (lo + hi) / 2 < hi) as Hmid
    by (split; [apply Z.div_le_lower_bound | apply Z.div_lt_upper_bound]; lia).
  destruct (nth_error a (Z.to_nat ((lo + hi) / 2))); [|lia].
  destruct (x <? z).
  - specialize (IH lo ((lo + hi) / 2) ltac:(lia)). lia.
  - specialize (IH ((lo + hi) / 2 + 1) hi ltac:(lia)). lia.
Qed.

Lemma bisect_right_bounds a x : 0 <= Py.bisect_right a x <= Py.len a.
Proof.
  unfold Py.bisect_right. apply bisect_right_loop_bounds. apply len_nonneg.
Qed.

Lemma getitem_in_range {A : Type} (l : list A) i :
  0 <= i < Py.len l -> exists x, Py.getitem l i = inr x.
Proof.
  intros H. rewrite getitem_nonneg by lia.
  destruct (nth_error l (Z.to_nat i)) as [x|] eqn:E.
  - exists x. reflexivity.
  - apply nth_error_None in E. unfold Py.len in H. lia.
Qed.

(** Without wrapping every line is one row. *)
Lemma row_count_unwrapped divide_line (lines : list str) :
  row_count (offsets_of divide_line 0 lines) = Py.len lines.
Proof.
  induction lines as [|line lines IH]; [reflexivity|].
  unfold offsets_of in *. cbn [map]. rewrite row_count_cons, IH, len_cons.
  reflexivity.
Qed.

Section LocationToOffset.

Variable divide_line : str -> Z -> list Z.

Local Abbreviation index := (index_of divide_line).
Local Abbreviation offsets := (offsets_of divide_line).

(** X11.  On the index [wrap] builds for a document, with a tab width of
    at least 1, for every location whose line index is below the line
    count, whatever its column, [location_to_offset] returns an offset: a
    negative line index stands for line 0, [x] is not negative and [y] is a
    row of the document; [offset_to_location] sends that offset to a
    location on the same line. *)
Theorem location_to_offset_returns width document self line_index column_index
  tab_width :
  edited_from divide_line width document self ->
  0 < Document.line_count document ->
  line_index < Document.line_count document ->
  0 < tab_width ->
  exists x y column,
    location_to_offset document self (line_index, column_index) tab_width
    = inr (x, y)
    /\ 0 <= x
    /\ 0 <= y < WrappedDocument.height self
    /\ offset_to_location document self (x, y) tab_width
       = inr (Z.max 0 line_index, column).
Proof.
  intros Hself Hlines Hline Htab.
  destruct (edits_keep_rows divide_line width document self Hself) as (Hinv & Hheight).
  pose proof Hself as Hedited.
  apply edited_from_index in Hself. subst self.
  unfold Document.line_count in *.
  set (li := Z.max 0 line_index).
  assert (0 <= li < Py.len document) as Hli by (subst li; lia).
  destruct (getitem_in_range document li Hli) as (line & Gline).
  pose proof (getitem_inr_nth_error _ _ _ (proj1 Hli) Gline) as Hnth.
  set (offs := WrappedDocument.wrap_offsets_of divide_line width line).
  assert (nth_error (offsets width document) (Z.to_nat li) = Some offs) as Hoffs
    by (unfold offsets_of; rewrite nth_error_map, Hnth; reflexivity).
  pose proof (bisect_right_bounds offs column_index) as Hk.
  set (k := Py.bisect_right offs column_index) in *.
  pose proof (len_nonneg offs) as Hlen.
  set (Y := row_count (firstn (Z.to_nat li) (offsets width document))).
  assert (0 <= Y) as HY by apply row_count_nonneg.
  assert (Py.getitem (y_offsets_from 0 (offsets width document)) li
          = inr (Py.range Y (Y + Py.len offs + 1))) as Grows.
  { apply getitem_nth_error; [lia|].
    rewrite (y_offsets_from_nth _ 0 _ _ Hoffs). reflexivity. }
  assert (Py.getitem (Py.range Y (Y + Py.len offs + 1)) k = inr (Y + k)) as Grow.
  { rewrite getitem_range by lia.
    destruct (Z.ltb_spec (Y + k) (Y + Py.len offs + 1)); [reflexivity | lia]. }
  destruct (getitem_in_range (0 :: offs) k) as (section_start & Gstart);
    [rewrite len_cons; lia|].
  destruct (getitem_in_range (Rich.divide (Rich.strip_control_codes line) offs) k)
    as (section & Gsection); [rewrite len_divide; lia|].
  assert (WrappedDocument.get_sections document (index width document) li
          = inr (Rich.divide (Rich.strip_control_codes line) offs)) as Gsections.
  { unfold WrappedDocument.get_sections, index_of, Document.get_line, Document.lines.
    cbn [WrappedDocument._wrap_offsets].
    rewrite (getitem_nth_error _ _ _ (proj1 Hli) Hoffs). cbn [Py.bind].
    rewrite Gline. reflexivity. }
  assert (Py.getitem (WrappedDocument._offset_to_line_info (index width document))
            (Y + k) = inr (li, k)) as Ginfo.
  { apply Hinv; [lia | lia | lia |].
    exists (Py.range Y (Y + Py.len offs + 1)). split; [exact Grows | exact Grow]. }
  set (x := cell_len
              ((Stops.expand_tabs_inline cell_size)
                 (Py.slice_to section (column_index - section_start)) tab_width)).
  assert (0 <= x) as Hx by apply cell_len_nonneg.
  assert (location_to_offset document (index width document)
            (line_index, column_index) tab_width = inr (x, Y + k)) as Gto.
  { unfold WrappedDocument.location_to_offset.
    assert (Geometry.clamp line_index 0
              (Py.len (WrappedDocument._line_index_to_offsets (index width document)))
            = li) as ->.
    { unfold index_of, Document.lines.
      cbn [WrappedDocument._line_index_to_offsets].
      rewrite len_y_offsets_from, len_offsets. unfold Geometry.clamp.
      destruct (Py.len document <? 0) eqn:E0; [lia|].
      destruct (Z.ltb_spec line_index 0); [subst li; lia|].
      destruct (Z.ltb_spec (Py.len document) line_index); subst li; lia. }
    rewrite Gsections.
    unfold WrappedDocument.get_offsets, index_of, Document.lines.
    cbn [WrappedDocument._wrap_offsets WrappedDocument._line_index_to_offsets].
    rewrite !len_offsets.
    destruct (li <? 0) eqn:E1; [lia|].
    destruct (Z.leb_spec (Py.len document) li); [lia|].
    cbn [orb]. rewrite (getitem_nth_error _ _ _ (proj1 Hli) Hoffs). cbn [Py.bind].
    rewrite Grows. cbn [Py.bind]. fold k. rewrite Gstart. cbn [Py.bind].
    rewrite Gsection. cbn [Py.bind].
    rewrite expand_tabs_inline_returns by lia. cbn [Py.bind].
    rewrite Grow. reflexivity. }
  assert (Y + k < WrappedDocument.height (index width document)) as Hrow.
  { rewrite Hheight. eapply getitem_inr_bound; [|exact Ginfo]. lia. }
  destruct (Z.eq_dec width 0) as [Hzero|Hwidth].
  - (* no wrapping: the row is the line *)
    subst width.
    destruct (offset_to_location_unwrapped_eq divide_line document _ x (Y + k)
                tab_width Hedited Hlines) as (line' & _ & Gfrom).
    assert (Py.len offs = 0) as Hoffs0 by reflexivity.
    assert (k = 0) as Hk0 by lia.
    assert (Y = li) as HYli.
    { subst Y. rewrite <- (firstn_skipn (Z.to_nat li) document) at 1.
      unfold offsets_of. rewrite map_app, firstn_app.
      rewrite length_map, length_firstn.
      replace (Z.to_nat li - Nat.min (Z.to_nat li) (length document))%nat with 0%nat
        by (unfold Py.len in Hli; lia).
      rewrite firstn_O, app_nil_r.
      rewrite firstn_all2 by (rewrite length_map, length_firstn; lia).
      fold (offsets 0 (firstn (Z.to_nat li) document)).
      rewrite row_count_unwrapped. unfold Py.len in *. rewrite length_firstn. lia. }
    exists x, (Y + k). eexists. split; [exact Gto|]. split; [exact Hx|].
    split; [lia|]. rewrite Gfrom. unfold Document.line_count.
    f_equal. f_equal. lia.
  - exists x, (Y + k). eexists. split; [exact Gto|]. split; [exact Hx|].
    split; [lia|].
    unfold WrappedDocument.offset_to_location.
    rewrite !Z.max_r by lia.
    replace (WrappedDocument._width (index width document)) with width by reflexivity.
    destruct (Z.eqb_spec width 0); [contradiction|].
    rewrite Ginfo. cbn [Py.bind].
    unfold WrappedDocument.get_target_document_column.
    rewrite Gsections. cbn [Py.bind Py.ret].
    rewrite Gsection. cbn [Py.bind Py.ret].
    rewrite cell_width_to_column_index_returns by lia. reflexivity.
Qed.

End LocationToOffset.

(** ** The column of an offset *)

(** The search returns its starting value or a column that fits. *)
Lemma largest_column_bounds text target tab_width todo :
  forall column best,
  (Stops.largest_column cell_size) text target tab_width todo column best = best
  \/ (column <= (Stops.largest_column cell_size) text target tab_width todo column best
      <= column + Z.of_nat todo
      /\ column_x text tab_width
           ((Stops.largest_column cell_size) text target tab_width todo column best) <= target).
Proof.
  induction todo as [|todo IH]; intros column best; cbn [Stops.largest_column].
  - destruct (Z.leb_spec (cell_len
                ((Stops.expand_tabs_inline cell_size) (Py.slice_to text column) tab_width)) target)
      as [Hfit|]; [right | left; reflexivity].
    split; [lia | exact Hfit].
  - destruct (Z.leb_spec (cell_len
                ((Stops.expand_tabs_inline cell_size) (Py.slice_to text column) tab_width)) target)
      as [Hfit|].
    + destruct (IH (column + 1) column) as [-> | [H1 H2]]; right.
      * split; [lia | exact Hfit].
      * split; [lia | exact H2].
    + destruct (IH (column + 1) best) as [-> | [H1 H2]]; [left; reflexivity | right].
      split; [lia | exact H2].
Qed.

Lemma cell_width_to_column_index_bounds text target tab_width :
  0 <= (Stops.cell_width_to_column_index cell_size) text target tab_width <= Py.len text
  /\ (0 <= target ->
      column_x text tab_width ((Stops.cell_width_to_column_index cell_size) text target tab_width)
      <= target).
Proof.
  unfold Stops.cell_width_to_column_index.
  destruct (largest_column_bounds text target tab_width (length text) 0 0)
    as [-> | [H1 H2]].
  - pose proof (len_nonneg text). split; [lia|]. intros Ht.
    unfold Measure.column_x. rewrite slice_to_firstn by lia. exact Ht.
  - unfold Py.len. split; [lia | intros _; exact H2].
Qed.

(** Section [k] of a line cut at strictly increasing offsets: where it
    starts and stops, and the columns that [bisect_right] sends to it. *)
Lemma section_of_row line offs k :
  sane_offsets line offs -> 0 <= k <= Py.len offs ->
  let start := nth (Z.to_nat k) (0 :: offs) 0 in
  let stop := nth (Z.to_nat k) (offs ++ [Py.len line]) 0 in
  0 <= start <= stop /\ stop <= Py.len line
  /\ (k < Py.len offs -> start < stop)
  /\ Py.getitem (0 :: offs) k = inr start
  /\ Py.getitem (Rich.divide line offs) k = inr (Py.slice line start stop)
  /\ Py.sum (map Py.len (Py.slice_to (Rich.divide line offs) k)) = start
  /\ (forall column, start <= column -> column < stop \/ k = Py.len offs ->
      Py.bisect_right offs column = k).
Proof.
  intros [Hinc Hall] Hk start stop.
  pose proof (len_nonneg offs) as Hlen. pose proof (len_nonneg line) as Hline.
  pose proof (increasing_from_increasing _ _ Hinc) as Hincr.
  assert (Z.to_nat k <= length offs)%nat as Hkn by (unfold Py.len in Hk; lia).
  assert ((k = 0 /\ start = 0)
          \/ exists v, nth_error offs (Z.to_nat k - 1) = Some v /\ start = v /\ 0 < k)
    as Hstart.
  { subst start. destruct (Z.to_nat k) as [|k'] eqn:Ek; cbn [nth].
    - left. split; [lia | reflexivity].
    - right. replace (S k' - 1)%nat with k' by lia.
      destruct (nth_error offs k') as [v|] eqn:E.
      + exists v. rewrite (nth_error_nth _ _ _ E). repeat split. lia.
      + apply nth_error_None in E. lia. }
  assert ((k = Py.len offs /\ stop = Py.len line)
          \/ exists v, nth_error offs (Z.to_nat k) = Some v /\ stop = v /\ k < Py.len offs)
    as Hstop.
  { subst stop. destruct (nth_error offs (Z.to_nat k)) as [v|] eqn:E.
    - right. exists v.
      assert (Z.to_nat k < length offs)%nat by (apply nth_error_Some; congruence).
      rewrite app_nth1 by lia. rewrite (nth_error_nth _ _ _ E).
      repeat split. unfold Py.len. lia.
    - left. apply nth_error_None in E. rewrite app_nth2 by lia.
      replace (Z.to_nat k - length offs)%nat with 0%nat by lia.
      split; [unfold Py.len; lia | reflexivity]. }
  assert (0 <= start) as Hstart0.
  { destruct Hstart as [[_ ->] | (v & E & -> & _)]; [lia|].
    pose proof (increasing_from_above _ _ _ _ Hinc E). lia. }
  assert (stop <= Py.len line) as Hstop1.
  { destruct Hstop as [[_ ->] | (v & E & -> & _)]; [lia|].
    exact (proj1 (Forall_forall _ _) Hall v (nth_error_In _ _ E)). }
  assert (start <= stop /\ (k < Py.len offs -> start < stop)) as [Hle Hlt].
  { destruct Hstart as [[Hk0 ->] | (v1 & E1 & -> & Hk1)];
      destruct Hstop as [[Hk2 ->] | (v2 & E2 & -> & Hk3)].
    - split; lia.
    - pose proof (increasing_from_above _ _ _ _ Hinc E2). split; lia.
    - pose proof (proj1 (Forall_forall _ _) Hall v1 (nth_error_In _ _ E1)) as Hv.
      cbn beta in Hv. split; lia.
    - pose proof (Hincr (Z.to_nat k - 1)%nat (Z.to_nat k) v1 v2 ltac:(lia) E1 E2).
      split; lia. }
  rewrite divide_eq_pieces.
  split; [lia|]. split; [exact Hstop1|]. split; [exact Hlt|].
  split; [|split; [|split]].
  - apply getitem_nth_error; [lia|]. apply nth_error_nth'. cbn [length]. lia.
  - apply getitem_nth_error; [lia|].
    rewrite pieces_nth by (rewrite length_app; cbn [length]; lia).
    do 2 f_equal. subst start.
    destruct (Z.to_nat k) as [|k']; [reflexivity|]. cbn [nth].
    apply app_nth1. lia.
  - rewrite slice_to_firstn by lia.
    rewrite (pieces_lengths line (Py.len line)); try lia.
    + subst start. destruct (Z.to_nat k) as [|k']; cbn [nth]; [lia|].
      rewrite app_nth1 by lia. lia.
    + apply sane_ascending; [assumption | assumption | lia].
    + rewrite length_app. cbn [length]. lia.
  - intros column Hcol Hend.
    destruct (bisect_right_splits offs column Hincr) as [Hk' Hsplit].
    set (k' := Py.bisect_right offs column) in *.
    destruct (Z.lt_trichotomy k' k) as [Hless | [Heq | Hmore]]; [exfalso | exact Heq | exfalso].
    + destruct (nth_error offs (Z.to_nat k')) as [v|] eqn:E.
      * pose proof (proj2 (Hsplit _ _ E)) as Hv.
        assert (column < v) as Hv' by (destruct (Z_lt_le_dec column v); [assumption|lia]).
        destruct Hstart as [[Hk0 _] | (v1 & E1 & Hs & Hk1)]; [lia|].
        destruct (Nat.eq_dec (Z.to_nat k') (Z.to_nat k - 1)) as [Hsame|Hdiff].
        -- rewrite Hsame in E. assert (v = v1) by congruence. lia.
        -- pose proof (Hincr (Z.to_nat k') (Z.to_nat k - 1)%nat v v1 ltac:(lia) E E1).
           lia.
      * apply nth_error_None in E. lia.
    + destruct Hstop as [[Hk2 _] | (v2 & E2 & Hs & Hk3)]; [lia|].
      pose proof (proj1 (Hsplit _ _ E2) ltac:(lia)). lia.
Qed.

Section TargetColumn.

Variable divide_line : str -> Z -> list Z.

Local Abbreviation index := (index_of divide_line).
Local Abbreviation offsets := (offsets_of divide_line).

(** The column [get_target_document_column] gives for section [k] of a line
    lies in that section, before its end when the section is not the last,
    and is no further right than [x]. *)
Lemma target_column_in_section width document line_index line k x tab_width :
  0 < tab_width ->
  0 <= line_index ->
  nth_error document (Z.to_nat line_index) = Some line ->
  sane_offsets (Rich.strip_control_codes line)
    (WrappedDocument.wrap_offsets_of divide_line width line) ->
  0 <= k <= Py.len (WrappedDocument.wrap_offsets_of divide_line width line) ->
  let offs := WrappedDocument.wrap_offsets_of divide_line width line in
  let text := Rich.strip_control_codes line in
  let start := nth (Z.to_nat k) (0 :: offs) 0 in
  let stop := nth (Z.to_nat k) (offs ++ [Py.len text]) 0 in
  exists column,
    get_target_document_column document (index width document)
      line_index x k tab_width = inr column
    /\ WrappedDocument.get_sections document (index width document) line_index
       = inr (Rich.divide text offs)
    /\ start <= column <= stop
    /\ (k < Py.len offs -> column < stop)
    /\ (0 <= x -> column_x (Py.slice text start stop) tab_width (column - start) <= x).
Proof.
  intros Htab Hli Hnth Hsane Hk offs text start stop.
  change (0 <= k <= Py.len offs) in Hk.
  destruct (section_of_row text offs k Hsane Hk)
    as (Hstart & Hstop & Hlt & _ & Gsection & Gsum & _).
  fold start stop in Hstart, Hstop, Hlt, Gsection, Gsum.
  assert (nth_error (offsets width document) (Z.to_nat line_index) = Some offs) as Hoffs
    by (unfold offsets_of; rewrite nth_error_map, Hnth; reflexivity).
  assert (WrappedDocument.get_sections document (index width document) line_index
          = inr (Rich.divide text offs)) as Gsections.
  { unfold WrappedDocument.get_sections, index_of, Document.get_line, Document.lines.
    cbn [WrappedDocument._wrap_offsets].
    rewrite (getitem_nth_error _ _ _ Hli Hoffs). cbn [Py.bind].
    rewrite (getitem_nth_error _ _ _ Hli Hnth). reflexivity. }
  destruct (slice_inside text start stop ltac:(lia) ltac:(lia)) as [_ Hseclen].
  set (section := Py.slice text start stop) in *.
  destruct (cell_width_to_column_index_bounds section x tab_width) as [Hc Hcx].
  set (c := (Stops.cell_width_to_column_index cell_size) section x tab_width) in *.
  unfold WrappedDocument.get_target_document_column.
  rewrite Gsections. cbn [Py.bind]. rewrite Gsection. cbn [Py.bind Py.ret].
  rewrite cell_width_to_column_index_returns by lia. cbn [Py.bind Py.ret].
  rewrite Gsum, len_divide. fold c.
  destruct (Z.eqb_spec k (Py.len offs + 1 - 1)) as [Hlast|Hne]; cbn [negb andb].
  - eexists. split; [reflexivity|]. split; [reflexivity|]. split; [lia|].
    split; [lia|]. intros Hx. replace (start + c - start) with c by lia. auto.
  - destruct (Z.eqb_spec k (-1)); cbn [negb]; [lia|].
    specialize (Hlt ltac:(lia)).
    eexists. split; [reflexivity|]. split; [reflexivity|]. split; [lia|].
    split; [lia|]. intros Hx. specialize (Hcx Hx).
    pose proof (column_x_monotone section tab_width
                  (Z.min (start + c) (start + Py.len section - 1) - start) c
                  ltac:(lia) ltac:(lia)).
    lia.
Qed.

(** X12.  On the index [wrap] builds for a document at a width other than
    0, with a tab width of at least 1, when the wrap offsets of every line
    are strictly increasing within [(0, n]], [n] being the length of the
    line without the control codes that [Text] removes, the location that
    [offset_to_location] gives for an offset on row [y] is on row [y]:
    [location_to_offset] maps it to an offset with the same [y], and with an
    [x] that is not to the right of the offset asked for. *)
Theorem offset_to_location_on_row width document self x y tab_width :
  edited_from divide_line width document self ->
  width <> 0 ->
  0 < tab_width ->
  (forall line, In line document ->
     sane_offsets (Rich.strip_control_codes line) (divide_line line width)) ->
  0 <= y < WrappedDocument.height self ->
  exists line_index column x',
    offset_to_location document self (x, y) tab_width
    = inr (line_index, column)
    /\ location_to_offset document self (line_index, column) tab_width
       = inr (x', y)
    /\ 0 <= x' <= Z.max 0 x.
Proof.
  intros Hself Hwidth Htab Hsane Hy.
  destruct (edits_keep_rows divide_line width document self Hself) as (Hinv & Hheight).
  apply edited_from_index in Hself. subst self.
  rewrite Hheight in Hy.
  destruct (getitem_in_range _ y Hy) as ([li k] & Ginfo).
  pose proof (getitem_In _ _ _ (proj1 Hy) Ginfo) as Hin.
  unfold index_of, Document.lines in Hin.
  cbn [WrappedDocument._offset_to_line_info] in Hin.
  destruct (line_info_from_entry _ _ _ _ Hin) as (Hli & o & Hnth & Hk).
  rewrite Z.sub_0_r in Hnth.
  pose proof Hnth as Hoffs.
  unfold offsets_of in Hnth. rewrite nth_error_map in Hnth.
  destruct (nth_error document (Z.to_nat li)) as [line|] eqn:Hline; [|discriminate].
  cbn [option_map] in Hnth. injection Hnth as Ho.
  assert (WrappedDocument.wrap_offsets_of divide_line width line
          = divide_line line width) as Hwrap.
  { unfold WrappedDocument.wrap_offsets_of.
    destruct (Z.eqb_spec width 0); [contradiction | reflexivity]. }
  specialize (Hsane line (nth_error_In _ _ Hline)).
  rewrite <- Hwrap in Hsane. rewrite <- Ho in Hk.
  destruct (target_column_in_section width document li line k (Z.max 0 x) tab_width
              Htab Hli Hline Hsane Hk)
    as (column & Gcolumn & Gsections & Hcolumn & Hbefore & Hx).
  destruct (section_of_row _ _ k Hsane Hk)
    as (Hstart & Hstop & _ & Gstart & Gsection & _ & Hbisect).
  rewrite Ho in *. clear Ho.
  set (start := nth (Z.to_nat k) (0 :: o) 0) in *.
  set (stop := nth (Z.to_nat k) (o ++ [Py.len (Rich.strip_control_codes line)]) 0) in *.
  assert (Py.bisect_right o column = k) as Hsection.
  { apply Hbisect; [lia|]. destruct (Z.eq_dec k (Py.len o)); [right; assumption|].
    left. apply Hbefore. lia. }
  destruct (proj1 (Hinv y li k (proj1 Hy) Hli (proj1 Hk)) Ginfo)
    as (y_offsets & Grows & Grow).
  assert (Z.to_nat li < length document)%nat as Hli'
    by (apply nth_error_Some; congruence).
  exists li, column,
    (column_x (Py.slice (Rich.strip_control_codes line) start stop) tab_width
       (column - start)).
  split; [|split].
  - unfold WrappedDocument.offset_to_location.
    rewrite (Z.max_r 0 y) by lia.
    replace (WrappedDocument._width (index width document)) with width by reflexivity.
    destruct (Z.eqb_spec width 0); [contradiction|].
    rewrite Ginfo. cbn [Py.bind]. rewrite Gcolumn. reflexivity.
  - unfold WrappedDocument.location_to_offset.
    assert (Geometry.clamp li 0
              (Py.len (WrappedDocument._line_index_to_offsets (index width document)))
            = li) as ->.
    { unfold index_of, Document.lines.
      cbn [WrappedDocument._line_index_to_offsets].
      rewrite len_y_offsets_from, len_offsets. apply clamp_inside; unfold Py.len; lia. }
    rewrite Gsections, Grows.
    unfold WrappedDocument.get_offsets, index_of, Document.lines.
    cbn [WrappedDocument._wrap_offsets].
    rewrite !len_offsets.
    destruct (li <? 0) eqn:E1; [lia|].
    destruct (Z.leb_spec (Py.len document) li); [unfold Py.len in *; lia|].
    cbn [orb]. rewrite (getitem_nth_error _ _ _ Hli Hoffs). cbn [Py.bind].
    rewrite Hsection, Gstart. cbn [Py.bind].
    rewrite Gsection. cbn [Py.bind].
    rewrite expand_tabs_inline_returns by lia. cbn [Py.bind].
    rewrite Grow. reflexivity.
  - split; [apply cell_len_nonneg | apply Hx; lia].
Qed.

End TargetColumn.

(** ** The location of an offset lies in the document *)

Lemma len_strip_control_codes text :
  Py.len (Rich.strip_control_codes text) <= Py.len text.
Proof.
  unfold Py.len, Rich.strip_control_codes.
  pose proof (filter_length_le
                (fun c : char =>
                   negb (N.eqb c 7 || N.eqb c 8 || N.eqb c 11 || N.eqb c 12 || N.eqb c 13)%N)
                text).
  lia.
Qed.

Section LocationInDocument.

Variable divide_line : str -> Z -> list Z.

Local Abbreviation index := (index_of divide_line).

(** X13.  On the index [wrap] builds for a document with a line, with a
    tab width of at least 1, when the wrap offsets of every line are
    strictly increasing within [(0, n]], [n] being the length of the line
    without the control codes that [Text] removes, [offset_to_location]
    maps every offset, whatever its components, to a location of the
    document: the index of one of its lines and a column between 0 and the
    length of that line. *)
Theorem offset_to_location_in_document width document self offset tab_width :
  edited_from divide_line width document self ->
  0 < Document.line_count document ->
  0 < tab_width ->
  (forall line, In line document ->
     sane_offsets (Rich.strip_control_codes line)
       (WrappedDocument.wrap_offsets_of divide_line width line)) ->
  exists line_index column line,
    offset_to_location document self offset tab_width
    = inr (line_index, column)
    /\ 0 <= line_index
    /\ Document.get_line document line_index = inr line
    /\ 0 <= column <= Py.len line.
Proof.
  intros Hself Hlines Htab Hsane. destruct offset as [x y].
  destruct (Z.eq_dec width 0) as [->|Hwidth].
  - destruct (offset_to_location_unwrapped_eq divide_line document self x y tab_width
                Hself Hlines) as (line & Gline & ->).
    pose proof (len_nonneg line).
    eexists _, _, line. split; [reflexivity|]. split; [lia|]. split; [exact Gline|]. lia.
  - apply edited_from_index in Hself. subst self.
    unfold WrappedDocument.offset_to_location.
    replace (WrappedDocument._width (index width document)) with width by reflexivity.
    destruct (Z.eqb_spec width 0); [contradiction|].
    set (o2l := WrappedDocument._offset_to_line_info (index width document)).
    assert (o2l <> []) as Hrows.
    { subst o2l. unfold index_of, Document.lines, Document.line_count in *.
      cbn [WrappedDocument._offset_to_line_info].
      destruct document as [|line document]; [cbn in Hlines; lia|].
      unfold offsets_of. cbn [map line_info_from].
      pose proof (len_nonneg (WrappedDocument.wrap_offsets_of divide_line width line)).
      rewrite range_cons by lia. discriminate. }
    assert (exists li s,
              match Py.getitem o2l (Z.max 0 y) with
              | inl Py.IndexError => Py.getitem o2l (-1)
              | result => result
              end = inr (li, s) /\ In (li, s) o2l) as (li & k & -> & Hin).
    { destruct (Py.getitem o2l (Z.max 0 y)) as [e|[li s]] eqn:E.
      - rewrite (getitem_raises _ _ _ E).
        destruct (getitem_minus_one o2l Hrows) as ([li s] & G & Hin).
        exists li, s. split; assumption.
      - exists li, s. split; [reflexivity|].
        eapply getitem_In; [|exact E]. lia. }
    cbn [Py.bind].
    subst o2l. unfold index_of, Document.lines in Hin.
    cbn [WrappedDocument._offset_to_line_info] in Hin.
    destruct (line_info_from_entry _ _ _ _ Hin) as (Hli & o & Hnth & Hk).
    rewrite Z.sub_0_r in Hnth.
    unfold offsets_of in Hnth. rewrite nth_error_map in Hnth.
    destruct (nth_error document (Z.to_nat li)) as [line|] eqn:Hline; [|discriminate].
    cbn [option_map] in Hnth. injection Hnth as Ho.
    specialize (Hsane line (nth_error_In _ _ Hline)).
    rewrite <- Ho in Hk.
    destruct (target_column_in_section divide_line width document li line k (Z.max 0 x)
                tab_width Htab Hli Hline Hsane Hk)
      as (column & Gcolumn & _ & Hcolumn & _).
    destruct (section_of_row _ _ k Hsane Hk) as (Hstart & Hstop & _).
    pose proof (len_strip_control_codes line).
    rewrite Gcolumn. cbn [Py.bind Py.ret].
    exists li, column, line. split; [reflexivity|]. split; [exact Hli|].
    split; [apply getitem_nth_error; assumption | lia].
Qed.

End LocationInDocument.

(** ** The sections put together *)

Lemma firstn_add {A : Type} (a b : nat) (l : list A) :
  firstn (a + b) l = firstn a l ++ firstn b (skipn a l).
Proof.
  revert l. induction a as [|a IH]; intros l; [reflexivity|].
  destruct l as [|x l]; cbn [Nat.add firstn skipn app].
  - now rewrite firstn_nil.
  - now rewrite IH.
Qed.

(** Two adjacent slices make one. *)
Lemma slice_app {A : Type} (l : list A) i j k :
  0 <= i <= j -> j <= k <= Py.len l ->
  Py.slice l i j ++ Py.slice l j k = Py.slice l i k.
Proof.
  intros Hi Hj.
  rewrite (proj1 (slice_inside l i j ltac:(lia) ltac:(lia))).
  rewrite (proj1 (slice_inside l j k ltac:(lia) ltac:(lia))).
  rewrite (proj1 (slice_inside l i k ltac:(lia) ltac:(lia))).
  replace (Z.to_nat (k - i)) with (Z.to_nat (j - i) + Z.to_nat (k - j))%nat by lia.
  rewrite firstn_add, skipn_skipn.
  replace (Z.to_nat (j - i) + Z.to_nat i)%nat with (Z.to_nat j) by lia.
  reflexivity.
Qed.

(** Bounds that are not negative are clipped to the length of the list. *)
Lemma slice_clip {A : Type} (l : list A) i j :
  0 <= i -> 0 <= j ->
  Py.slice l i j = Py.slice l (Z.min i (Py.len l)) (Z.min j (Py.len l)).
Proof.
  intros Hi Hj. pose proof (len_nonneg l). unfold Py.slice, Py.slice_index.
  destruct (i <? 0) eqn:E1; [lia|]. destruct (j <? 0) eqn:E2; [lia|].
  destruct (Z.min i (Py.len l) <? 0) eqn:E3; [lia|].
  destruct (Z.min j (Py.len l) <? 0) eqn:E4; [lia|].
  now rewrite <- !Z.min_assoc, !Z.min_id.
Qed.

(** The same up to the end of the list, wherever the middle bound lies: a
    slice that starts past the end is empty. *)
Lemma slice_app_end {A : Type} (l : list A) i j :
  0 <= i <= j ->
  Py.slice l i j ++ Py.slice l j (Py.len l) = Py.slice l i (Py.len l).
Proof.
  intros Hi. pose proof (len_nonneg l).
  rewrite (slice_clip l i j), (slice_clip l j (Py.len l)),
    (slice_clip l i (Py.len l)) by lia.
  apply slice_app; lia.
Qed.

(** The pieces between increasing bounds, put together, are the text from
    the first bound on, also when bounds lie past the end of the text. *)
Lemma pieces_concat line bounds :
  forall b0, 0 <= b0 -> increasing_from b0 bounds ->
  concat (pieces line b0 (bounds ++ [Py.len line])) = Py.slice line b0 (Py.len line).
Proof.
  induction bounds as [|b bounds IH]; intros b0 Hb0 Hinc.
  - unfold pieces. cbn [app combine map concat fst snd]. apply app_nil_r.
  - destruct Hinc as [Hb Hinc].
    change (concat (pieces line b0 ((b :: bounds) ++ [Py.len line])))
      with (Py.slice line b0 b ++ concat (pieces line b (bounds ++ [Py.len line]))).
    rewrite IH by (assumption || lia).
    apply slice_app_end; lia.
Qed.

Lemma slice_whole {A : Type} (l : list A) : Py.slice l 0 (Py.len l) = l.
Proof.
  pose proof (len_nonneg l).
  rewrite (proj1 (slice_inside l 0 (Py.len l) ltac:(lia) ltac:(lia))).
  cbn [Z.to_nat skipn]. rewrite Z.sub_0_r, to_nat_len. apply firstn_all.
Qed.

Lemma divide_concat line offs :
  increasing_from 0 offs -> concat (Rich.divide line offs) = line.
Proof.
  intros Hinc.
  rewrite divide_eq_pieces, pieces_concat by (assumption || lia).
  apply slice_whole.
Qed.

Lemma nth_error_combine {A B : Type} (l1 : list A) (l2 : list B) :
  forall n a b, nth_error l1 n = Some a -> nth_error l2 n = Some b ->
  nth_error (combine l1 l2) n = Some (a, b).
Proof.
  revert l2. induction l1 as [|x l1 IH]; intros l2 n a b H1 H2.
  - destruct n; discriminate.
  - destruct l2 as [|y l2]; [destruct n; discriminate|].
    destruct n as [|n]; cbn [nth_error combine] in *.
    + now injection H1 as <-; injection H2 as <-.
    + now apply IH.
Qed.

(** X14.  When the wrap offsets kept for a line are positive and strictly
    increasing, [get_sections] cuts the line, its control codes removed,
    without losing or repeating a character: there is one section more than
    there are offsets, and the sections put together are the line without
    its control codes.  The offsets need not lie within the line: a section
    that would start past the end is empty. *)
Theorem get_sections_concat document self line_index line line_offsets :
  Document.get_line document line_index = inr line ->
  Py.getitem (WrappedDocument._wrap_offsets self) line_index = inr line_offsets ->
  increasing_from 0 line_offsets ->
  exists sections,
    WrappedDocument.get_sections document self line_index = inr sections
    /\ Py.len sections = Py.len line_offsets + 1
    /\ concat sections = Rich.strip_control_codes line.
Proof.
  intros Hline Hoffsets Hinc.
  exists (Rich.divide (Rich.strip_control_codes line) line_offsets).
  split; [|split].
  - unfold WrappedDocument.get_sections. rewrite Hoffsets. cbn [Py.bind].
    rewrite Hline. reflexivity.
  - apply len_divide.
  - apply divide_concat, Hinc.
Qed.

(** The loop of [lines], from the lines [todo] on: it stops with
    [IndexError] at the first line the index has no wrap offsets for. *)
Lemma lines_loop (wrap_offsets : list (list Z)) :
  forall todo rest done wrapped_lines, wrap_offsets = done ++ rest ->
  Py.for_each (Py.enumerate todo (Py.len done))
    (fun (wrapped_lines : list (list str)) (item : Z * str) =>
       let '(line_index, line) := item in
       line_offsets <- Py.getitem wrap_offsets line_index ;;
       let divided := Rich.divide (Rich.strip_control_codes line) line_offsets in
       Py.ret (wrapped_lines ++ [divided]))
    wrapped_lines
  = if Py.len todo <=? Py.len rest
    then inr (wrapped_lines
              ++ map (fun item : str * list Z =>
                        Rich.divide (Rich.strip_control_codes (fst item)) (snd item))
                     (combine todo rest))
    else inl Py.IndexError.
Proof.
  induction todo as [|line todo IH]; intros rest done wrapped_lines Hoffsets.
  - rewrite enumerate_nil. cbn [Py.for_each combine map]. rewrite app_nil_r.
    pose proof (len_nonneg rest). rewrite len_nil.
    destruct (0 <=? Py.len rest) eqn:E; [reflexivity | lia].
  - rewrite enumerate_cons. cbn [Py.for_each].
    pose proof (len_nonneg todo). destruct rest as [|line_offsets rest].
    + rewrite getitem_past_end
        by (rewrite Hoffsets, app_nil_r; lia).
      cbn [Py.bind]. rewrite len_cons, len_nil.
      destruct (1 + Py.len todo <=? 0) eqn:E; [lia | reflexivity].
    + assert (Py.getitem wrap_offsets (Py.len done) = inr line_offsets) as ->
        by (rewrite Hoffsets; apply getitem_app_cons).
      cbn [Py.bind Py.ret].
      replace (Py.len done + 1) with (Py.len (done ++ [line_offsets]))
        by (rewrite len_app, len_cons, len_nil; lia).
      rewrite (IH rest) by (rewrite <- app_assoc; exact Hoffsets).
      rewrite !len_cons. cbn [combine map fst snd]. rewrite <- app_assoc.
      destruct (Py.len todo <=? Py.len rest) eqn:E1;
        destruct (1 + Py.len todo <=? 1 + Py.len rest) eqn:E2;
        try lia; reflexivity.
Qed.

(** X15.  [lines] returns exactly when the index keeps wrap offsets for at
    least as many lines as the document has, as it does after [wrap]; with
    fewer it raises [IndexError].  When it returns there is one entry for
    every line of the document, and the entry of a line is what
    [get_sections] returns for it. *)
Theorem lines_are_sections document self :
  if Document.line_count document <=? Py.len (WrappedDocument._wrap_offsets self)
  then
    exists wrapped_lines,
      WrappedDocument.lines document self = inr wrapped_lines
      /\ Py.len wrapped_lines = Document.line_count document
      /\ forall line_index, 0 <= line_index < Document.line_count document ->
         exists sections,
           WrappedDocument.get_sections document self line_index = inr sections
           /\ Py.getitem wrapped_lines line_index = inr sections
  else WrappedDocument.lines document self = inl Py.IndexError.
Proof.
  pose proof (lines_loop (WrappedDocument._wrap_offsets self) document
                (WrappedDocument._wrap_offsets self) [] [] eq_refl) as Hloop.
  cbn [app] in Hloop. change (Py.len (@nil (list Z))) with 0 in Hloop.
  unfold Document.line_count.
  destruct (Py.len document <=? Py.len (WrappedDocument._wrap_offsets self)) eqn:E;
    [|exact Hloop].
  eexists. split; [exact Hloop | split].
  - unfold Py.len in *. rewrite length_map, length_combine. lia.
  - intros line_index Hli.
    destruct (getitem_in_range document line_index Hli) as (line & Gline).
    destruct (getitem_in_range (WrappedDocument._wrap_offsets self) line_index
                ltac:(lia)) as (line_offsets & Goffsets).
    exists (Rich.divide (Rich.strip_control_codes line) line_offsets). split.
    + unfold WrappedDocument.get_sections, Document.get_line.
      rewrite Goffsets. cbn [Py.bind]. rewrite Gline. reflexivity.
    + apply getitem_nth_error; [lia|].
      rewrite nth_error_map.
      rewrite (nth_error_combine _ _ _ line line_offsets)
        by (apply getitem_inr_nth_error; (lia || assumption)).
      reflexivity.
Qed.

(** ** The last section, counted from the end *)

Lemma getitem_from_end {A : Type} (l : list A) :
  Py.getitem l (-1) = Py.getitem l (Py.len l - 1).
Proof.
  destruct l as [|x l]; [reflexivity|].
  pose proof (len_nonneg l). unfold Py.getitem.
  change (-1 <? 0) with true. cbn match.
  rewrite len_cons.
  destruct (1 + Py.len l - 1 <? 0) eqn:E; [lia|].
  replace (-1 + (1 + Py.len l)) with (1 + Py.len l - 1) by lia.
  reflexivity.
Qed.

Lemma slice_to_from_end {A : Type} (l : list A) :
  l <> [] -> Py.slice_to l (-1) = Py.slice_to l (Py.len l - 1).
Proof.
  intros Hl. destruct l as [|x l]; [contradiction|].
  pose proof (len_nonneg l). unfold Py.slice_to, Py.slice, Py.slice_index.
  change (-1 <? 0) with true. cbn match. rewrite len_cons.
  destruct (1 + Py.len l - 1 <? 0) eqn:E; [lia|].
  rewrite Z.max_r, Z.min_l by lia. do 3 f_equal. lia.
Qed.

Section LastSection.

Variable divide_line : str -> Z -> list Z.

Local Abbreviation index := (index_of divide_line).

(** X16.  For [get_target_document_column] the section index -1 is the last
    section of the line: the column is the one found for the index of the
    last section, and is not held back to the section's last character. *)
Theorem target_column_from_end width document self line_index line x tab_width :
  edited_from divide_line width document self ->
  0 <= line_index ->
  Document.get_line document line_index = inr line ->
  get_target_document_column document self line_index x (-1) tab_width
  = get_target_document_column document self line_index x
      (Py.len (WrappedDocument.wrap_offsets_of divide_line width line)) tab_width.
Proof.
  intros Hself Hli Hline. apply edited_from_index in Hself. subst self.
  set (offs := WrappedDocument.wrap_offsets_of divide_line width line).
  assert (WrappedDocument.get_sections document (index width document) line_index
          = inr (Rich.divide (Rich.strip_control_codes line) offs)) as Gsections.
  { unfold WrappedDocument.get_sections, index_of, Document.lines.
    cbn [WrappedDocument._wrap_offsets].
    unfold offsets_of. rewrite getitem_map by lia.
    unfold Document.get_line in *. rewrite Hline. reflexivity. }
  pose proof (len_divide (Rich.strip_control_codes line) offs) as Hlen.
  pose proof (len_nonneg offs) as Hoffs.
  set (sections := Rich.divide (Rich.strip_control_codes line) offs) in *.
  assert (sections <> []) as Hsome by (intros E; rewrite E in Hlen; cbn in Hlen; lia).
  unfold WrappedDocument.get_target_document_column.
  rewrite Gsections. cbn [Py.bind].
  rewrite getitem_from_end, (slice_to_from_end sections Hsome), Hlen.
  replace (Py.len offs + 1 - 1) with (Py.len offs) by lia.
  destruct (Py.getitem sections (Py.len offs)) as [e|section]; [reflexivity|].
  cbn [Py.bind Py.ret].
  destruct (Z.eqb_spec (-1) (Py.len offs)); [lia|].
  rewrite !Z.eqb_refl. cbn [negb andb]. reflexivity.
Qed.

End LastSection.

(** ** A document without lines *)

Lemma getitem_nil {A : Type} i : Py.getitem (@nil A) i = inl Py.IndexError.
Proof.
  unfold Py.getitem. destruct (i <? 0); cbn [Py.len length Z.of_nat].
  - destruct (i + 0 <? 0); [reflexivity|]. now destruct (Z.to_nat (i + 0)).
  - destruct (i <? 0); [reflexivity|]. now destruct (Z.to_nat i).
Qed.

Section EmptyDocument.

Variable divide_line : str -> Z -> list Z.

(** X17.  The index of a document without lines has no rows, and nothing can
    be asked of it: [offset_to_location] raises [IndexError] for every
    offset, [location_to_offset] raises [ValueError] for every location, and
    [wrap_range] raises [IndexError] whatever the edit. *)
Theorem empty_document_raises width document self :
  edited_from divide_line width document self ->
  Document.line_count document = 0 ->
  WrappedDocument.height self = 0
  /\ (forall offset tab_width,
        offset_to_location document self offset tab_width
        = inl Py.IndexError)
  /\ (forall location tab_width,
        location_to_offset document self location tab_width
        = inl Py.ValueError)
  /\ (forall document' start old_end new_end,
        WrappedDocument.wrap_range divide_line document' self start old_end new_end
        = inl Py.IndexError).
Proof.
  intros Hself Hempty. apply edited_from_index in Hself. subst self.
  destruct document as [|line document];
    [|unfold Document.line_count, Document.lines in Hempty; rewrite len_cons in Hempty;
      pose proof (len_nonneg document); lia].
  split; [reflexivity|]. split; [|split].
  - intros [x y] tab_width. unfold WrappedDocument.offset_to_location, index_of.
    cbn [WrappedDocument._width WrappedDocument._wrap_offsets
         WrappedDocument._offset_to_line_info Document.lines offsets_of map
         line_info_from].
    destruct (width =? 0).
    + unfold Document.get_line. rewrite getitem_nil. reflexivity.
    + rewrite !getitem_nil. reflexivity.
  - intros [line_index column_index] tab_width.
    unfold WrappedDocument.location_to_offset, WrappedDocument.get_offsets, index_of.
    cbn [WrappedDocument._wrap_offsets WrappedDocument._line_index_to_offsets
         Document.lines offsets_of map y_offsets_from].
    change (Py.len (@nil (list Z))) with 0.
    set (li := Geometry.clamp line_index 0 0).
    destruct (Z.ltb_spec li 0); [reflexivity|].
    destruct (Z.leb_spec 0 li); [reflexivity | lia].
  - intros document' [start_line start_column] [old_line old_column]
      [new_line new_column].
    unfold WrappedDocument.wrap_range, index_of.
    cbn [WrappedDocument._line_index_to_offsets Document.lines offsets_of map
         y_offsets_from].
    rewrite getitem_nil. reflexivity.
Qed.

End EmptyDocument.

(** ** The default constructor *)

Section Unwrapped.

Variable divide_line : str -> Z -> list Z.

Local Abbreviation offsets := (offsets_of divide_line).

Lemma line_info_from_unwrapped lines :
  forall li0 i, 0 <= i < Py.len lines ->
  Py.getitem (line_info_from li0 (offsets 0 lines)) i = inr (li0 + i, 0).
Proof.
  induction lines as [|line lines IH]; intros li0 i Hi.
  - change (Py.len (@nil str)) with 0 in Hi. lia.
  - rewrite len_cons in Hi.
    change (line_info_from li0 (offsets 0 (line :: lines)))
      with ((li0, 0) :: line_info_from (li0 + 1) (offsets 0 lines)).
    destruct (Z.eq_dec i 0) as [->|Hne].
    + rewrite Z.add_0_r. reflexivity.
    + rewrite getitem_cons_r by lia. rewrite IH by lia.
      replace (li0 + 1 + (i - 1)) with (li0 + i) by lia. reflexivity.
Qed.

Lemma y_offsets_from_unwrapped lines :
  forall y0 i, 0 <= i < Py.len lines ->
  Py.getitem (y_offsets_from y0 (offsets 0 lines)) i = inr [y0 + i].
Proof.
  induction lines as [|line lines IH]; intros y0 i Hi.
  - change (Py.len (@nil str)) with 0 in Hi. lia.
  - rewrite len_cons in Hi.
    change (y_offsets_from y0 (offsets 0 (line :: lines)))
      with (Py.range y0 (y0 + 0 + 1) :: y_offsets_from (y0 + 0 + 1) (offsets 0 lines)).
    rewrite range_cons, range_nil by lia.
    destruct (Z.eq_dec i 0) as [->|Hne].
    + rewrite Z.add_0_r. reflexivity.
    + rewrite getitem_cons_r by lia. rewrite IH by lia.
      replace (y0 + 0 + 1 + (i - 1)) with (y0 + i) by lia. reflexivity.
Qed.

(** X18.  Built without a width, a [WrappedDocument] is not wrapped: the
    constructor returns whatever the document and the breaker, there are as
    many rows as lines, row [i] is section 0 of line [i], line [i] has the
    one row [i], and no line has a wrap offset. *)
Theorem init_unwrapped document :
  exists self,
    WrappedDocument.init divide_line document 0 = inr self
    /\ WrappedDocument.height self = Document.line_count document
    /\ forall i, 0 <= i < Document.line_count document ->
       Py.getitem (WrappedDocument._offset_to_line_info self) i = inr (i, 0)
       /\ Py.getitem (WrappedDocument._line_index_to_offsets self) i = inr [i]
       /\ WrappedDocument.get_offsets self i = inr [].
Proof.
  exists (index_of divide_line 0 document).
  split; [apply wrap_eq|]. split.
  - unfold WrappedDocument.height, index_of, Document.line_count, Document.lines.
    cbn [WrappedDocument._wrap_offsets].
    apply (row_count_unwrapped divide_line document).
  - intros i Hi. unfold Document.line_count, Document.lines in Hi.
    unfold index_of, Document.lines.
    cbn [WrappedDocument._offset_to_line_info WrappedDocument._line_index_to_offsets].
    split; [|split].
    + rewrite line_info_from_unwrapped by assumption. reflexivity.
    + rewrite y_offsets_from_unwrapped by assumption. reflexivity.
    + unfold WrappedDocument.get_offsets. cbn [WrappedDocument._wrap_offsets].
      rewrite len_offsets.
      destruct (Z.ltb_spec i 0); [lia|].
      destruct (Z.leb_spec (Py.len document) i); [lia|]. cbn [orb].
      unfold offsets_of. rewrite getitem_map by lia.
      destruct (getitem_in_range document i Hi) as (line & ->). reflexivity.
Qed.

End Unwrapped.
End Measured.

(** ** The properties on the example documents *)

Lemma example_cell_size_nonneg : forall c, 0 <= Example.cell_size c.
Proof.
  intros c. unfold Example.cell_size.
  destruct (_ || _ || _)%bool; discriminate.
Defined.

Lemma location_to_offset_past_last_line_witness :
  WrappedDocument.location_to_offset Example.cell_size [str_of "abc"]
    (WrappedDocument.mk [[]] [(0, 0)] [[0]] 10) (1, 0) 4
  = inl Py.ValueError.
Proof.
  apply (location_to_offset_past_last_line Example.cell_size Example.divide_line 10).
  - apply edited_wrap. reflexivity.
  - discriminate.
Defined.

(** C3 as stated fails before a character that takes no cell: in the line
    "a", combining acute accent, "b", the location before the accent has
    the same [x] as the location after it, and comes back as the latter. *)
Lemma round_trip_fails_before_combining_mark :
  WrappedDocument.wrap Example.divide_line [[97; 769; 98]%N] 10
  = inr (WrappedDocument.mk [[]] [(0, 0)] [[0]] 10)
  /\ WrappedDocument.location_to_offset Example.cell_size [[97; 769; 98]%N]
       (WrappedDocument.mk [[]] [(0, 0)] [[0]] 10) (0, 1) 4
     = inr (1, 0)
  /\ WrappedDocument.offset_to_location Example.cell_size [[97; 769; 98]%N]
       (WrappedDocument.mk [[]] [(0, 0)] [[0]] 10) (1, 0) 4
     = inr (0, 2).
Proof. repeat split. Qed.

Lemma location_round_trip_witness :
  exists offset,
    WrappedDocument.location_to_offset Example.cell_size
      (Example.before ++ Example.new ++ Example.after) Example.rewrapped (2, 10) 4
    = inr offset
    /\ WrappedDocument.offset_to_location Example.cell_size
         (Example.before ++ Example.new ++ Example.after) Example.rewrapped offset 4
       = inr (2, 10).
Proof.
  apply (location_round_trip Example.cell_size example_cell_size_nonneg
           Example.divide_line 10
           (Example.before ++ Example.new ++ Example.after) Example.rewrapped
           2 10 4 (str_of "Fear is the mind-killer.")).
  - apply edited_wrap. reflexivity.
  - discriminate.
  - reflexivity.
  - discriminate.
  - reflexivity.
  - reflexivity.
  - split; discriminate.
  - split; [vm_compute; repeat split; reflexivity | vm_compute; repeat constructor; discriminate].
  - vm_compute. intros _. reflexivity.
Defined.

Lemma divide_line_raises_witness :
  Wrap.divide_line' Example.cell_size (str_of "I must not fear.") 10 4 true
  = inl Py.IndexError.
Proof.
  apply (divide_line_raises (Cells.cell_len Example.cell_size)
           (Tabs.get_tab_widths Example.cell_size)
           (Rich.chop_cells Example.cell_size)
           (str_of "I must not fear.") 10 4 true).
  - intros tab_widths H. vm_compute in H. injection H as <-. discriminate.
  - reflexivity.
Defined.

Lemma offset_to_location_unwrapped_witness :
  exists line,
    Document.get_line [str_of "abc"; str_of "de"; str_of "f"] 2 = inr line
    /\ WrappedDocument.offset_to_location Example.cell_size
         [str_of "abc"; str_of "de"; str_of "f"]
         (WrappedDocument.mk [[]; []; []] [(0, 0); (1, 0); (2, 0)] [[0]; [1]; [2]] 0)
         (5, 2) 4
       = inr (2, Z.min 5 (Py.len line)).
Proof.
  apply (offset_to_location_unwrapped Example.cell_size Example.divide_line
           [str_of "abc"; str_of "de"; str_of "f"]
           (WrappedDocument.mk [[]; []; []] [(0, 0); (1, 0); (2, 0)] [[0]; [1]; [2]] 0)
           5 2 4).
  - apply edited_wrap. reflexivity.
  - reflexivity.
Defined.

Lemma get_offsets_of_line_witness :
  WrappedDocument.get_offsets Example.rewrapped 2 = inr [8; 12; 22]
  /\ WrappedDocument.get_offsets Example.rewrapped (-1) = inl Py.ValueError
  /\ WrappedDocument.get_offsets Example.rewrapped 4 = inl Py.ValueError.
Proof.
  assert (edited_from Example.divide_line 10
            (Example.before ++ Example.new ++ Example.after) Example.rewrapped) as H
    by (apply edited_wrap; reflexivity).
  split; [|split].
  - exact (get_offsets_of_line Example.divide_line 10 _ Example.rewrapped 2 H).
  - exact (get_offsets_of_line Example.divide_line 10 _ Example.rewrapped (-1) H).
  - exact (get_offsets_of_line Example.divide_line 10 _ Example.rewrapped 4 H).
Defined.

Lemma offset_to_location_returns_witness :
  exists location,
    WrappedDocument.offset_to_location Example.cell_size
      (Example.before ++ Example.new ++ Example.after) Example.rewrapped (300, 300) 4
    = inr location.
Proof.
  apply (offset_to_location_returns Example.cell_size Example.divide_line 10
           (Example.before ++ Example.new ++ Example.after) Example.rewrapped
           (300, 300) 4).
  - apply edited_wrap. reflexivity.
  - reflexivity.
  - reflexivity.
Defined.

Lemma place_chunk_within_width_witness :
  Wrap.cell_offset
    (Wrap.place_chunk (Cells.cell_len Example.cell_size)
       (Rich.chop_cells Example.cell_size) 10 true 12
       (str_of "mind-killer.") 12 (Wrap.mk_breaker [8] 4)) <= 10
  \/ exists c,
       10 < Example.cell_size c
       /\ Wrap.cell_offset
            (Wrap.place_chunk (Cells.cell_len Example.cell_size)
               (Rich.chop_cells Example.cell_size) 10 true 12
               (str_of "mind-killer.") 12 (Wrap.mk_breaker [8] 4))
          = Example.cell_size c.
Proof.
  apply (place_chunk_within_width Example.cell_size 10 12 (str_of "mind-killer.") 12
           (Wrap.mk_breaker [8] 4)); discriminate.
Defined.

Lemma place_chunk_breaks_witness :
  exists added,
    Wrap.break_positions
      (Wrap.place_chunk (Cells.cell_len Example.cell_size)
         (Rich.chop_cells Example.cell_size) 10 true 12
         (str_of "mind-killer.") 12 (Wrap.mk_breaker [8] 4))
    = [8] ++ added
    /\ nondecreasing_from 12 added
    /\ Forall (fun p => 0 < p <= 12 + 12) added.
Proof.
  apply (place_chunk_breaks Example.cell_size 10 true 12 (str_of "mind-killer.") 12
           (Wrap.mk_breaker [8] 4)).
  discriminate.
Defined.

Lemma wrap_range_unchanged_lines_witness :
  WrappedDocument.wrap_range Example.divide_line
    (Example.before ++ Example.old ++ Example.after) Example.wrapped
    (1, 3) (1, 9) (1, 9)
  = inr Example.wrapped.
Proof.
  apply (wrap_range_unchanged_lines Example.divide_line 10
           Example.before Example.old Example.after (1, 3) (1, 9) (1, 9)
           Example.wrapped).
  - apply edited_wrap. reflexivity.
  - unfold describes_edit. repeat split; discriminate.
Defined.

Lemma wrap_range_returns_witness :
  exists self',
    WrappedDocument.wrap_range Example.divide_line
      (Example.before ++ Example.new ++ Example.after) Example.wrapped
      (-7, 0) (99, 5) (42, -1)
    = inr self'
    /\ WrappedDocument._width self' = 10.
Proof.
  apply (wrap_range_returns Example.divide_line 10
           (Example.before ++ Example.old ++ Example.after)
           (Example.before ++ Example.new ++ Example.after) Example.wrapped
           (-7, 0) (99, 5) (42, -1)).
  - apply edited_wrap. reflexivity.
  - reflexivity.
  - reflexivity.
Defined.

Lemma location_to_offset_returns_witness :
  exists x y column,
    WrappedDocument.location_to_offset Example.cell_size
      (Example.before ++ Example.new ++ Example.after) Example.rewrapped (-2, 300) 4
    = inr (x, y)
    /\ 0 <= x
    /\ 0 <= y < WrappedDocument.height Example.rewrapped
    /\ WrappedDocument.offset_to_location Example.cell_size
         (Example.before ++ Example.new ++ Example.after) Example.rewrapped (x, y) 4
       = inr (Z.max 0 (-2), column).
Proof.
  apply (location_to_offset_returns Example.cell_size example_cell_size_nonneg
           Example.divide_line 10
           (Example.before ++ Example.new ++ Example.after) Example.rewrapped (-2) 300 4).
  - apply edited_wrap. reflexivity.
  - reflexivity.
  - reflexivity.
  - reflexivity.
Defined.

Lemma example_sane_offsets :
  forall line, In line (Example.before ++ Example.new ++ Example.after) ->
  sane_offsets (Rich.strip_control_codes line) (Example.divide_line line 10).
Proof.
  intros line Hin. cbn in Hin.
  repeat (destruct Hin as [<- | Hin];
          [split; [vm_compute; repeat split; reflexivity
                  | vm_compute; repeat constructor; discriminate]|]).
  destruct Hin.
Defined.

Lemma offset_to_location_on_row_witness :
  exists line_index column x',
    WrappedDocument.offset_to_location Example.cell_size
      (Example.before ++ Example.new ++ Example.after) Example.rewrapped (7, 3) 4
    = inr (line_index, column)
    /\ WrappedDocument.location_to_offset Example.cell_size
         (Example.before ++ Example.new ++ Example.after) Example.rewrapped
         (line_index, column) 4
       = inr (x', 3)
    /\ 0 <= x' <= Z.max 0 7.
Proof.
  apply (offset_to_location_on_row Example.cell_size example_cell_size_nonneg
           Example.divide_line 10
           (Example.before ++ Example.new ++ Example.after) Example.rewrapped 7 3 4).
  - apply edited_wrap. reflexivity.
  - discriminate.
  - reflexivity.
  - exact example_sane_offsets.
  - split; [discriminate | reflexivity].
Defined.

Lemma offset_to_location_in_document_witness :
  exists line_index column line,
    WrappedDocument.offset_to_location Example.cell_size
      (Example.before ++ Example.new ++ Example.after) Example.rewrapped (-5, 300) 4
    = inr (line_index, column)
    /\ 0 <= line_index
    /\ Document.get_line (Example.before ++ Example.new ++ Example.after) line_index
       = inr line
    /\ 0 <= column <= Py.len line.
Proof.
  apply (offset_to_location_in_document Example.cell_size example_cell_size_nonneg
           Example.divide_line 10
           (Example.before ++ Example.new ++ Example.after) Example.rewrapped
           (-5, 300) 4).
  - apply edited_wrap. reflexivity.
  - reflexivity.
  - reflexivity.
  - exact example_sane_offsets.
Defined.

(** Three bells before "ab cd", wrapped at width 3: the wrap offset 6 is
    counted on the line as it is, and lies past the end of the line as
    [get_sections] cuts it, which has five characters. *)
Lemma get_sections_concat_witness :
  exists sections,
    WrappedDocument.get_sections [[7; 7; 7; 97; 98; 32; 99; 100]%N]
      (WrappedDocument.mk [[6]] [(0, 0); (0, 1)] [[0; 1]] 3) 0
    = inr sections
    /\ Py.len sections = Py.len [6] + 1
    /\ concat sections
       = Rich.strip_control_codes [7; 7; 7; 97; 98; 32; 99; 100]%N.
Proof.
  apply (get_sections_concat [[7; 7; 7; 97; 98; 32; 99; 100]%N]
           (WrappedDocument.mk [[6]] [(0, 0); (0, 1)] [[0; 1]] 3) 0
           [7; 7; 7; 97; 98; 32; 99; 100]%N [6]).
  - reflexivity.
  - reflexivity.
  - cbn. split; [reflexivity | exact I].
Defined.

Lemma target_column_from_end_witness :
  WrappedDocument.get_target_document_column Example.cell_size
    (Example.before ++ Example.new ++ Example.after) Example.rewrapped 2 3 (-1) 4
  = WrappedDocument.get_target_document_column Example.cell_size
      (Example.before ++ Example.new ++ Example.after) Example.rewrapped 2 3
      (Py.len (WrappedDocument.wrap_offsets_of Example.divide_line 10
                 (str_of "Fear is the mind-killer."))) 4.
Proof.
  apply (target_column_from_end Example.cell_size Example.divide_line 10
           (Example.before ++ Example.new ++ Example.after) Example.rewrapped 2
           (str_of "Fear is the mind-killer.") 3 4).
  - apply edited_wrap. reflexivity.
  - discriminate.
  - reflexivity.
Defined.

Lemma empty_document_raises_witness :
  WrappedDocument.height (WrappedDocument.mk [] [] [] 10) = 0
  /\ (forall offset tab_width,
        WrappedDocument.offset_to_location Example.cell_size []
          (WrappedDocument.mk [] [] [] 10) offset tab_width
        = inl Py.IndexError)
  /\ (forall location tab_width,
        WrappedDocument.location_to_offset Example.cell_size []
          (WrappedDocument.mk [] [] [] 10) location tab_width
        = inl Py.ValueError)
  /\ (forall document' start old_end new_end,
        WrappedDocument.wrap_range Example.divide_line document'
          (WrappedDocument.mk [] [] [] 10) start old_end new_end
        = inl Py.IndexError).
Proof.
  apply (empty_document_raises Example.cell_size Example.divide_line 10 []).
  - apply edited_wrap. reflexivity.
  - reflexivity.
Defined.
